(** * Admin console: permission evaluator, status badges, listing,
      proxy routes and users pages.

    A shallow embedding of the logic of the admin console:
    - [Permissions]: [getProjectRequestPermissions] and [getStatusBadge]
      (lib/projectRequestPermissions); [Parsed]: the evaluator on values
      that are not of its declared types;
    - [Listing], [ListingPage]: the rows, filters, selection, status
      updates and bulk actions of the project-requests page;
    - [Proxy], [UsersRoute], [DocumentRoute]: the handlers of the
      users/[id] route and of the document route;
    - [UsersPage], [UsersView]: the paginated drain of [fetchUsers] and
      the filtered, paginated view of the users;
    - [EditUserModal]: the tracking of the changed fields. *)

From Stdlib Require Import ZArith NArith QArith String Ascii List Bool Lia DecimalString.
From stdpp Require Import base option list strings gmap.
Import ListNotations.

Set Warnings "-register-all".
Local Open Scope string_scope.

(** ** JavaScript primitives used by the sources *)

Module JS.

(** The outcome of running code that may throw. *)
Inductive Exc (A : Type) : Type :=
| Returns (a : A)
| Throws (e : string).
Arguments Returns {A} a.
Arguments Throws {A} e.

Definition bind {A B} (c : Exc A) (k : A -> Exc B) : Exc B :=
  match c with
  | Returns a => k a
  | Throws e => Throws e
  end.

(** [try { c } catch { h }] *)
Definition try_catch {A} (c : Exc A) (h : string -> Exc A) : Exc A :=
  match c with
  | Returns a => Returns a
  | Throws e => h e
  end.

(** A reference of type [T | null | undefined]. *)
Inductive Nullable (A : Type) : Type :=
| Null
| Undefined
| Ref (a : A).
Arguments Null {A}.
Arguments Undefined {A}.
Arguments Ref {A} a.

(** Truthiness of a reference: objects are truthy, [null] and
    [undefined] are not. *)
Definition truthyRef {A} (r : Nullable A) : bool :=
  match r with
  | Ref _ => true
  | _ => false
  end.

(** [r.f]: reading a property of [null] or [undefined] throws. *)
Definition prop {A B} (r : Nullable A) (f : A -> B) : Exc B :=
  match r with
  | Ref a => Returns (f a)
  | Null => Throws "TypeError: Cannot read properties of null"
  | Undefined => Throws "TypeError: Cannot read properties of undefined"
  end.

(** [o?.f] on an optional object. *)
Definition optChain {A} (o : option A) (f : A -> option string) : option string :=
  match o with
  | Some a => f a
  | None => None
  end.

(** [a || b] where [a : string | undefined] and [b : string];
    the right operand is evaluated only when the left one is falsy. *)
Definition orStr (a : Exc (option string)) (b : Exc string) : Exc string :=
  bind a (fun v =>
    match v with
    | Some s => if String.eqb s "" then b else Returns s
    | None => b
    end).

(** The values the permission expressions range over: the operands of
    [&&] and [||] there are booleans and strings. *)
Inductive value : Type :=
| VBool (b : bool)
| VStr (s : string).

Definition truthy (v : value) : bool :=
  match v with
  | VBool b => b
  | VStr s => negb (String.eqb s "")
  end.

(** [a && b], [a || b] and [!a] on values (no operand here can throw). *)
Definition and_ (a b : value) : value := if truthy a then b else a.
Definition or_ (a b : value) : value := if truthy a then a else b.
Definition not_ (a : value) : value := VBool (negb (truthy a)).

(** [s.toString()] on a string. *)
Definition toString (s : string) : string := s.

(** [a === b] on strings, [a !== b]. *)
Definition strictEq (a b : string) : value := VBool (String.eqb a b).
Definition strictNe (a b : string) : value := VBool (negb (String.eqb a b)).

(** [l.includes(x)] on an array of strings. *)
Definition includes (l : list string) (x : string) : bool :=
  existsb (String.eqb x) l.

(** [hay.includes(needle)] on strings. *)
Definition strIncludes (hay needle : string) : bool :=
  match String.index 0 needle hay with
  | Some _ => true
  | None => false
  end.

(** [n.toString()] and [`${n}`] for a non-negative integer. *)
Definition numToString (n : N) : string :=
  NilEmpty.string_of_uint (N.to_uint n).

(** The double quote character, for template literals that contain it. *)
Definition dquote : string := String (ascii_of_nat 34) EmptyString.

(** A value produced by [JSON.parse] or written as an object literal.
    An object is the list of its own properties. *)
Inductive json : Type :=
| JNull
| JBool (b : bool)
| JNum (q : Q)
| JStr (s : string)
| JArr (items : list json)
| JObj (fields : list (string * json)).

(** Truthiness of a JSON value. *)
Definition jsonTruthy (v : json) : bool :=
  match v with
  | JNull => false
  | JBool b => b
  | JNum q => negb (Qeq_bool q 0)
  | JStr s => negb (String.eqb s "")
  | JArr _ => true
  | JObj _ => true
  end.

(** Truthiness of [v | undefined]. *)
Definition truthyOpt (v : option json) : bool :=
  match v with
  | Some j => jsonTruthy j
  | None => false
  end.

Fixpoint assoc (k : string) (fields : list (string * json)) : option json :=
  match fields with
  | [] => None
  | (k', v) :: rest => if String.eqb k k' then Some v else assoc k rest
  end.

(** [v.k] for the keys read by the sources ([data], [users], [items],
    [pagination], [hasMore], [id], [_id], [message], [error]): none of
    them is defined on the prototypes of strings, numbers, booleans,
    arrays or objects, so only own properties of objects answer;
    [None] is [undefined]. Reading a property of [null] throws. *)
Definition getProp (v : json) (k : string) : Exc (option json) :=
  match v with
  | JNull => Throws "TypeError: Cannot read properties of null"
  | JObj fields => Returns (assoc k fields)
  | _ => Returns None
  end.

(** [v?.k] *)
Definition getPropOpt (v : option json) (k : string) : Exc (option json) :=
  match v with
  | None => Returns None
  | Some JNull => Returns None
  | Some j => getProp j k
  end.

(** [a || b] on [json | undefined], the right operand evaluated only
    when the left one is falsy. *)
Definition orJ (a : Exc (option json)) (b : Exc (option json)) : Exc (option json) :=
  bind a (fun v => if truthyOpt v then Returns v else b).

(** Code units that [String.prototype.trim] strips: WhiteSpace and
    LineTerminator of ECMA-262. *)
Definition isWhiteSpace (c : N) : bool :=
  existsb (N.eqb c)
    [9; 10; 11; 12; 13; 32; 160; 5760; 8232; 8233; 8239; 8287; 12288; 65279]%N
  || ((8192 <=? c)%N && (c <=? 8202)%N).

Fixpoint trimStart (s : list N) : list N :=
  match s with
  | [] => []
  | c :: rest => if isWhiteSpace c then trimStart rest else s
  end.

Definition trimEnd (s : list N) : list N := rev (trimStart (rev s)).

(** [s.trim()] on a string given by its UTF-16 code units. *)
Definition trim (s : list N) : list N := trimEnd (trimStart s).

End JS.

Notation "'exec' x ':=' c 'in' k" := (JS.bind c (fun x => k))
  (at level 10, x name, c at level 100, k at level 200).

(** ** lib/projectRequestPermissions *)

Module Permissions.
Import JS.

(** The embedded form of [submittedBy]: [{ _id?: string; id?: string }]. *)
Record Submitter : Type := {
  sb__id : option string;
  sb_id : option string
}.

(** [submittedBy?: string | { _id?: string; id?: string }] *)
Inductive SubmittedBy : Type :=
| SbString (s : string)
| SbObject (o : Submitter).

(** [interface ProjectRequest]; [status] ranges over all strings, the
    five declared literals among them. The [document] descriptor is not
    read by the functions below. *)
Record ProjectRequest : Type := {
  pr__id : option string;
  pr_id : option string;
  pr_status : string;
  pr_submittedBy : option SubmittedBy;
  pr_submittedById : option string
}.

(** [interface CurrentUser] *)
Record CurrentUser : Type := {
  cu_id : option string;
  cu__id : option string;
  cu_role : option string
}.

(** The record returned by [getProjectRequestPermissions]. *)
Record PermissionSet : Type := {
  canEdit : value;
  canChangeStatus : value;
  canViewDocument : value;
  canDelete : value;
  canApprove : value;
  canReject : value;
  isReadOnly : value;
  showAdminBadge : value
}.

(** The record of the early return. *)
Definition degenerate : PermissionSet := {|
  canEdit := VBool false;
  canChangeStatus := VBool false;
  canViewDocument := VBool false;
  canDelete := VBool false;
  canApprove := VBool false;
  canReject := VBool false;
  isReadOnly := VBool true;
  showAdminBadge := VBool false
|}.

(** [currentUser.id || currentUser._id || ''] *)
Definition userIdOf (currentUser : Nullable CurrentUser) : Exc string :=
  orStr (prop currentUser cu_id)
    (orStr (prop currentUser cu__id) (Returns "")).

(** [typeof submittedBy === 'string' ? submittedBy
      : submittedBy?._id || submittedBy?.id || submittedById || ''] *)
Definition submittedByIdOf (projectRequest : Nullable ProjectRequest) : Exc string :=
  exec sb := prop projectRequest pr_submittedBy in
  match sb with
  | Some (SbString s) => Returns s
  | _ =>
      let o := match sb with Some (SbObject o) => Some o | _ => None end in
      orStr (Returns (optChain o sb__id))
        (orStr (Returns (optChain o sb_id))
           (orStr (prop projectRequest pr_submittedById) (Returns "")))
  end.

(** [userId && submittedById && userId.toString() === submittedById.toString()] *)
Definition isOwnerOf (userId submittedById : string) : value :=
  and_ (and_ (VStr userId) (VStr submittedById))
       (strictEq (toString userId) (toString submittedById)).

Definition mentorRoles : list string := ["mentor"; "researcher"; "admin"].

Definition getProjectRequestPermissions
    (projectRequest : Nullable ProjectRequest)
    (currentUser : Nullable CurrentUser) : Exc PermissionSet :=
  if negb (truthyRef projectRequest) || negb (truthyRef currentUser) then
    Returns {|
      canEdit := VBool false;
      canChangeStatus := VBool false;
      canViewDocument := VBool false;
      canDelete := VBool false;
      canApprove := VBool false;
      canReject := VBool false;
      isReadOnly := VBool true;
      showAdminBadge := VBool false
    |}
  else
    exec userId := userIdOf currentUser in
    exec submittedById := submittedByIdOf projectRequest in
    let isOwner := isOwnerOf userId submittedById in
    exec role := prop currentUser cu_role in
    let isAdmin := VBool (bool_decide (role = Some "admin")) in
    let isMentorOrHigher := VBool (includes mentorRoles (default "" role)) in
    exec status := prop projectRequest pr_status in
    let isApproved := strictEq status "approved" in
    Returns {|
      canEdit :=
        or_ (or_ isAdmin
                 (and_ (and_ isOwner (not_ isApproved)) (strictNe status "rejected")))
            (and_ isMentorOrHigher (not_ isApproved));
      canChangeStatus := or_ isAdmin (and_ isMentorOrHigher (not_ isApproved));
      canViewDocument := or_ (or_ isAdmin isOwner) isMentorOrHigher;
      canDelete :=
        or_ isAdmin
            (and_ (and_ isOwner (strictNe status "approved"))
                  (strictNe status "under_review"));
      canApprove := and_ isMentorOrHigher (not_ isApproved);
      canReject := and_ isMentorOrHigher (not_ isApproved);
      isReadOnly := and_ isApproved (not_ isAdmin);
      showAdminBadge := and_ isApproved isAdmin
    |}.

(** [canEdit], [canChangeStatus], [canViewDocument]: the wrappers. *)
Definition canEdit' projectRequest currentUser : Exc value :=
  exec permissions := getProjectRequestPermissions projectRequest currentUser in
  Returns (canEdit permissions).

Definition canChangeStatus' projectRequest currentUser : Exc value :=
  exec permissions := getProjectRequestPermissions projectRequest currentUser in
  Returns (canChangeStatus permissions).

Definition canViewDocument' projectRequest currentUser : Exc value :=
  exec permissions := getProjectRequestPermissions projectRequest currentUser in
  Returns (canViewDocument permissions).

(** *** Status badge *)

(** The display tuple [{ color, text, icon, badge? }]. *)
Record Badge : Type := {
  color : string;
  text : string;
  icon : string;
  badge : option string
}.

(** The tuple of the early return for a missing status. *)
Definition unknownBadge : Badge :=
  {| color := "bg-gray-100 text-gray-800"; text := "Unknown";
     icon := "clock"; badge := None |}.

(** The object literal [badges]; the [approved] entry depends on the
    [canEdit] argument. *)
Definition badges (canEdit : bool) : gmap string Badge :=
  <["pending" := {| color := "bg-yellow-100 text-yellow-800"; text := "Pending";
                    icon := "clock"; badge := None |}]>
  (<["under_review" := {| color := "bg-blue-100 text-blue-800"; text := "Under Review";
                          icon := "eye"; badge := None |}]>
  (<["approved" := {| color := "bg-green-100 text-green-800"; text := "Approved";
                      icon := "check-circle";
                      badge := Some (if canEdit then "Admin-Only Editing" else "Read-Only") |}]>
  (<["rejected" := {| color := "bg-red-100 text-red-800"; text := "Rejected";
                      icon := "times-circle"; badge := None |}]>
  (<["on_hold" := {| color := "bg-gray-100 text-gray-800"; text := "On Hold";
                     icon := "pause"; badge := None |}]> ∅)))).

(** The property names every object literal inherits from
    [Object.prototype]; each of them reads as a function or an object,
    hence as a truthy value. *)
Definition objectPrototypeNames : list string :=
  ["constructor"; "hasOwnProperty"; "isPrototypeOf"; "propertyIsEnumerable";
   "toLocaleString"; "toString"; "valueOf"; "__proto__";
   "__defineGetter__"; "__defineSetter__"; "__lookupGetter__"; "__lookupSetter__"].

(** What reading [badges[key]] gives: an own entry, a member inherited
    from [Object.prototype], or [undefined]. *)
Inductive BadgeLookup : Type :=
| Tuple (b : Badge)
| PrototypeMember (name : string)
| NoEntry.

Definition readBadge (obj : gmap string Badge) (key : string) : BadgeLookup :=
  match obj !! key with
  | Some b => Tuple b
  | None => if includes objectPrototypeNames key then PrototypeMember key else NoEntry
  end.

Definition truthyLookup (v : BadgeLookup) : bool :=
  match v with
  | NoEntry => false
  | _ => true
  end.

Definition getStatusBadge (status : option string) (canEdit : bool) : BadgeLookup :=
  if negb (match status with Some s => negb (String.eqb s "") | None => false end) then
    Tuple {| color := "bg-gray-100 text-gray-800"; text := "Unknown";
             icon := "clock"; badge := None |}
  else
    let status := default "" status in
    let found := readBadge (badges canEdit) status in
    if truthyLookup found then found else readBadge (badges canEdit) "pending".

End Permissions.

(** ** app/project-requests/page.tsx *)

Module Listing.
Import JS Permissions.

(** The page's own [interface ProjectRequest], restricted to the fields
    the logic below reads. *)
Record ProjectRequest : Type := {
  _id : string;
  status : string;
  submittedBy : string;
  isDeleted : option bool;
  deletedAt : option string;
  deletedBy : option string
}.

(** [interface ProjectRequestFilters] *)
Record ProjectRequestFilters : Type := {
  f_search : string;
  f_status : string;
  f_mentorId : string;
  f_submittedBy : string;
  f_showDeleted : bool;
  f_deletedBy : string;
  f_sortBy : string;
  f_sortOrder : string
}.

(** The initial value of the [filters] state. *)
Definition initialFilters : ProjectRequestFilters := {|
  f_search := ""; f_status := ""; f_mentorId := ""; f_submittedBy := "";
  f_showDeleted := false; f_deletedBy := "";
  f_sortBy := "deletedAt"; f_sortOrder := "desc"
|}.

(** [filters.showDeleted || filters.status === 'deleted'] *)
Definition shouldUseDeletedEndpoint (filters : ProjectRequestFilters) : bool :=
  f_showDeleted filters || String.eqb (f_status filters) "deleted".

Definition endpoint (filters : ProjectRequestFilters) : string :=
  if shouldUseDeletedEndpoint filters
  then "/api/project-requests/deleted"
  else "/api/project-requests".

(** Truthiness of [request.isDeleted]. *)
Definition deleted (request : ProjectRequest) : bool :=
  default false (isDeleted request).

(** The request as [getProjectRequestPermissions] reads it: the
    evaluator's interface has no [isDeleted]. *)
Definition asEvaluated (request : ProjectRequest) : Permissions.ProjectRequest := {|
  pr__id := Some (_id request);
  pr_id := None;
  pr_status := status request;
  pr_submittedBy := Some (SbString (submittedBy request));
  pr_submittedById := None
|}.

(** [items.filter(r => r.status === s && !r.isDeleted).length] *)
Definition countStatus (s : string) (items : list ProjectRequest) : nat :=
  length (List.filter (fun r => String.eqb (status r) s && negb (deleted r)) items).

(** The buttons of the Actions cell. *)
Inductive Action : Type :=
| ViewDetails
| Approve
| Reject
| PutUnderReview
| PutOnHold
| ResetToPending
| AdminChangeStatus
| Delete.

(** [{cond && <button/>}] *)
Definition shown (cond : bool) (a : Action) : list Action :=
  if cond then [a] else [].

(** The Actions cell of a row: the link to the detail page, then, for a
    request that is not deleted, the buttons its permissions allow. *)
Definition rowActions (request : ProjectRequest)
    (currentUser : Nullable CurrentUser) : Exc (list Action) :=
  exec gated :=
    (if negb (deleted request) then
       exec permissions := getProjectRequestPermissions (Ref (asEvaluated request)) currentUser in
       let changes := truthy (canChangeStatus permissions) in
       Returns
         (shown (changes && negb (String.eqb (status request) "approved")) Approve
          ++ shown (changes && negb (String.eqb (status request) "rejected")) Reject
          ++ shown (changes && negb (String.eqb (status request) "under_review")) PutUnderReview
          ++ shown (changes && negb (String.eqb (status request) "on_hold")) PutOnHold
          ++ shown (changes && negb (String.eqb (status request) "pending")) ResetToPending
          ++ shown (match currentUser with
                    | Ref u => bool_decide (cu_role u = Some "admin")
                    | _ => false
                    end && String.eqb (status request) "approved") AdminChangeStatus
          ++ shown (truthy (canDelete permissions)) Delete)%list
     else Returns []) in
  Returns (ViewDetails :: gated).

(** Which rows the table shows: [projectRequests.map(...)] renders one
    row per fetched item. *)
Definition rows (projectRequests : list ProjectRequest) : list string :=
  map _id projectRequests.

End Listing.

(** ** app/api/users/[id]/route.ts: the [GET] handler *)

Module Proxy.
Import JS.

(** The inbound call: the [authorization] header and the [id] route
    parameter. *)
Record NextRequest : Type := {
  authorization : option string;
  id : string
}.

(** What [await response.text()] gives: the body, or a rejection. *)
Inductive BodyRead : Type :=
| Text (text : list N)
| ReadFails.

(** The backend's response as the handler reads it. *)
Record BackendResponse : Type := {
  status : N;
  contentTypeHeader : option string;
  body : BodyRead
}.

(** [response.ok]: the status is in the range 200-299. *)
Definition ok (response : BackendResponse) : bool :=
  ((200 <=? status response) && (status response <=? 299))%N.

(** What [await fetch(...)] gives: a response, or a rejection. *)
Inductive FetchOutcome : Type :=
| Responds (response : BackendResponse)
| FetchFails.

(** The outbound call of the handler. *)
Record Outbound : Type := {
  url : string;
  authorizationHeader : string
}.

(** The reply of the route: a status and a JSON body. *)
Record NextResponse : Type := {
  replyStatus : N;
  replyBody : json
}.

(** [NextResponse.json(body, { status })]: the constructor of a
    response refuses a status outside 200-599 with a RangeError and a
    body on a null-body status with a TypeError. *)
Definition NextResponse_json (body : json) (status : N) : Exc NextResponse :=
  if ((status <? 200) || (599 <? status))%N then
    Throws "RangeError: init.status must be in the range of 200 to 599"
  else if existsb (N.eqb status) [101; 204; 205; 304]%N then
    Throws "TypeError: Invalid response status code"
  else Returns {| replyStatus := status; replyBody := body |}.

Section Route.
(** [process.env.BACKEND_URL || '...'] *)
Variable backendUrl : string.
(** [JSON.parse]; [None] stands for the SyntaxError it throws. *)
Variable JSON_parse : list N -> option json.
(** The backend behind [fetch]. *)
Variable backend : Outbound -> FetchOutcome.

(** The [data] the handler derives from the backend's response
    (the inner [try]/[catch] around [response.text()]). *)
Definition readData (id : string) (response : BackendResponse) : json :=
  let contentType := default "" (contentTypeHeader response) in
  let isJson := strIncludes contentType "application/json" in
  match body response with
  | Text text =>
      if Nat.eqb (length text) 0 || Nat.eqb (length (trim text)) 0 then
        JObj []
      else if isJson then
        match JSON_parse text with
        | Some parsed => parsed
        | None =>
            JObj [("message",
                   JStr ("Backend returned invalid JSON (" +:+ numToString (status response) +:+ ")"));
                  ("error", JStr "Invalid JSON response from backend")]
        end
      else
        JObj [("message",
               JStr (if N.eqb (status response) 404
                     then "User with ID " +:+ dquote +:+ id +:+ dquote +:+ " not found"
                     else "Backend returned " +:+ numToString (status response) +:+ " error"));
              ("error", JStr "Non-JSON response from backend")]
  | ReadFails =>
      JObj [("message",
             JStr ("Failed to read backend response (" +:+ numToString (status response) +:+ ")"))]
  end.

(** [data.message || data.error?.message || `Failed to fetch user (...)`] *)
Definition errorMessage (data : json) (status : N) : Exc json :=
  exec m :=
    orJ (getProp data "message")
      (orJ (exec e := getProp data "error" in getPropOpt e "message")
         (Returns (Some (JStr ("Failed to fetch user (" +:+ numToString status +:+ ")"))))) in
  Returns (default JNull m).

(** The body of the outer [try]. *)
Definition handle (request : NextRequest) : Exc NextResponse :=
  let token := authorization request in
  if negb (match token with Some t => negb (String.eqb t "") | None => false end) then
    NextResponse_json
      (JObj [("success", JBool false);
             ("message", JStr "No authorization token provided")]) 401
  else
    match backend {| url := backendUrl +:+ "/api/users/" +:+ id request;
                     authorizationHeader := default "" token |} with
    | FetchFails => Throws "TypeError: fetch failed"
    | Responds response =>
        let data := readData (id request) response in
        if ok response then
          NextResponse_json data 200
        else
          exec message := errorMessage data (status response) in
          NextResponse_json
            (JObj [("success", JBool false); ("message", message)])
            (status response)
    end.

Definition GET (request : NextRequest) : Exc NextResponse :=
  try_catch (handle request)
    (fun _ =>
       NextResponse_json
         (JObj [("success", JBool false);
                ("message", JStr "Internal server error")]) 500).

End Route.

(** The envelope shape [{ success: boolean, message?, data? }]: an
    object whose [success] property is a boolean. *)
Definition isEnvelope (v : json) : bool :=
  match v with
  | JObj fields =>
      match assoc "success" fields with
      | Some (JBool _) => true
      | _ => false
      end
  | _ => false
  end.

(** An envelope that reports success, one that reports an error. *)
Definition successOf (v : json) : option bool :=
  match v with
  | JObj fields =>
      match assoc "success" fields with
      | Some (JBool b) => Some b
      | _ => None
      end
  | _ => None
  end.

End Proxy.

(** ** app/users/page.tsx: the drain of [fetchUsers] *)

Module UsersPage.
Import JS.

Inductive Tab : Type := Active | Deactivated.

(** The call [fetch(`${basePath}?${params}`, { headers })]; the query
    string carries [limit] and [skip] in decimal. *)
Record Call : Type := {
  basePath : string;
  limitParam : N;
  skipParam : N;
  authorizationHeader : string
}.

(** The response as the loop reads it; [jsonBody = None] stands for a
    rejected [response.json()]. *)
Record Response : Type := {
  status : N;
  retryAfter : option string;
  jsonBody : option json
}.

Definition ok (response : Response) : bool :=
  ((200 <=? status response) && (status response <=? 299))%N.

Inductive FetchOutcome : Type :=
| Responds (response : Response)
| FetchFails.

(** A user after normalization:
    [{ ...user, id: resolvedId || undefined,
       _id: user._id || resolvedId || undefined }]. *)
Record User : Type := {
  id : option string;
  _id : option json;
  spread : list (string * json)
}.

(** The own enumerable properties that [...user] copies. *)
Definition ownProperties (user : json) : list (string * json) :=
  match user with
  | JObj fields => fields
  | JArr items => imap (fun i v => (numToString (N.of_nat i), v)) items
  | JStr s =>
      imap (fun i c => (numToString (N.of_nat i), JStr (String c EmptyString)))
           (list_ascii_of_string s)
  | _ => []
  end.

(** [typeof v === 'string' && v] *)
Definition nonEmptyString (v : option json) : option string :=
  match v with
  | Some (JStr s) => if String.eqb s "" then None else Some s
  | _ => None
  end.

(** The callback of [rawUsers.map]. *)
Definition normalizeUser (user : json) : Exc User :=
  exec uid := getProp user "id" in
  exec resolvedId :=
    (match nonEmptyString uid with
     | Some s => Returns s
     | None =>
         exec u_id := getProp user "_id" in
         Returns (default "" (nonEmptyString u_id))
     end) in
  exec u_id := getProp user "_id" in
  let resolved := if String.eqb resolvedId "" then None else Some resolvedId in
  Returns {|
    id := resolved;
    _id := if truthyOpt u_id then u_id else JStr <$> resolved;
    spread := ownProperties user
  |}.

(** [l.map(f)] for a callback that may throw. *)
Fixpoint mapE {A B} (f : A -> Exc B) (l : list A) : Exc (list B) :=
  match l with
  | [] => Returns []
  | x :: rest =>
      exec y := f x in
      exec ys := mapE f rest in
      Returns (y :: ys)
  end.

(** The callback of [.filter((user) => user.id)]. *)
Definition hasId (user : User) : bool :=
  match id user with
  | Some s => negb (String.eqb s "")
  | None => false
  end.

(** [data.data?.users || data.data?.items || data.users || []] *)
Definition rawUsersOf (data : json) : Exc json :=
  exec found :=
    orJ (exec d := getProp data "data" in getPropOpt d "users")
      (orJ (exec d := getProp data "data" in getPropOpt d "items")
         (orJ (getProp data "users") (Returns (Some (JArr []))))) in
  Returns (default (JArr []) found).

(** [normalizedUsers]: [rawUsers.map(...).filter(...)]; only an array
    has a [map] method. *)
Definition normalizedUsersOf (data : json) : Exc (list User) :=
  exec rawUsers := rawUsersOf data in
  match rawUsers with
  | JArr items =>
      exec mapped := mapE normalizeUser items in
      Returns (List.filter hasId mapped)
  | _ => Throws "TypeError: rawUsers.map is not a function"
  end.

(** Truthiness of [data.data?.pagination?.hasMore]. *)
Definition hasMoreFlag (data : json) : Exc bool :=
  exec d := getProp data "data" in
  exec pagination := getPropOpt d "pagination" in
  exec flag := getPropOpt pagination "hasMore" in
  Returns (truthyOpt flag).

(** The batch size [const limit = 100]. *)
Definition limit : N := 100.

(** The message set on a response that is not ok. *)
Definition failureMessage (response : Response) : Exc json :=
  let errorBody := jsonBody response in
  if N.eqb (status response) 429 then
    let retryText :=
      match retryAfter response with
      | Some r => if String.eqb r "" then "a moment" else r +:+ " seconds"
      | None => "a moment"
      end in
    Returns (JStr ("Too many requests. Please wait " +:+ retryText +:+ " and try again."))
  else
    exec m :=
      orJ (getPropOpt errorBody "message")
        (orJ (getPropOpt errorBody "error")
           (Returns (Some (JStr "Failed to fetch users")))) in
    Returns (default JNull m).

(** How one pass through the body of [while (hasMore)] ends. *)
Inductive Pass : Type :=
| Continue (skip : N) (allFetchedUsers : list User)
| Break (allFetchedUsers : list User) (message : json)
| Done (allFetchedUsers : list User).

Section Drain.
Variable token : string.
Variable activeTab : Tab.
(** The server behind [fetch]. Every pass asks for another [skip], so
    a function of the call covers servers that change over time. *)
Variable server : Call -> FetchOutcome.

Definition callFor (skip : N) : Call := {|
  basePath := match activeTab with
              | Active => "/api/users"
              | Deactivated => "/api/users/deactivated"
              end;
  limitParam := limit;
  skipParam := skip;
  authorizationHeader := "Bearer " +:+ token
|}.

(** The body of the loop, from [skip] and [allFetchedUsers]. *)
Definition pass (skip : N) (allFetchedUsers : list User) : Exc Pass :=
  match server (callFor skip) with
  | FetchFails => Throws "TypeError: fetch failed"
  | Responds response =>
      if negb (ok response) then
        exec message := failureMessage response in
        Returns (Break allFetchedUsers message)
      else
        match jsonBody response with
        | None => Throws "SyntaxError: response.json() rejected"
        | Some data =>
            exec normalizedUsers := normalizedUsersOf data in
            if Nat.eqb (length normalizedUsers) 0 then
              Returns (Done allFetchedUsers)
            else
              let allFetchedUsers := (allFetchedUsers ++ normalizedUsers)%list in
              exec flag := hasMoreFlag data in
              let hasMore := flag || N.eqb (N.of_nat (length normalizedUsers)) limit in
              if hasMore
              then Returns (Continue (skip + limit) allFetchedUsers)
              else Returns (Done allFetchedUsers)
        end
  end.

(** The loop, with a bound on the number of passes; [None] when the
    bound is reached before the loop ends. At its exit the loop
    leaves [allFetchedUsers] and the message a [break] has set. *)
Fixpoint drain (fuel : nat) (skip : N) (allFetchedUsers : list User)
    : option (Exc (list User * option json)) :=
  match fuel with
  | O => None
  | S fuel' =>
      match pass skip allFetchedUsers with
      | Returns (Continue skip' all') => drain fuel' skip' all'
      | Returns (Break all' message) => Some (Returns (all', Some message))
      | Returns (Done all') => Some (Returns (all', None))
      | Throws e => Some (Throws e)
      end
  end.

End Drain.

(** *** The drain, page by page *)

(** What the answer to one call tells the loop. *)
Inductive Verdict : Type :=
| MoreData (users : list User)
| NoMoreData (users : list User)
| NotOk (message : json)
| Failed (e : string).

(** The verdict on an answer: more data, when the response is ok and its
    page normalizes to at least one user, with a truthy has-more flag or
    exactly [limit] users; no more data, when the page normalizes to no
    user, or to users with a falsy flag and a count other than [limit];
    a response that is not ok, with the message it gives rise to; an
    error, when the fetch or the decoding of the page throws. *)
Definition verdictOf (outcome : FetchOutcome) : Verdict :=
  match outcome with
  | FetchFails => Failed "TypeError: fetch failed"
  | Responds response =>
      if ok response then
        match jsonBody response with
        | None => Failed "SyntaxError: response.json() rejected"
        | Some data =>
            match normalizedUsersOf data with
            | Throws e => Failed e
            | Returns [] => NoMoreData []
            | Returns users =>
                match hasMoreFlag data with
                | Throws e => Failed e
                | Returns flag =>
                    if flag || N.eqb (N.of_nat (length users)) limit
                    then MoreData users
                    else NoMoreData users
                end
            end
        end
      else
        match failureMessage response with
        | Returns message => NotOk message
        | Throws e => Failed e
        end
  end.

Definition isMoreData (v : Verdict) : bool :=
  match v with
  | MoreData _ => true
  | _ => false
  end.

Definition usersOf (v : Verdict) : list User :=
  match v with
  | MoreData users => users
  | NoMoreData users => users
  | _ => []
  end.

(** How the loop ends on a verdict other than more data, having
    collected [acc]: with the users and no message, with the message of
    the response that is not ok, or by the throw. *)
Definition endingWith (acc : list User) (v : Verdict)
    : option (Exc (list User * option json)) :=
  match v with
  | MoreData _ => None
  | NoMoreData users => Some (Returns ((acc ++ users)%list, None))
  | NotOk message => Some (Returns (acc, Some message))
  | Failed e => Some (Throws e)
  end.

Section Pages.
Variable token : string.
Variable activeTab : Tab.
Variable server : Call -> FetchOutcome.

(** The verdict on the page of index [i]: the answer to the call for
    [limit] users from [skip = limit * i]. *)
Definition pageAt (i : nat) : Verdict :=
  verdictOf (server (callFor token activeTab (limit * N.of_nat i))).

(** The users of the [k] pages from the page of index [j] on, in their
    order. *)
Definition collectedFrom (j k : nat) : list User :=
  flat_map (fun i => usersOf (pageAt i)) (seq j k).

(** The users of the pages before the page of index [k]. *)
Definition collected (k : nat) : list User := collectedFrom 0 k.

End Pages.

(** The state [fetchUsers] writes. *)
Record PageState : Type := {
  allUsers : list User;
  errorMessage : option json;
  isLoading : bool;
  redirected : bool
}.

(** [fetchUsers]: [token] is [localStorage.getItem('accessToken')]. *)
Definition fetchUsers (fuel : nat) (token : option string) (activeTab : Tab)
    (server : Call -> FetchOutcome) (st : PageState) : option PageState :=
  if negb (match token with Some t => negb (String.eqb t "") | None => false end) then
    Some {| allUsers := allUsers st; errorMessage := errorMessage st;
            isLoading := false; redirected := true |}
  else
    match drain (default "" token) activeTab server fuel 0%N [] with
    | None => None
    | Some (Throws _) =>
        Some {| allUsers := allUsers st;
                errorMessage := Some (JStr "Unable to load users. Please try again.");
                isLoading := false; redirected := redirected st |}
    | Some (Returns (all, _)) =>
        Some {| allUsers := all; errorMessage := None;
                isLoading := false; redirected := redirected st |}
    end.

(** Modelled from the spec: the list route [/api/users] and the backend
    behind it are not among the sources. A backend that holds finitely
    many users, the [store], and answers a call with the window of
    [limit] users from [skip], flagging whether more follow. *)
Definition serveStore (store : list json) (call : Call) : FetchOutcome :=
  let skip := N.to_nat (skipParam call) in
  let size := N.to_nat (limitParam call) in
  let page := take size (drop skip store) in
  Responds {|
    status := 200;
    retryAfter := None;
    jsonBody := Some (JObj
      [("success", JBool true);
       ("data", JObj
          [("users", JArr page);
           ("pagination", JObj
              [("hasMore", JBool (Nat.ltb (skip + size) (length store)))])])])
  |}.

(** The server has no users at or beyond offset [bound]: a page asked
    from there, when it decodes, normalizes to no user. *)
Definition noUsersFrom (server : Call -> FetchOutcome) (bound : N) : Prop :=
  forall call response data users,
    (bound <= skipParam call)%N ->
    server call = Responds response ->
    ok response = true ->
    jsonBody response = Some data ->
    normalizedUsersOf data = Returns users ->
    users = [].

End UsersPage.

(** ** The vocabulary of the specification *)

Module Spec.
Import JS Permissions.

(** The first operand that is a non-empty string, else the empty
    string. *)
Fixpoint firstNonEmpty (candidates : list (option string)) : string :=
  match candidates with
  | [] => ""
  | Some s :: rest => if String.eqb s "" then firstNonEmpty rest else s
  | None :: rest => firstNonEmpty rest
  end.

(** The actor identifier: [actor.id], else [actor._id], else the empty
    string. *)
Definition spec_actorId (actor : CurrentUser) : string :=
  firstNonEmpty [cu_id actor; cu__id actor].

(** The submitter identifier: the string form of [submittedBy] when it
    is a string; otherwise the embedded [_id], the embedded [id], the
    separate [submittedById], in this order; else the empty string. *)
Definition spec_submitterId (request : ProjectRequest) : string :=
  match pr_submittedBy request with
  | Some (SbString s) => s
  | Some (SbObject o) => firstNonEmpty [sb__id o; sb_id o; pr_submittedById request]
  | None => firstNonEmpty [pr_submittedById request]
  end.

(** The owner of a request, in the words of the specification. *)
Definition spec_isOwner (request : ProjectRequest) (actor : CurrentUser) : bool :=
  negb (String.eqb (spec_actorId actor) "")
  && negb (String.eqb (spec_submitterId request) "")
  && String.eqb (spec_actorId actor) (spec_submitterId request).

(** The submitter identifier as an ordered fallback over four
    candidates: the string form of [submittedBy], the embedded [_id], the
    embedded [id], the separate [submittedById]; the first that is not
    empty, else the empty string. *)
Definition claimed_submitterId (request : ProjectRequest) : string :=
  firstNonEmpty
    [match pr_submittedBy request with Some (SbString s) => Some s | _ => None end;
     match pr_submittedBy request with Some (SbObject o) => sb__id o | _ => None end;
     match pr_submittedBy request with Some (SbObject o) => sb_id o | _ => None end;
     pr_submittedById request].

(** The owner under that reading. *)
Definition claimed_isOwner (request : ProjectRequest) (actor : CurrentUser) : bool :=
  negb (String.eqb (spec_actorId actor) "")
  && negb (String.eqb (claimed_submitterId request) "")
  && String.eqb (spec_actorId actor) (claimed_submitterId request).

(** Mentor-or-higher: the role is one of mentor, researcher, admin. *)
Definition spec_isMentorOrHigher (actor : CurrentUser) : bool :=
  bool_decide (cu_role actor = Some "mentor")
  || bool_decide (cu_role actor = Some "researcher")
  || bool_decide (cu_role actor = Some "admin").

(** The five values of the status enumeration. *)
Definition statusEnum : list string :=
  ["pending"; "under_review"; "approved"; "rejected"; "on_hold"].

End Spec.

(** ** The evaluator on values that are not of its declared types *)

Module Parsed.
Import JS Permissions.

(** A value as [JSON.parse] delivers it: the pages pass such values for
    [currentUser] (read from [localStorage]) and for a request (read
    from a response). A number is given by its string form, which with
    its truthiness is all that the evaluator can observe of it; an object
    is the list of its own properties. *)
Inductive parsed : Type :=
| PNull
| PBool (b : bool)
| PNum (repr : string)
| PStr (s : string)
| PArr (items : list parsed)
| PObj (fields : list (string * parsed)).

(** Truthiness of a value that may be [undefined] ([None]). *)
Definition truthyP (v : option parsed) : bool :=
  match v with
  | None => false
  | Some PNull => false
  | Some (PBool b) => b
  | Some (PNum repr) => negb (String.eqb repr "0" || String.eqb repr "NaN")
  | Some (PStr s) => negb (String.eqb s "")
  | Some (PArr _) => true
  | Some (PObj _) => true
  end.

Fixpoint lookup (k : string) (fields : list (string * parsed)) : option parsed :=
  match fields with
  | [] => None
  | (k', v) :: rest => if String.eqb k k' then Some v else lookup k rest
  end.

(** [v.k] for the keys the evaluator reads ([id], [_id], [role],
    [status], [submittedBy], [submittedById]): no prototype defines
    them, so only an own property of an object answers. *)
Definition get (v : option parsed) (k : string) : Exc (option parsed) :=
  match v with
  | None => Throws "TypeError: Cannot read properties of undefined"
  | Some PNull => Throws "TypeError: Cannot read properties of null"
  | Some (PObj fields) => Returns (lookup k fields)
  | Some _ => Returns None
  end.

(** [v?.k] *)
Definition getOpt (v : option parsed) (k : string) : Exc (option parsed) :=
  match v with
  | None => Returns None
  | Some PNull => Returns None
  | Some _ => get v k
  end.

(** [v.toString()] on a truthy value, and the conversion of an array
    element by [join]. An object of [JSON.parse] inherits
    [Object.prototype.toString] unless it has an own [toString]
    property, which is then no function: the call is a TypeError. *)
Fixpoint toStringP (v : parsed) : Exc string :=
  match v with
  | PNull => Throws "TypeError"
  | PBool b => Returns (if b then "true" else "false")
  | PNum repr => Returns repr
  | PStr s => Returns s
  | PArr items =>
      (fix join (items : list parsed) : Exc string :=
         match items with
         | [] => Returns ""
         | x :: rest =>
             exec head := match x with
                          | PNull => Returns ""
                          | _ => toStringP x
                          end in
             match rest with
             | [] => Returns head
             | _ :: _ => exec tail := join rest in Returns (head +:+ "," +:+ tail)
             end
         end) items
  | PObj fields =>
      match lookup "toString" fields with
      | Some _ => Throws "TypeError"
      | None => Returns "[object Object]"
      end
  end.

(** The value of a chain [a || b || '']: the empty string, or the first
    truthy operand. *)
Inductive Ident : Type :=
| Empty
| Given (v : parsed).

Definition orEmpty (a : Exc (option parsed)) (rest : Exc Ident) : Exc Ident :=
  exec v := a in
  match v with
  | Some p => if truthyP v then Returns (Given p) else rest
  | None => rest
  end.

(** [x === s] for a string literal [s]. *)
Definition isString (x : option parsed) (s : string) : bool :=
  match x with
  | Some (PStr t) => String.eqb t s
  | _ => false
  end.

Definition getProjectRequestPermissions (projectRequest currentUser : option parsed)
    : Exc PermissionSet :=
  if negb (truthyP projectRequest) || negb (truthyP currentUser) then
    Returns {|
      canEdit := VBool false;
      canChangeStatus := VBool false;
      canViewDocument := VBool false;
      canDelete := VBool false;
      canApprove := VBool false;
      canReject := VBool false;
      isReadOnly := VBool true;
      showAdminBadge := VBool false
    |}
  else
    exec userId :=
      orEmpty (get currentUser "id") (orEmpty (get currentUser "_id") (Returns Empty)) in
    exec submittedBy := get projectRequest "submittedBy" in
    exec submittedById :=
      (match submittedBy with
       | Some (PStr s) => Returns (if String.eqb s "" then Empty else Given (PStr s))
       | _ =>
           orEmpty (getOpt submittedBy "_id")
             (orEmpty (getOpt submittedBy "id")
                (orEmpty (get projectRequest "submittedById") (Returns Empty)))
       end) in
    exec isOwner :=
      (match userId, submittedById with
       | Given u, Given s =>
           exec a := toStringP u in
           exec b := toStringP s in
           Returns (VBool (String.eqb a b))
       | _, _ => Returns (VStr "")
       end) in
    exec role := get currentUser "role" in
    let isAdmin := VBool (isString role "admin") in
    let isMentorOrHigher :=
      VBool (match (if truthyP role then role else Some (PStr "")) with
             | Some (PStr r) => includes mentorRoles r
             | _ => false
             end) in
    exec status := get projectRequest "status" in
    let isApproved := VBool (isString status "approved") in
    Returns {|
      canEdit :=
        or_ (or_ isAdmin
                 (and_ (and_ isOwner (not_ isApproved))
                       (VBool (negb (isString status "rejected")))))
            (and_ isMentorOrHigher (not_ isApproved));
      canChangeStatus := or_ isAdmin (and_ isMentorOrHigher (not_ isApproved));
      canViewDocument := or_ (or_ isAdmin isOwner) isMentorOrHigher;
      canDelete :=
        or_ isAdmin
            (and_ (and_ isOwner (VBool (negb (isString status "approved"))))
                  (VBool (negb (isString status "under_review"))));
      canApprove := and_ isMentorOrHigher (not_ isApproved);
      canReject := and_ isMentorOrHigher (not_ isApproved);
      isReadOnly := and_ isApproved (not_ isAdmin);
      showAdminBadge := and_ isApproved isAdmin
    |}.

(** The values of the declared types, as parsed values: an optional
    field that is absent is left out. *)
Definition field (k : string) (v : option string) : list (string * parsed) :=
  match v with
  | Some s => [(k, PStr s)]
  | None => []
  end.

Definition ofUser (currentUser : CurrentUser) : parsed :=
  PObj (field "id" (cu_id currentUser) ++ field "_id" (cu__id currentUser)
        ++ field "role" (cu_role currentUser))%list.

Definition ofRequest (projectRequest : ProjectRequest) : parsed :=
  PObj (field "_id" (pr__id projectRequest) ++ field "id" (pr_id projectRequest)
        ++ [("status", PStr (pr_status projectRequest))]
        ++ match pr_submittedBy projectRequest with
           | Some (SbString s) => [("submittedBy", PStr s)]
           | Some (SbObject o) =>
               [("submittedBy", PObj (field "_id" (sb__id o) ++ field "id" (sb_id o))%list)]
           | None => []
           end
        ++ field "submittedById" (pr_submittedById projectRequest))%list.

Definition ofRef {A} (f : A -> parsed) (r : Nullable A) : option parsed :=
  match r with
  | Null => Some PNull
  | Undefined => None
  | Ref a => Some (f a)
  end.

End Parsed.

(** ** app/project-requests/page.tsx: colours, filters, selection and
       status updates *)

Module ListingPage.
Import JS Permissions Listing.

(** [getStatusColor] of the listing (the details page has the same). *)
Definition getStatusColor (status : option string) : string :=
  match status with
  | None => "bg-gray-100 text-gray-800"
  | Some s =>
      if String.eqb s "" then "bg-gray-100 text-gray-800"
      else if String.eqb s "pending" then "bg-yellow-100 text-yellow-800"
      else if String.eqb s "under_review" then "bg-blue-100 text-blue-800"
      else if String.eqb s "approved" then "bg-green-100 text-green-800"
      else if String.eqb s "rejected" then "bg-red-100 text-red-800"
      else if String.eqb s "on_hold" then "bg-gray-100 text-gray-800"
      else "bg-gray-100 text-gray-800"
  end.

(** A call [handleFilterChange(key, value)]: the key with the value the
    controls of the page pass for it. *)
Inductive FilterChange : Type :=
| SetSearch (value : string)
| SetStatus (value : string)
| SetMentorId (value : string)
| SetSubmittedBy (value : string)
| SetShowDeleted (value : bool)
| SetDeletedBy (value : string)
| SetSortBy (value : string)
| SetSortOrder (value : string).

(** [{ ...filters, [key]: value }] *)
Definition assign (filters : ProjectRequestFilters) (change : FilterChange)
    : ProjectRequestFilters :=
  match change with
  | SetSearch v =>
      {| f_search := v; f_status := f_status filters; f_mentorId := f_mentorId filters;
         f_submittedBy := f_submittedBy filters; f_showDeleted := f_showDeleted filters;
         f_deletedBy := f_deletedBy filters; f_sortBy := f_sortBy filters;
         f_sortOrder := f_sortOrder filters |}
  | SetStatus v =>
      {| f_search := f_search filters; f_status := v; f_mentorId := f_mentorId filters;
         f_submittedBy := f_submittedBy filters; f_showDeleted := f_showDeleted filters;
         f_deletedBy := f_deletedBy filters; f_sortBy := f_sortBy filters;
         f_sortOrder := f_sortOrder filters |}
  | SetMentorId v =>
      {| f_search := f_search filters; f_status := f_status filters; f_mentorId := v;
         f_submittedBy := f_submittedBy filters; f_showDeleted := f_showDeleted filters;
         f_deletedBy := f_deletedBy filters; f_sortBy := f_sortBy filters;
         f_sortOrder := f_sortOrder filters |}
  | SetSubmittedBy v =>
      {| f_search := f_search filters; f_status := f_status filters;
         f_mentorId := f_mentorId filters; f_submittedBy := v;
         f_showDeleted := f_showDeleted filters; f_deletedBy := f_deletedBy filters;
         f_sortBy := f_sortBy filters; f_sortOrder := f_sortOrder filters |}
  | SetShowDeleted v =>
      {| f_search := f_search filters; f_status := f_status filters;
         f_mentorId := f_mentorId filters; f_submittedBy := f_submittedBy filters;
         f_showDeleted := v; f_deletedBy := f_deletedBy filters;
         f_sortBy := f_sortBy filters; f_sortOrder := f_sortOrder filters |}
  | SetDeletedBy v =>
      {| f_search := f_search filters; f_status := f_status filters;
         f_mentorId := f_mentorId filters; f_submittedBy := f_submittedBy filters;
         f_showDeleted := f_showDeleted filters; f_deletedBy := v;
         f_sortBy := f_sortBy filters; f_sortOrder := f_sortOrder filters |}
  | SetSortBy v =>
      {| f_search := f_search filters; f_status := f_status filters;
         f_mentorId := f_mentorId filters; f_submittedBy := f_submittedBy filters;
         f_showDeleted := f_showDeleted filters; f_deletedBy := f_deletedBy filters;
         f_sortBy := v; f_sortOrder := f_sortOrder filters |}
  | SetSortOrder v =>
      {| f_search := f_search filters; f_status := f_status filters;
         f_mentorId := f_mentorId filters; f_submittedBy := f_submittedBy filters;
         f_showDeleted := f_showDeleted filters; f_deletedBy := f_deletedBy filters;
         f_sortBy := f_sortBy filters; f_sortOrder := v |}
  end.

(** [newFilters.showDeleted = b] *)
Definition withShowDeleted (filters : ProjectRequestFilters) (b : bool)
    : ProjectRequestFilters :=
  assign filters (SetShowDeleted b).

(** [handleFilterChange]: the new [filters] and the new [currentPage]. *)
Definition handleFilterChange (filters : ProjectRequestFilters) (change : FilterChange)
    : ProjectRequestFilters * Z :=
  let newFilters := assign filters change in
  let newFilters :=
    match change with
    | SetStatus value =>
        if String.eqb value "deleted" then withShowDeleted newFilters true
        else if negb (String.eqb value "deleted") && String.eqb (f_status filters) "deleted"
        then withShowDeleted newFilters false
        else newFilters
    | _ => newFilters
    end in
  (newFilters, 1%Z).

(** [n.toString()] for an integer. *)
Definition intToString (z : Z) : string :=
  if (z <? 0)%Z then "-" +:+ numToString (Z.to_N (- z)) else numToString (Z.to_N z).

(** [if (v) queryParams.append(k, v)] *)
Definition appendIf (cond : bool) (k v : string) : list (string * string) :=
  if cond then [(k, v)] else [].

Definition nonEmpty (s : string) : bool := negb (String.eqb s "").

(** The [queryParams] that [fetchProjectRequests] builds, in the order of
    the [append] calls. *)
Definition queryParams (filters : ProjectRequestFilters) (currentPage : Z)
    : list (string * string) :=
  let should := shouldUseDeletedEndpoint filters in
  (appendIf (nonEmpty (f_search filters)) "search" (f_search filters)
   ++ appendIf (nonEmpty (f_status filters)
                && negb (should && String.eqb (f_status filters) "deleted"))
        "status" (f_status filters)
   ++ appendIf (nonEmpty (f_mentorId filters)) "mentorId" (f_mentorId filters)
   ++ appendIf (nonEmpty (f_submittedBy filters)) "submittedBy" (f_submittedBy filters)
   ++ appendIf (should && nonEmpty (f_deletedBy filters)) "deletedBy" (f_deletedBy filters)
   ++ (if should
       then [("sortBy", f_sortBy filters); ("sortOrder", f_sortOrder filters)]
       else [])
   ++ [("limit", "20"); ("skip", intToString ((currentPage - 1) * 20))])%list.

(** [handleSelectRequest]: the new [selectedRequests]. *)
Definition handleSelectRequest (prev : list string) (requestId : string) : list string :=
  if includes prev requestId
  then List.filter (fun id => negb (String.eqb id requestId)) prev
  else (prev ++ [requestId])%list.

(** [handleSelectAll]: the new [selectedRequests]. *)
Definition handleSelectAll (selectedRequests : list string)
    (projectRequests : list Listing.ProjectRequest) : list string :=
  if Nat.eqb (length selectedRequests) (length projectRequests) then []
  else map _id projectRequests.

(** An outbound call of a handler of the page; [body] is the value given
    to [JSON.stringify], when there is one. *)
Record Call : Type := {
  method : string;
  url : string;
  authorizationHeader : string;
  body : option json
}.

(** The response as the handlers read it; [jsonBody = None] stands for a
    rejected [response.json()]. *)
Record Answer : Type := {
  answerStatus : N;
  jsonBody : option json
}.

Inductive FetchOutcome : Type :=
| Responds (answer : Answer)
| FetchFails.

(** What a handler does that the user or the page can observe. *)
Inductive Effect : Type :=
| Alert (message : json)
| Fetch (call : Call)
| Refresh.

(** [`Bearer ${token}`] with [token = localStorage.getItem(...)]. *)
Definition bearer (token : option string) : string :=
  "Bearer " +:+ default "null" token.

(** [message.includes(part)]: on a string the substring test, on an array
    the membership test; no other JSON value has the method. *)
Definition messageIncludes (message : json) (part : string) : Exc bool :=
  match message with
  | JStr s => Returns (strIncludes s part)
  | JArr items =>
      Returns (existsb (fun v => match v with
                                 | JStr s => String.eqb s part
                                 | _ => false
                                 end) items)
  | _ => Throws "TypeError: message.includes is not a function"
  end.

(** The part of [handleUpdateStatus] that follows [await fetch(...)]. *)
Definition afterStatusUpdate (status : string) (answer : Answer) : Exc (list Effect) :=
  match jsonBody answer with
  | None => Throws "SyntaxError: response.json() rejected"
  | Some data =>
      exec success := getProp data "success" in
      if truthyOpt success then
        Returns [Refresh;
                 Alert (JStr ("Status updated to " +:+ status +:+ " successfully"))]
      else if N.eqb (answerStatus answer) 403 then
        exec m := orJ (getProp data "message") (Returns (Some (JStr "Access denied"))) in
        let message := default JNull m in
        exec first := messageIncludes message "approved project requests" in
        exec hit :=
          (if first then Returns true
           else messageIncludes message "change status of approved") in
        if hit then
          Returns [Alert (JStr "Cannot change status of approved project requests. Only administrators can modify the status of approved projects.")]
        else Returns [Alert message]
      else
        exec m := orJ (getProp data "message")
                    (Returns (Some (JStr "Failed to update status"))) in
        Returns [Alert (default JNull m)]
  end.

Definition refusal : Effect :=
  Alert (JStr "You do not have permission to change the status of this project request. Only administrators can modify approved projects.").

Section Handlers.
(** [process.env.NEXT_PUBLIC_BACKEND_URL || '...'] *)
Variable backendUrl : string.
(** [localStorage.getItem('accessToken')] *)
Variable token : option string.
Variable backend : Call -> FetchOutcome.

(** [{ status, reviewNotes: reviewNotes || undefined }] as it is
    serialized: a property that is [undefined] is left out. *)
Definition statusBody (status : string) (reviewNotes : option string) : json :=
  JObj (("status", JStr status)
        :: match reviewNotes with
           | Some notes => if String.eqb notes "" then [] else [("reviewNotes", JStr notes)]
           | None => []
           end).

Definition statusCall (requestId status : string) (reviewNotes : option string) : Call := {|
  method := "PUT";
  url := backendUrl +:+ "/api/project-requests/" +:+ requestId;
  authorizationHeader := bearer token;
  body := Some (statusBody status reviewNotes)
|}.

(** [handleUpdateStatus] of the listing: what it does, in order. *)
Definition handleUpdateStatus (projectRequests : list Listing.ProjectRequest)
    (currentUser : Nullable CurrentUser)
    (requestId status : string) (reviewNotes : option string) : list Effect :=
  let request := List.find (fun r => String.eqb (_id r) requestId) projectRequests in
  let guard :=
    match request with
    | Some r =>
        exec allowed := canChangeStatus' (Ref (asEvaluated r)) currentUser in
        Returns (negb (truthy allowed))
    | None => Returns false
    end in
  match guard with
  | Throws _ => [Alert (JStr "Failed to update status")]
  | Returns true => [refusal]
  | Returns false =>
      let call := statusCall requestId status reviewNotes in
      Fetch call ::
      match backend call with
      | FetchFails => [Alert (JStr "Failed to update status")]
      | Responds answer =>
          match afterStatusUpdate status answer with
          | Returns effects => effects
          | Throws _ => [Alert (JStr "Failed to update status")]
          end
      end
  end.

End Handlers.

(** *** Bulk actions *)

Definition answerOk (answer : Answer) : bool :=
  ((200 <=? answerStatus answer) && (answerStatus answer <=? 299))%N.

Section Bulk.
Variable backendUrl : string.
Variable token : option string.
(** The backend behind [fetch]: the answer to the call made at a given
    position of the run. *)
Variable backend : nat -> Call -> FetchOutcome.

(** The [url], [method] and [body] that the [switch] on the action
    chooses; the body is sent when it has a key. *)
Definition bulkCall (action requestId : string) : Call :=
  let plain := backendUrl +:+ "/api/project-requests/" +:+ requestId in
  let make := fun (u m : string) (b : option json) =>
    {| method := m; url := u; authorizationHeader := bearer token; body := b |} in
  if String.eqb action "approve" then make (plain +:+ "/approve") "POST" None
  else if String.eqb action "reject" then
    make (plain +:+ "/reject") "POST" (Some (JObj [("reason", JStr "Bulk rejection")]))
  else if String.eqb action "under_review" then
    make plain "PUT" (Some (JObj [("status", JStr "under_review")]))
  else if String.eqb action "on_hold" then
    make plain "PUT" (Some (JObj [("status", JStr "on_hold")]))
  else if String.eqb action "pending" then
    make plain "PUT" (Some (JObj [("status", JStr "pending")]))
  else if String.eqb action "delete" then make plain "DELETE" None
  else make plain "PUT" None.

(** The [for] loop over the selection, from the call at position
    [index]: the calls made, and whether the loop was left by a throw. *)
Fixpoint bulkLoop (action : string) (index : nat) (selected : list string)
    : list Effect * bool :=
  match selected with
  | [] => ([], false)
  | requestId :: rest =>
      let call := bulkCall action requestId in
      match backend index call with
      | FetchFails => ([Fetch call], true)
      | Responds answer =>
          let continue :=
            let '(effects, threw) := bulkLoop action (S index) rest in
            (Fetch call :: effects, threw) in
          if answerOk answer then continue
          else
            match jsonBody answer with
            | None => ([Fetch call], true)
            | Some errorData =>
                match getProp errorData "message" with
                | Returns _ => continue
                | Throws _ => ([Fetch call], true)
                end
            end
      end
  end.

(** [handleBulkAction]: what it does, in order, and the selection it
    leaves; [confirmed] is the answer to the [confirm] dialog. *)
Definition handleBulkAction (selectedRequests : list string) (confirmed : bool)
    (action : string) : list Effect * list string :=
  if Nat.eqb (length selectedRequests) 0 then
    ([Alert (JStr "Please select at least one project request")], selectedRequests)
  else if negb confirmed then ([], selectedRequests)
  else
    let '(calls, threw) := bulkLoop action 0 selectedRequests in
    if threw then
      ((calls ++ [Alert (JStr ("Failed to perform bulk " +:+ action))])%list,
       selectedRequests)
    else
      ((calls ++ [Refresh; Alert (JStr ("Bulk " +:+ action +:+ " completed"))])%list,
       []).

End Bulk.

(** *** The rows of the table *)

(** The Status cell: the DELETED label, or the status in its colour. *)
Inductive StatusCell : Type :=
| DeletedLabel
| StatusLabel (colour : string).

(** What a row of the table shows, of what the logic decides: its key,
    whether it has the tint of a deleted request, its selection checkbox
    ([None] when the column is left out, else whether it is checked), the
    Status cell and the Actions cell. *)
Record Row : Type := {
  key : string;
  tinted : bool;
  checkbox : option bool;
  statusCell : StatusCell;
  actions : list Action
}.

(** The callback of [projectRequests.map]. *)
Definition renderRow (filters : ProjectRequestFilters) (selectedRequests : list string)
    (currentUser : Nullable CurrentUser) (request : Listing.ProjectRequest) : Exc Row :=
  exec cell := rowActions request currentUser in
  Returns {|
    key := _id request;
    tinted := deleted request;
    checkbox :=
      if negb (f_showDeleted filters || String.eqb (f_status filters) "deleted")
      then Some (includes selectedRequests (_id request))
      else None;
    statusCell :=
      if deleted request then DeletedLabel
      else StatusLabel (getStatusColor (Some (status request)));
    actions := cell
  |}.

(** The body of the table. *)
Definition tableRows (filters : ProjectRequestFilters) (selectedRequests : list string)
    (currentUser : Nullable CurrentUser) (projectRequests : list Listing.ProjectRequest)
    : Exc (list Row) :=
  UsersPage.mapE (renderRow filters selectedRequests currentUser) projectRequests.

(** Whether the bar of the bulk actions is shown. *)
Definition bulkBarShown (filters : ProjectRequestFilters) (selectedRequests : list string)
    : bool :=
  negb (Nat.eqb (length selectedRequests) 0)
  && negb (f_showDeleted filters) && negb (String.eqb (f_status filters) "deleted").

End ListingPage.

(** ** app/api/users/[id]/route.ts: the [PUT] and [DELETE] handlers *)

Module UsersRoute.
Import JS Proxy.

(** An outbound call with its method and, for [PUT], the value given to
    [JSON.stringify] as its body. *)
Record Call : Type := {
  method : string;
  url : string;
  authorizationHeader : string;
  callBody : option json
}.

(** The route parameter [id] and the literals that a body is searched
    for are read as UTF-8: the functions below recover the code points
    and then the UTF-16 code units of the JavaScript string that a string
    encodes. A byte that starts no well-formed sequence, which the
    encoding of no JavaScript string has, is read as U+FFFD. *)
Definition continuation (b : N) : bool := ((128 <=? b) && (b <? 192))%N.

(** The second byte of a sequence of three, of four: the ranges that
    exclude overlong forms, surrogates and code points above U+10FFFF. *)
Definition secondOfThree (b c : N) : bool :=
  (if b =? 224 then (160 <=? c) && (c <? 192)
   else if b =? 237 then (128 <=? c) && (c <? 160)
   else continuation c)%N.

Definition secondOfFour (b c : N) : bool :=
  (if b =? 240 then (144 <=? c) && (c <? 192)
   else if b =? 244 then (128 <=? c) && (c <? 144)
   else continuation c)%N.

Fixpoint codePoints (bytes : list N) : list N :=
  match bytes with
  | [] => []
  | b :: rest =>
      if (b <? 128)%N then b :: codePoints rest
      else
        match rest with
        | [] => [65533%N]
        | c1 :: rest1 =>
            if ((194 <=? b) && (b <? 224))%N && continuation c1 then
              ((b - 192) * 64 + (c1 - 128))%N :: codePoints rest1
            else
              match rest1 with
              | [] => 65533%N :: codePoints rest
              | c2 :: rest2 =>
                  if ((224 <=? b) && (b <? 240))%N && secondOfThree b c1
                     && continuation c2 then
                    ((b - 224) * 4096 + (c1 - 128) * 64 + (c2 - 128))%N
                    :: codePoints rest2
                  else
                    match rest2 with
                    | [] => 65533%N :: codePoints rest
                    | c3 :: rest3 =>
                        if ((240 <=? b) && (b <? 245))%N && secondOfFour b c1
                           && continuation c2 && continuation c3 then
                          ((b - 240) * 262144 + (c1 - 128) * 4096
                           + (c2 - 128) * 64 + (c3 - 128))%N
                          :: codePoints rest3
                        else 65533%N :: codePoints rest
                    end
              end
        end
  end.

(** The UTF-16 code units of a code point: itself, or a surrogate pair
    above U+FFFF. *)
Definition utf16 (codePoint : N) : list N :=
  if (codePoint <? 65536)%N then [codePoint]
  else [(55296 + (codePoint - 65536) / 1024)%N; (56320 + (codePoint - 65536) mod 1024)%N].

(** The UTF-16 code units of a string. *)
Definition codeUnits (s : string) : list N :=
  flat_map utf16 (codePoints (map N_of_ascii (list_ascii_of_string s))).

Fixpoint startsWith (needle hay : list N) : bool :=
  match needle, hay with
  | [], _ => true
  | _ :: _, [] => false
  | n :: needle', h :: hay' => N.eqb n h && startsWith needle' hay'
  end.

(** [text.includes(needle)] on code units. *)
Fixpoint textIncludes (hay needle : list N) : bool :=
  startsWith needle hay
  || match hay with
     | [] => false
     | _ :: rest => textIncludes rest needle
     end.

(** [data.message || data.error?.message], which may stay falsy. *)
Definition messageOf (data : json) : Exc (option json) :=
  orJ (getProp data "message")
    (exec e := getProp data "error" in getPropOpt e "message").

(** [m || fallback] *)
Definition orString (m : option json) (fallback : string) : json :=
  if truthyOpt m then default JNull m else JStr fallback.

(** The token test [!token] of the handlers. *)
Definition noToken (request : NextRequest) : bool :=
  negb (match authorization request with
        | Some t => negb (String.eqb t "")
        | None => false
        end).

Definition unauthorized : json :=
  JObj [("success", JBool false); ("message", JStr "No authorization token provided")].

Definition internalError : json :=
  JObj [("success", JBool false); ("message", JStr "Internal server error")].

Section Route.
(** [process.env.BACKEND_URL || '...'] *)
Variable backendUrl : string.
(** [JSON.parse]; [None] stands for the SyntaxError it throws. *)
Variable JSON_parse : list N -> option json.
(** [String.prototype.toLowerCase] on code units. *)
Variable toLowerCase : list N -> list N.
(** The string whose code units are given, as a value of a reply. *)
Variable textString : list N -> string.
(** The backend behind [fetch]. *)
Variable backend : Call -> Proxy.FetchOutcome.

(** *** DELETE *)

(** The body of the outer [try] of [DELETE]; the [data] is derived from
    the response by the same statements as in [GET]. *)
Definition handleDelete (request : NextRequest) : Exc NextResponse :=
  if noToken request then NextResponse_json unauthorized 401
  else
    match backend {| method := "DELETE";
                     url := backendUrl +:+ "/api/users/" +:+ Proxy.id request;
                     authorizationHeader := default "" (authorization request);
                     callBody := None |} with
    | Proxy.FetchFails => Throws "TypeError: fetch failed"
    | Proxy.Responds response =>
        let data := readData JSON_parse (Proxy.id request) response in
        if ok response then NextResponse_json data 200
        else
          exec m := messageOf data in
          NextResponse_json
            (JObj [("success", JBool false);
                   ("message",
                    orString m ("Failed to deactivate user ("
                                +:+ numToString (Proxy.status response) +:+ ")"))])
            (Proxy.status response)
    end.

Definition DELETE (request : NextRequest) : Exc NextResponse :=
  try_catch (handleDelete request) (fun _ => NextResponse_json internalError 500).

(** *** PUT *)

(** The [data] that [PUT] derives from the backend's response. *)
Definition readDataPut (id : string) (response : BackendResponse) : json :=
  let contentType := default "" (contentTypeHeader response) in
  let isJson := strIncludes contentType "application/json" in
  let status := Proxy.status response in
  match Proxy.body response with
  | Text text =>
      if Nat.eqb (length text) 0 || Nat.eqb (length (trim text)) 0 then JObj []
      else if isJson then
        match JSON_parse text with
        | Some parsed => parsed
        | None =>
            JObj [("message",
                   JStr (if N.eqb status 404
                         then "User with ID " +:+ dquote +:+ id +:+ dquote +:+ " not found"
                         else "Backend returned invalid JSON (" +:+ numToString status +:+ ")"));
                  ("error", JStr "Invalid JSON response from backend")]
        end
      else
        let isVercelDeploymentError :=
          textIncludes text (codeUnits "DEPLOYMENT_NOT_FOUND")
          || textIncludes (toLowerCase text) (codeUnits "the deployment could not be found")
          || textIncludes (toLowerCase text) (codeUnits "deployment_not_found") in
        let isHtmlError :=
          textIncludes text (codeUnits "<html")
          || textIncludes text (codeUnits "<!DOCTYPE")
          || textIncludes (toLowerCase text) (codeUnits "the deploy") in
        if isVercelDeploymentError then
          JObj [("message",
                 JStr ("Backend deployment not found. The backend URL " +:+ dquote
                       +:+ backendUrl +:+ dquote
                       +:+ " does not exist on Vercel. Please check your BACKEND_URL environment variable."));
                ("error", JStr "Vercel deployment not found");
                ("backendUrl", JStr backendUrl);
                ("suggestion",
                 JStr "Please verify your BACKEND_URL environment variable is set to the correct backend deployment URL.")]
        else
          JObj [("message",
                 JStr (if N.eqb status 404
                       then "User with ID " +:+ dquote +:+ id +:+ dquote
                            +:+ " not found. The backend endpoint may not exist or the user was deleted."
                       else "Backend returned " +:+ numToString status +:+ " error"
                            +:+ (if isHtmlError then " (HTML error page)" else "")));
                ("error",
                 JStr (if isHtmlError
                       then "Backend returned HTML error page instead of JSON"
                       else "Non-JSON response: " +:+ contentType));
                ("responsePreview", JStr (textString (take 200 text)))]
  | ReadFails =>
      JObj [("message",
             JStr (if N.eqb status 404
                   then "User with ID " +:+ dquote +:+ id +:+ dquote +:+ " not found"
                   else "Failed to read backend response (" +:+ numToString status +:+ ")"))]
  end.

(** The message of an error reply of [PUT], by status. *)
Definition putErrorMessage (id : string) (data : json) (status : N) : Exc json :=
  exec errorMessage := messageOf data in
  if N.eqb status 404 then
    exec error := getProp data "error" in
    if match error with
       | Some (JStr s) => String.eqb s "Vercel deployment not found"
       | _ => false
       end
    then
      exec m := getProp data "message" in
      Returns (orString m ("Backend deployment not found at " +:+ backendUrl
                           +:+ ". Please check your BACKEND_URL environment variable."))
    else
      Returns (orString errorMessage
                 ("User with ID " +:+ dquote +:+ id +:+ dquote
                  +:+ " not found. The user may have been deleted or the ID is incorrect."))
  else if N.eqb status 401 then
    Returns (orString errorMessage "Unauthorized. Please check your authentication token.")
  else if N.eqb status 403 then
    Returns (orString errorMessage "Forbidden. You do not have permission to update this user.")
  else
    Returns (orString errorMessage ("Failed to update user (" +:+ numToString status +:+ ")")).

(** [!id || id.trim().length === 0] *)
Definition blankId (id : string) : bool :=
  String.eqb id "" || Nat.eqb (length (trim (codeUnits id))) 0.

(** The body of the outer [try] of [PUT]; [requestBody] is what
    [await request.json()] gives, [None] when it rejects. *)
Definition handlePut (request : NextRequest) (requestBody : option json)
    : Exc NextResponse :=
  if noToken request then NextResponse_json unauthorized 401
  else if blankId (Proxy.id request) then
    NextResponse_json
      (JObj [("success", JBool false); ("message", JStr "Invalid user ID provided")]) 400
  else
    match requestBody with
    | None => Throws "SyntaxError: request.json() rejected"
    | Some body =>
        match backend {| method := "PUT";
                         url := backendUrl +:+ "/api/users/" +:+ Proxy.id request;
                         authorizationHeader := default "" (authorization request);
                         callBody := Some body |} with
        | Proxy.FetchFails => Throws "TypeError: fetch failed"
        | Proxy.Responds response =>
            let data := readDataPut (Proxy.id request) response in
            if ok response then NextResponse_json data 200
            else
              exec errorMessage :=
                putErrorMessage (Proxy.id request) data (Proxy.status response) in
              NextResponse_json
                (JObj [("success", JBool false); ("message", errorMessage);
                       ("details", data); ("userId", JStr (Proxy.id request))])
                (Proxy.status response)
        end
    end.

Definition PUT (request : NextRequest) (requestBody : option json) : Exc NextResponse :=
  try_catch (handlePut request requestBody)
    (fun _ => NextResponse_json internalError 500).

End Route.

End UsersRoute.

(** ** app/api/project-requests/[id]/document/route.ts: the [GET] handler *)

Module DocumentRoute.
Import JS Proxy.

(** The backend's response as the handler reads it; [blob] and
    [jsonBody] are [None] when reading the body that way rejects. *)
Record Response (Blob : Type) : Type := {
  status : N;
  responseUrl : string;
  locationHeader : option string;
  contentType : option string;
  contentDisposition : option string;
  blob : option Blob;
  jsonBody : option json
}.
Arguments status {Blob} _.
Arguments responseUrl {Blob} _.
Arguments locationHeader {Blob} _.
Arguments contentType {Blob} _.
Arguments contentDisposition {Blob} _.
Arguments blob {Blob} _.
Arguments jsonBody {Blob} _.

Inductive FetchOutcome (Blob : Type) : Type :=
| Responds (response : Response Blob)
| FetchFails.
Arguments Responds {Blob} response.
Arguments FetchFails {Blob}.

(** The replies of the handler: a redirect, the file, or a JSON reply. *)
Inductive Reply (Blob : Type) : Type :=
| Redirect (location : string)
| File (content : Blob) (contentTypeOut contentDispositionOut : string)
| Json (reply : NextResponse).
Arguments Redirect {Blob} location.
Arguments File {Blob} content contentTypeOut contentDispositionOut.
Arguments Json {Blob} reply.

Definition ok {Blob} (response : Response Blob) : bool :=
  ((200 <=? status response) && (status response <=? 299))%N.

(** [h || fallback] for a header value. *)
Definition headerOr (h : option string) (fallback : string) : string :=
  match h with
  | Some v => if String.eqb v "" then fallback else v
  | None => fallback
  end.

Section Route.
Variable Blob : Type.
(** [getBackendUrl()] of the configuration module. *)
Variable backendUrl : string.
(** [String(new URL(url))]: the normalized absolute URL, [None] when the
    URL does not parse, which [NextResponse.redirect] refuses. *)
Variable parseURL : string -> option string.
(** The backend behind [fetch], from the URL and the token. *)
Variable backend : string -> string -> FetchOutcome Blob.

Definition json_reply (body : json) (status : N) : Exc (Reply Blob) :=
  exec reply := NextResponse_json body status in Returns (Json reply).

(** [NextResponse.redirect(location)] *)
Definition redirect (location : string) : Exc (Reply Blob) :=
  match parseURL location with
  | Some href => Returns (Redirect href)
  | None => Throws "Error: URL is malformed"
  end.

(** What follows the redirect test of the handler. *)
Definition download (response : Response Blob) : Exc (Reply Blob) :=
  if ok response then
    match blob response with
    | None => Throws "TypeError: response.blob() rejected"
    | Some content =>
        Returns (File content
                   (headerOr (contentType response) "application/octet-stream")
                   (headerOr (contentDisposition response)
                      ("attachment; filename=" +:+ dquote +:+ "document.pdf" +:+ dquote)))
    end
  else
    let data := default (JObj []) (jsonBody response) in
    exec m := orJ (getProp data "message")
                (Returns (Some (JStr "Failed to fetch document"))) in
    json_reply (JObj [("success", JBool false); ("message", default JNull m)])
      (status response).

(** The body of the outer [try]. *)
Definition handle (authorization : option string) (id : string) : Exc (Reply Blob) :=
  match authorization with
  | None =>
      json_reply (JObj [("success", JBool false);
                        ("message", JStr "No authorization token provided")]) 401
  | Some token =>
      if String.eqb token "" then
        json_reply (JObj [("success", JBool false);
                          ("message", JStr "No authorization token provided")]) 401
      else
        let url := backendUrl +:+ "/api/project-requests/" +:+ id +:+ "/document" in
        match backend url token with
        | FetchFails => Throws "TypeError: fetch failed"
        | Responds response =>
            let finalUrl := headerOr (Some (responseUrl response)) url in
            if strIncludes finalUrl "cloudinary.com"
               || strIncludes finalUrl "res.cloudinary.com"
               || N.eqb (status response) 302
               || N.eqb (status response) 301
            then
              let location := headerOr (locationHeader response) finalUrl in
              if negb (String.eqb location "") then redirect location
              else download response
            else download response
        end
  end.

Definition GET (authorization : option string) (id : string) : Exc (Reply Blob) :=
  try_catch (handle authorization id)
    (fun _ =>
       json_reply (JObj [("success", JBool false);
                         ("message", JStr "Internal server error")]) 500).

End Route.

End DocumentRoute.

(** ** app/users/page.tsx: the filtered and paginated view *)

Module UsersView.
Import JS.

(** [interface User] of the page: the fields its logic reads, and the
    remaining properties as they come. *)
Record User : Type := {
  id : option string;
  email : string;
  firstName : string;
  lastName : string;
  role : string;
  studentId : option string;
  department : option string;
  others : list (string * json)
}.

(** [interface Pagination] *)
Record Pagination : Type := {
  total : nat;
  limit : Z;
  skip : Z;
  hasMore : bool
}.

Definition USERS_PER_PAGE : Z := 20.

(** [l.slice(start, end)]: a negative index counts from the end, and
    both are clamped to the array. *)
Definition slice {A} (start stop : Z) (l : list A) : list A :=
  let len := Z.of_nat (length l) in
  let from := if (start <? 0)%Z then Z.max (len + start) 0 else Z.min start len in
  let to := if (stop <? 0)%Z then Z.max (len + stop) 0 else Z.min stop len in
  take (Z.to_nat (to - from)) (drop (Z.to_nat from) l).

(** [Math.ceil(total / USERS_PER_PAGE)] *)
Definition totalPagesOf (total : nat) : nat := (total + 19) / 20.

Section View.
(** [String.prototype.toLowerCase] *)
Variable toLowerCase : string -> string.

(** The callback of the search filter, [query] being lower-cased. *)
Definition matchesSearch (query : string) (user : User) : bool :=
  strIncludes (toLowerCase (firstName user +:+ " " +:+ lastName user)) query
  || strIncludes (toLowerCase (email user)) query
  || match studentId user with
     | Some s => strIncludes (toLowerCase s) query
     | None => false
     end.

(** The three filters of the effect, in their order. *)
Definition filterUsers (allUsers : list User)
    (debouncedSearchQuery selectedRole selectedDepartment : string) : list User :=
  let filtered := allUsers in
  let filtered :=
    if negb (String.eqb debouncedSearchQuery "")
    then List.filter (matchesSearch (toLowerCase debouncedSearchQuery)) filtered
    else filtered in
  let filtered :=
    if negb (String.eqb selectedRole "")
    then List.filter (fun user => String.eqb (role user) selectedRole) filtered
    else filtered in
  if negb (String.eqb selectedDepartment "")
  then List.filter (fun user => bool_decide (department user = Some selectedDepartment))
         filtered
  else filtered.

(** The effect that filters and paginates: the [users] shown and the
    [pagination] state. *)
Definition view (allUsers : list User)
    (debouncedSearchQuery selectedRole selectedDepartment : string) (currentPage : Z)
    : list User * Pagination :=
  let filtered := filterUsers allUsers debouncedSearchQuery selectedRole selectedDepartment in
  let total := length filtered in
  let startIndex := ((currentPage - 1) * USERS_PER_PAGE)%Z in
  let endIndex := (startIndex + USERS_PER_PAGE)%Z in
  let paginatedUsers := slice startIndex endIndex filtered in
  (paginatedUsers,
   {| total := total; limit := USERS_PER_PAGE; skip := startIndex;
      hasMore := (endIndex <? Z.of_nat total)%Z |}).

End View.

(** [handleSaveUser]: the updater given to [setUsers]. *)
Definition handleSaveUser (updatedUser : User) (prevUsers : list User) : list User :=
  map (fun user => if bool_decide (id user = id updatedUser) then updatedUser else user)
      prevUsers.

(** The handlers of the Previous and Next buttons. *)
Definition previousPage (prev : Z) : Z := Z.max 1 (prev - 1).
Definition nextPage (prev : Z) : Z := (prev + 1)%Z.

End UsersView.

(** ** components/EditUserModal.tsx: tracking of the changed fields *)

Module EditUserModal.

Section Form.
(** The values a form field takes, [undefined] apart, and [===] on them
    (which need not be reflexive: [NaN], and arrays and objects compared
    as references). *)
Variable V : Type.
Variable strictEq : V -> V -> bool.
(** [user[field]]: the original value of a field, [None] for
    [undefined]. *)
Variable original : string -> option V.

(** [a === b] on values that may be [undefined]. *)
Definition strictEqOpt (a b : option V) : bool :=
  match a, b with
  | None, None => true
  | Some x, Some y => strictEq x y
  | _, _ => false
  end.

(** The two pieces of state that [handleInputChange] updates; a field of
    [formData] may hold [undefined]. *)
Record FormState : Type := {
  formData : gmap string (option V);
  changedFields : gset string
}.

Definition handleInputChange (field : string) (value : option V) (st : FormState)
    : FormState :=
  let hasChanged := negb (strictEqOpt value (original field)) in
  {| formData := <[field := value]> (formData st);
     changedFields :=
       if hasChanged then {[field]} ∪ changedFields st
       else changedFields st ∖ {[field]} |}.

(** A sequence of inputs, in the order they are typed. *)
Definition inputs (events : list (string * option V)) (st : FormState) : FormState :=
  fold_left (fun st e => handleInputChange (fst e) (snd e) st) events st.

(** The number shown on the Save button: [changedFields.size]. *)
Definition changedCount (st : FormState) : nat := size (changedFields st).

End Form.

End EditUserModal.

(** * Results *)

Import JS Permissions Spec.

(** ** The permission evaluator *)

Lemma userIdOf_ref (cu : CurrentUser) :
  userIdOf (Ref cu) = Returns (spec_actorId cu).
Proof.
  unfold userIdOf, spec_actorId, orStr, prop, bind; simpl.
  destruct (cu_id cu) as [a|]; [destruct (String.eqb a "")|];
    try reflexivity;
    destruct (cu__id cu) as [b|]; try reflexivity;
    destruct (String.eqb b ""); reflexivity.
Qed.

Lemma submittedByIdOf_ref (pr : ProjectRequest) :
  submittedByIdOf (Ref pr) = Returns (spec_submitterId pr).
Proof.
  unfold submittedByIdOf, spec_submitterId, orStr, prop, bind, optChain; simpl.
  destruct (pr_submittedBy pr) as [[s|[a b]]|]; simpl; try reflexivity.
  - destruct a as [a|]; [destruct (String.eqb a "")|]; try reflexivity;
      (destruct b as [b|]; [destruct (String.eqb b "")|]; try reflexivity);
      (destruct (pr_submittedById pr) as [c|]; [destruct (String.eqb c "")|]; reflexivity).
  - destruct (pr_submittedById pr) as [c|]; [destruct (String.eqb c "")|]; reflexivity.
Qed.

(** The value of [isOwner] is [true] for an owner and falsy otherwise. *)
Lemma isOwnerOf_spec (u s : string) :
  (isOwnerOf u s = VBool true /\ u <> "" /\ s <> "" /\ u = s)
  \/ (truthy (isOwnerOf u s) = false /\ ~ (u <> "" /\ s <> "" /\ u = s)).
Proof.
  unfold isOwnerOf, and_, strictEq, toString; simpl.
  destruct (String.eqb_spec u ""); simpl.
  - right. split; [subst; reflexivity | tauto].
  - destruct (String.eqb_spec s ""); simpl.
    + right. split; [subst; reflexivity | tauto].
    + destruct (String.eqb_spec u s); [left | right]; simpl; tauto.
Qed.

Lemma isOwnerOf_true_iff (u s : string) :
  isOwnerOf u s = VBool true <-> u <> "" /\ s <> "" /\ u = s.
Proof.
  destruct (isOwnerOf_spec u s) as [(E & H)|(E & H)]; split; intros K;
    try tauto.
  rewrite K in E. discriminate E.
Qed.

(** The value of [isOwner]: the empty string when an identifier is
    empty, else whether the two are equal. *)
Lemma isOwnerOf_value (u s : string) :
  isOwnerOf u s
  = if String.eqb u "" then VStr ""
    else if String.eqb s "" then VStr "" else VBool (String.eqb u s).
Proof.
  unfold isOwnerOf, and_, strictEq, toString. cbn [truthy].
  destruct (String.eqb_spec u "") as [->|Hu]; cbn [negb truthy String.eqb];
    [reflexivity|].
  destruct (String.eqb_spec s "") as [->|Hs]; cbn [negb truthy String.eqb];
    reflexivity.
Qed.

Lemma includes_mentorRoles (role : option string) :
  includes mentorRoles (default "" role)
  = bool_decide (role = Some "mentor")
    || bool_decide (role = Some "researcher")
    || bool_decide (role = Some "admin").
Proof.
  destruct role as [r|]; [|reflexivity]. unfold includes, mentorRoles; simpl.
  rewrite orb_false_r, orb_assoc.
  repeat match goal with
  | |- context [String.eqb r ?c] =>
      destruct (String.eqb_spec r c); [subst r; reflexivity |]
  end.
  repeat case_bool_decide; congruence.
Qed.

(** The evaluator on a present request and a present actor. *)
Lemma evaluate_present (pr : ProjectRequest) (cu : CurrentUser) :
  getProjectRequestPermissions (Ref pr) (Ref cu) =
  let isOwner := isOwnerOf (spec_actorId cu) (spec_submitterId pr) in
  let isAdmin := VBool (bool_decide (cu_role cu = Some "admin")) in
  let isMentorOrHigher := VBool (spec_isMentorOrHigher cu) in
  let isApproved := strictEq (pr_status pr) "approved" in
  Returns {|
    canEdit :=
      or_ (or_ isAdmin
               (and_ (and_ isOwner (not_ isApproved)) (strictNe (pr_status pr) "rejected")))
          (and_ isMentorOrHigher (not_ isApproved));
    canChangeStatus := or_ isAdmin (and_ isMentorOrHigher (not_ isApproved));
    canViewDocument := or_ (or_ isAdmin isOwner) isMentorOrHigher;
    canDelete :=
      or_ isAdmin
          (and_ (and_ isOwner (strictNe (pr_status pr) "approved"))
                (strictNe (pr_status pr) "under_review"));
    canApprove := and_ isMentorOrHigher (not_ isApproved);
    canReject := and_ isMentorOrHigher (not_ isApproved);
    isReadOnly := and_ isApproved (not_ isAdmin);
    showAdminBadge := and_ isApproved isAdmin
  |}.
Proof.
  unfold getProjectRequestPermissions, spec_isMentorOrHigher.
  cbn [truthyRef negb orb].
  rewrite userIdOf_ref, submittedByIdOf_ref.
  cbn [bind prop]. rewrite includes_mentorRoles. reflexivity.
Qed.

(** Case analysis used by the results below: the value of [isOwner], the
    admin and mentor tests and the status comparisons. *)
Ltac owner_cases pr cu E :=
  destruct (isOwnerOf_spec (spec_actorId cu) (spec_submitterId pr))
    as [(E & ?)|(E & ?)].

Ltac role_cases :=
  unfold spec_isMentorOrHigher in *;
  repeat case_bool_decide; try congruence.

Ltac status_cases pr :=
  unfold strictEq, strictNe in *;
  repeat match goal with
  | |- context [String.eqb (pr_status pr) ?c] =>
      destruct (String.eqb_spec (pr_status pr) c); try congruence
  end.

Ltac perm_eval E :=
  repeat (progress (unfold and_, or_, not_, strictEq, strictNe;
                    cbn [truthy negb andb orb String.eqb Ascii.eqb Bool.eqb];
                    rewrite ?E)).

(** A submitter given as the empty string is taken as it is: the separate
    [submittedById] is not consulted. *)
Example empty_string_submitter :
  submittedByIdOf
    (Ref {| pr__id := None; pr_id := None; pr_status := "pending";
            pr_submittedBy := Some (SbString ""); pr_submittedById := Some "u1" |})
  = Returns "".
Proof. reflexivity. Qed.

(** [canDelete] is the only field that may hold a value that is not a
    boolean: for an actor who is not admin and a request without a
    submitter it is the empty string that [isOwner] evaluated to. *)
Example canDelete_empty_string :
  exists p,
    getProjectRequestPermissions
      (Ref {| pr__id := None; pr_id := None; pr_status := "pending";
              pr_submittedBy := None; pr_submittedById := None |})
      (Ref {| cu_id := Some "u1"; cu__id := None; cu_role := Some "student" |})
    = Returns p
    /\ canDelete p = VStr "" /\ canEdit p = VBool false.
Proof. eexists. split; [reflexivity|]. split; reflexivity. Qed.

(** C1 (approval gate). For a request whose status is "approved" and a
    present actor: when the actor's role is not "admin" the evaluator
    returns [isReadOnly = true], [canEdit = false] and
    [canChangeStatus = false]; when the role is exactly "admin" it returns
    [showAdminBadge = true] and [canEdit = true]. *)
Theorem approval_gate (pr : ProjectRequest) (cu : CurrentUser) :
  pr_status pr = "approved" ->
  exists p,
    getProjectRequestPermissions (Ref pr) (Ref cu) = Returns p
    /\ (cu_role cu <> Some "admin" ->
        isReadOnly p = VBool true /\ canEdit p = VBool false
        /\ canChangeStatus p = VBool false)
    /\ (cu_role cu = Some "admin" ->
        showAdminBadge p = VBool true /\ canEdit p = VBool true).
Proof.
  intros Hst. rewrite evaluate_present. cbv zeta. eexists. split; [reflexivity|].
  rewrite Hst. cbn [canEdit canChangeStatus isReadOnly showAdminBadge].
  split; intros Hrole; owner_cases pr cu E; role_cases; perm_eval E;
    repeat split; reflexivity.
Qed.

Lemma approval_gate_witness :
  let pr := {| pr__id := Some "r1"; pr_id := None; pr_status := "approved";
               pr_submittedBy := Some (SbString "u1"); pr_submittedById := None |} in
  let mentor := {| cu_id := Some "u2"; cu__id := None; cu_role := Some "mentor" |} in
  let admin := {| cu_id := Some "u3"; cu__id := None; cu_role := Some "admin" |} in
  pr_status pr = "approved"
  /\ (exists p, getProjectRequestPermissions (Ref pr) (Ref mentor) = Returns p
        /\ isReadOnly p = VBool true /\ canEdit p = VBool false
        /\ canChangeStatus p = VBool false)
  /\ (exists p, getProjectRequestPermissions (Ref pr) (Ref admin) = Returns p
        /\ showAdminBadge p = VBool true /\ canEdit p = VBool true).
Proof.
  intros pr mentor admin. split; [reflexivity|]. split.
  - destruct (approval_gate pr mentor eq_refl) as (p & E & Hn & _).
    exists p. split; [exact E|]. apply Hn. discriminate.
  - destruct (approval_gate pr admin eq_refl) as (p & E & _ & Ha).
    exists p. split; [exact E|]. apply Ha. reflexivity.
Defined.

(** C3, as stated, fails: the submitter identifier is not an ordered
    fallback over the four candidates. A [submittedBy] that is a string
    is taken as it is, also when it is empty, and the separate
    [submittedById] is then not consulted: the actor "u1" is not the
    owner of a request with [submittedBy = ""] and
    [submittedById = "u1"], and is refused the document. *)
Lemma ownership_counterexample :
  let pr := {| pr__id := Some "r1"; pr_id := None; pr_status := "pending";
               pr_submittedBy := Some (SbString ""); pr_submittedById := Some "u1" |} in
  let cu := {| cu_id := Some "u1"; cu__id := None; cu_role := Some "student" |} in
  spec_actorId cu = "u1"
  /\ claimed_submitterId pr = "u1"
  /\ claimed_isOwner pr cu = true
  /\ submittedByIdOf (Ref pr) = Returns ""
  /\ exists p,
       getProjectRequestPermissions (Ref pr) (Ref cu) = Returns p
       /\ canViewDocument p = VBool false
       /\ canEdit p = VBool false
       /\ truthy (canDelete p) = false.
Proof.
  cbv zeta. repeat (split; [reflexivity|]).
  eexists. split; [reflexivity|]. repeat split; reflexivity.
Qed.

(** The two readings of the submitter identifier differ only on a
    [submittedBy] that is the empty string. *)
Lemma claimed_submitterId_agrees (pr : ProjectRequest) :
  pr_submittedBy pr <> Some (SbString "") ->
  claimed_submitterId pr = spec_submitterId pr.
Proof.
  unfold claimed_submitterId, spec_submitterId.
  destruct (pr_submittedBy pr) as [[s|o]|]; cbn [firstNonEmpty]; intros Hne.
  - destruct (String.eqb_spec s "") as [->|]; [contradiction | reflexivity].
  - reflexivity.
  - reflexivity.
Qed.

(** C3 (ownership detection), amended. The evaluator's actor identifier
    is [actor.id], else [actor._id], else the empty string. Its submitter
    identifier is [submittedBy] itself when that is a string; otherwise
    the first non-empty of the embedded [_id], the embedded [id] and the
    separate [submittedById], else the empty string: this is the ordered
    fallback of the claim except on a [submittedBy] that is the empty
    string. The actor is the owner exactly when both identifiers are
    non-empty and equal, and the evaluator shows it: an owner is always
    granted the document, and for an actor who is not mentor, researcher
    or admin [canViewDocument] is exactly the ownership (as are
    [canEdit] and the truth of [canDelete] on a pending request). A
    request submitted by the string "u1", or by [{_id: "u1"}], is owned
    by the actor whose id is "u1", and an empty identifier on either side
    never matches. *)
Theorem ownership_detection (pr : ProjectRequest) (cu : CurrentUser) :
  exists p,
    getProjectRequestPermissions (Ref pr) (Ref cu) = Returns p
    /\ userIdOf (Ref cu) = Returns (spec_actorId cu)
    /\ submittedByIdOf (Ref pr) = Returns (spec_submitterId pr)
    /\ (spec_isOwner pr cu = true
        <-> spec_actorId cu <> "" /\ spec_submitterId pr <> ""
            /\ spec_actorId cu = spec_submitterId pr)
    /\ (pr_submittedBy pr <> Some (SbString "") ->
        spec_submitterId pr = claimed_submitterId pr
        /\ spec_isOwner pr cu = claimed_isOwner pr cu)
    /\ (spec_isOwner pr cu = true -> canViewDocument p = VBool true)
    /\ (spec_isMentorOrHigher cu = false ->
        canViewDocument p = VBool (spec_isOwner pr cu)
        /\ (pr_status pr = "pending" ->
            truthy (canDelete p) = spec_isOwner pr cu
            /\ canEdit p = VBool (spec_isOwner pr cu)))
    /\ (cu_id cu = Some "u1" ->
        pr_submittedBy pr = Some (SbString "u1")
        \/ (exists o, pr_submittedBy pr = Some (SbObject o) /\ sb__id o = Some "u1") ->
        spec_isOwner pr cu = true /\ canViewDocument p = VBool true)
    /\ (spec_actorId cu = "" \/ spec_submitterId pr = "" ->
        spec_isOwner pr cu = false
        /\ (spec_isMentorOrHigher cu = false -> canViewDocument p = VBool false)).
Proof.
  rewrite evaluate_present. cbv zeta. eexists. split; [reflexivity|].
  split; [apply userIdOf_ref|]. split; [apply submittedByIdOf_ref|].
  cbn [canViewDocument canDelete canEdit].
  rewrite isOwnerOf_value. unfold spec_isOwner.
  set (u := spec_actorId cu). set (s := spec_submitterId pr).
  assert (bool_decide (cu_role cu = Some "admin") = true ->
          spec_isMentorOrHigher cu = true) as Hadmin.
  { unfold spec_isMentorOrHigher. intros ->. apply orb_true_r. }
  split; [|split; [|split; [|split; [|split]]]].
  - destruct (String.eqb_spec u ""), (String.eqb_spec s ""), (String.eqb_spec u s);
      cbn [negb andb]; split; try discriminate; try tauto.
  - intros Hne. split.
    + symmetry. apply claimed_submitterId_agrees. exact Hne.
    + unfold claimed_isOwner. rewrite (claimed_submitterId_agrees pr Hne). reflexivity.
  - destruct (String.eqb u ""), (String.eqb s ""), (String.eqb u s);
      cbn [negb andb]; try discriminate; intros _;
      destruct (bool_decide (cu_role cu = Some "admin")),
        (spec_isMentorOrHigher cu); reflexivity.
  - intros Hm. destruct (bool_decide (cu_role cu = Some "admin")) eqn:Ha.
    { rewrite (Hadmin eq_refl) in Hm. discriminate Hm. }
    rewrite Hm. split.
    + destruct (String.eqb u ""), (String.eqb s ""), (String.eqb u s); reflexivity.
    + intros ->. unfold strictEq, strictNe.
      destruct (String.eqb u ""), (String.eqb s ""), (String.eqb u s);
        split; reflexivity.
  - intros Hid Hsb.
    assert (u = "u1") as ->.
    { unfold u, spec_actorId. rewrite Hid. reflexivity. }
    assert (s = "u1") as ->.
    { unfold s, spec_submitterId.
      destruct Hsb as [-> | (o & -> & Ho)]; [reflexivity|].
      cbn [firstNonEmpty]. rewrite Ho. reflexivity. }
    split; [reflexivity|].
    destruct (bool_decide (cu_role cu = Some "admin")),
      (spec_isMentorOrHigher cu); reflexivity.
  - intros Hempty.
    assert (negb (String.eqb u "") && negb (String.eqb s "") && String.eqb u s = false)
      as Hno.
    { destruct Hempty as [-> | ->]; [reflexivity|].
      destruct (String.eqb u ""); reflexivity. }
    split; [exact Hno|]. intros Hm.
    destruct (bool_decide (cu_role cu = Some "admin")) eqn:Ha.
    { rewrite (Hadmin eq_refl) in Hm. discriminate Hm. }
    rewrite Hm.
    destruct Hempty as [-> | ->]; [reflexivity|].
    destruct (String.eqb u ""); reflexivity.
Qed.

(** C4 (rejection asymmetry). For a request whose status is "rejected":
    an actor who owns it and is neither admin nor mentor-or-higher gets
    [canEdit = false]; an actor whose role is mentor, researcher or admin
    gets [canEdit = true] and [canChangeStatus = true]. *)
Theorem rejection_asymmetry (pr : ProjectRequest) (cu : CurrentUser) :
  pr_status pr = "rejected" ->
  exists p,
    getProjectRequestPermissions (Ref pr) (Ref cu) = Returns p
    /\ (spec_isOwner pr cu = true ->
        cu_role cu <> Some "admin" ->
        spec_isMentorOrHigher cu = false ->
        canEdit p = VBool false)
    /\ (spec_isMentorOrHigher cu = true ->
        canEdit p = VBool true /\ canChangeStatus p = VBool true).
Proof.
  intros Hst. rewrite evaluate_present. cbv zeta. eexists. split; [reflexivity|].
  rewrite Hst. cbn [canEdit canChangeStatus].
  split.
  - intros _ Hadm Hmen. rewrite Hmen.
    owner_cases pr cu E; role_cases; perm_eval E; reflexivity.
  - intros Hmen. rewrite Hmen.
    owner_cases pr cu E; role_cases; perm_eval E; split; reflexivity.
Qed.

Lemma rejection_asymmetry_witness :
  let pr := {| pr__id := Some "r1"; pr_id := None; pr_status := "rejected";
               pr_submittedBy := Some (SbString "u1"); pr_submittedById := None |} in
  let owner := {| cu_id := Some "u1"; cu__id := None; cu_role := Some "student" |} in
  let mentor := {| cu_id := Some "u2"; cu__id := None; cu_role := Some "mentor" |} in
  pr_status pr = "rejected"
  /\ (exists p, getProjectRequestPermissions (Ref pr) (Ref owner) = Returns p
        /\ canEdit p = VBool false)
  /\ (exists p, getProjectRequestPermissions (Ref pr) (Ref mentor) = Returns p
        /\ canEdit p = VBool true /\ canChangeStatus p = VBool true).
Proof.
  intros pr owner mentor. split; [reflexivity|]. split.
  - destruct (rejection_asymmetry pr owner eq_refl) as (p & E & Ho & _).
    exists p. split; [exact E|]. apply Ho; [reflexivity | discriminate | reflexivity].
  - destruct (rejection_asymmetry pr mentor eq_refl) as (p & E & _ & Hm).
    exists p. split; [exact E|]. apply Hm. reflexivity.
Defined.

(** *** The evaluator on parsed values *)

(** The evaluator returns on every input of its declared types. *)
Lemma evaluator_returns (projectRequest : Nullable ProjectRequest)
    (currentUser : Nullable CurrentUser) :
  exists p, getProjectRequestPermissions projectRequest currentUser = Returns p.
Proof.
  destruct projectRequest as [| |pr], currentUser as [| |cu];
    try (eexists; reflexivity).
  rewrite evaluate_present. eexists. reflexivity.
Qed.

(** Reading the properties of an encoded record, by cases on the fields
    that are present and on the strings that are empty. *)
Ltac parsed_eval :=
  cbn [Parsed.field app Parsed.get Parsed.getOpt Parsed.lookup Parsed.isString
       String.eqb Ascii.eqb Bool.eqb
       Parsed.orEmpty bind Parsed.truthyP firstNonEmpty sb__id sb_id negb orb
       fmap option_fmap option_map];
  repeat (match goal with
          | |- context [String.eqb ?x ""] =>
              is_var x; destruct (String.eqb_spec x "") as [->|?]
          end;
          cbn [Parsed.field app Parsed.get Parsed.getOpt Parsed.lookup
               String.eqb Ascii.eqb Bool.eqb
               Parsed.orEmpty bind Parsed.truthyP firstNonEmpty sb__id sb_id negb]);
  try reflexivity; try congruence.

Lemma parsed_userId (cu : CurrentUser) :
  Parsed.orEmpty (Parsed.get (Some (Parsed.ofUser cu)) "id")
    (Parsed.orEmpty (Parsed.get (Some (Parsed.ofUser cu)) "_id") (Returns Parsed.Empty))
  = Returns (if String.eqb (spec_actorId cu) "" then Parsed.Empty
             else Parsed.Given (Parsed.PStr (spec_actorId cu))).
Proof.
  destruct cu as [cid cid' role]. unfold Parsed.ofUser, spec_actorId.
  cbn [cu_id cu__id cu_role].
  destruct cid as [a|], cid' as [b|], role as [r|]; parsed_eval.
Qed.

Lemma parsed_submittedById {B} (pr : ProjectRequest) (k : Parsed.Ident -> Exc B) :
  (exec submittedBy := Parsed.get (Some (Parsed.ofRequest pr)) "submittedBy" in
   exec submittedById :=
     (match submittedBy with
      | Some (Parsed.PStr s) =>
          Returns (if String.eqb s "" then Parsed.Empty else Parsed.Given (Parsed.PStr s))
      | _ =>
          Parsed.orEmpty (Parsed.getOpt submittedBy "_id")
            (Parsed.orEmpty (Parsed.getOpt submittedBy "id")
               (Parsed.orEmpty (Parsed.get (Some (Parsed.ofRequest pr)) "submittedById")
                  (Returns Parsed.Empty)))
      end) in
   k submittedById)
  = k (if String.eqb (spec_submitterId pr) "" then Parsed.Empty
       else Parsed.Given (Parsed.PStr (spec_submitterId pr))).
Proof.
  destruct pr as [pid pid' st sb sbid]. unfold Parsed.ofRequest, spec_submitterId.
  cbn [pr__id pr_id pr_status pr_submittedBy pr_submittedById].
  destruct pid as [a|], pid' as [b|], sb as [[s|[[oa|] [ob|]]]|], sbid as [c|];
    parsed_eval.
Qed.

Lemma parsed_role_status (pr : ProjectRequest) (cu : CurrentUser) :
  Parsed.get (Some (Parsed.ofUser cu)) "role" = Returns (Parsed.PStr <$> cu_role cu)
  /\ Parsed.get (Some (Parsed.ofRequest pr)) "status"
     = Returns (Some (Parsed.PStr (pr_status pr))).
Proof.
  destruct pr as [pid pid' st sb sbid], cu as [cid cid' role].
  unfold Parsed.ofRequest, Parsed.ofUser.
  cbn [pr__id pr_id pr_status pr_submittedBy pr_submittedById cu_id cu__id cu_role].
  split.
  - destruct cid, cid', role; reflexivity.
  - destruct pid, pid'; reflexivity.
Qed.

(** On the values of the declared types the evaluator on parsed values
    is the evaluator on records. *)
Lemma parsed_agrees (projectRequest : Nullable ProjectRequest)
    (currentUser : Nullable CurrentUser) :
  Parsed.getProjectRequestPermissions
    (Parsed.ofRef Parsed.ofRequest projectRequest) (Parsed.ofRef Parsed.ofUser currentUser)
  = getProjectRequestPermissions projectRequest currentUser.
Proof.
  destruct projectRequest as [| |pr], currentUser as [| |cu]; try reflexivity.
  rewrite evaluate_present. cbv zeta.
  unfold Parsed.getProjectRequestPermissions.
  change (Parsed.truthyP (Parsed.ofRef Parsed.ofRequest (Ref pr))) with true.
  change (Parsed.truthyP (Parsed.ofRef Parsed.ofUser (Ref cu))) with true.
  cbn [Parsed.ofRef negb orb].
  rewrite parsed_userId. cbn [bind].
  rewrite parsed_submittedById.
  destruct (parsed_role_status pr cu) as [Hrole Hstatus].
  assert (Parsed.isString (Parsed.PStr <$> cu_role cu) "admin"
          = bool_decide (cu_role cu = Some "admin")) as Hadmin.
  { destruct (cu_role cu) as [r|]; [|reflexivity].
    cbn [fmap option_fmap option_map Parsed.isString].
    destruct (String.eqb_spec r "admin"); case_bool_decide; congruence. }
  assert (match (if Parsed.truthyP (Parsed.PStr <$> cu_role cu)
                 then Parsed.PStr <$> cu_role cu else Some (Parsed.PStr "")) with
          | Some (Parsed.PStr r) => includes mentorRoles r
          | _ => false
          end = spec_isMentorOrHigher cu) as Hmentor.
  { unfold spec_isMentorOrHigher. rewrite <- includes_mentorRoles.
    destruct (cu_role cu) as [r|]; [|reflexivity].
    cbn [fmap option_fmap option_map Parsed.truthyP from_option Datatypes.id].
    destruct (String.eqb_spec r "") as [->|]; reflexivity. }
  rewrite isOwnerOf_value. unfold strictEq, strictNe.
  destruct (String.eqb (spec_actorId cu) "") eqn:Hu;
    [|destruct (String.eqb (spec_submitterId pr) "") eqn:Hs];
    cbn [bind Parsed.toStringP];
    rewrite Hrole; cbn [bind]; rewrite Hstatus; cbn [bind Parsed.isString];
    rewrite Hadmin, Hmentor; reflexivity.
Qed.



(** C9 (capability hierarchy). On every input, null ones included, the
    record returned satisfies: [canApprove] implies [canChangeStatus],
    [canChangeStatus] implies [canEdit], and [canEdit] implies
    [canViewDocument]; the four are booleans. *)
Theorem capability_hierarchy
    (projectRequest : Nullable ProjectRequest) (currentUser : Nullable CurrentUser) :
  exists p approve change edit view,
    getProjectRequestPermissions projectRequest currentUser = Returns p
    /\ canApprove p = VBool approve
    /\ canChangeStatus p = VBool change
    /\ canEdit p = VBool edit
    /\ canViewDocument p = VBool view
    /\ (approve = true -> change = true)
    /\ (change = true -> edit = true)
    /\ (edit = true -> view = true).
Proof.
  destruct projectRequest as [| |pr], currentUser as [| |cu];
    try (exists degenerate, false, false, false, false;
         repeat split; (reflexivity || discriminate)).
  rewrite evaluate_present. cbv zeta.
  owner_cases pr cu E;
    destruct (spec_isMentorOrHigher cu) eqn:Hm;
    destruct (bool_decide (cu_role cu = Some "admin")) eqn:Ha;
    status_cases pr; perm_eval E;
    do 5 eexists; (split; [reflexivity|]);
    cbn [canApprove canChangeStatus canEdit canViewDocument];
    repeat split; try reflexivity; try discriminate; try tauto.
Qed.

(** C10 (read-only / admin-badge partition). On every input the record
    never has [isReadOnly] and [showAdminBadge] both true; for a present
    request and a present actor, one of the two is true exactly when the
    status is "approved". *)
Theorem readonly_badge_partition :
  (forall (projectRequest : Nullable ProjectRequest) (currentUser : Nullable CurrentUser),
     exists p readOnly adminBadge,
       getProjectRequestPermissions projectRequest currentUser = Returns p
       /\ isReadOnly p = VBool readOnly
       /\ showAdminBadge p = VBool adminBadge
       /\ readOnly && adminBadge = false)
  /\ (forall (pr : ProjectRequest) (cu : CurrentUser),
        exists p readOnly adminBadge,
          getProjectRequestPermissions (Ref pr) (Ref cu) = Returns p
          /\ isReadOnly p = VBool readOnly
          /\ showAdminBadge p = VBool adminBadge
          /\ (readOnly || adminBadge = true <-> pr_status pr = "approved")).
Proof.
  split.
  - intros [| |pr] [| |cu];
      try (exists degenerate, true, false; repeat split; reflexivity).
    rewrite evaluate_present. cbv zeta.
    destruct (bool_decide (cu_role cu = Some "admin")) eqn:Ha;
      status_cases pr; perm_eval Ha;
      do 3 eexists; (split; [reflexivity|]); cbn [isReadOnly showAdminBadge];
      repeat split; reflexivity.
  - intros pr cu. rewrite evaluate_present. cbv zeta.
    destruct (bool_decide (cu_role cu = Some "admin")) eqn:Ha;
      status_cases pr; perm_eval Ha;
      do 3 eexists; (split; [reflexivity|]); cbn [isReadOnly showAdminBadge];
      (split; [reflexivity|]); (split; [reflexivity|]);
      simpl; split; congruence.
Qed.

(** ** The status badge *)

Lemma includes_In (l : list string) (x : string) :
  includes l x = true <-> In x l.
Proof.
  unfold includes. rewrite existsb_exists. split.
  - intros (y & Hy & E). apply String.eqb_eq in E. subst y. exact Hy.
  - intros H. exists x. split; [exact H | apply String.eqb_refl].
Qed.

Lemma includes_not_In (l : list string) (x : string) :
  ~ In x l -> includes l x = false.
Proof.
  intros H. destruct (includes l x) eqn:E; [|reflexivity].
  apply includes_In in E. contradiction.
Qed.

(** Reading an own entry of [badges]. *)
Lemma readBadge_pending (c : bool) :
  readBadge (badges c) "pending"
  = Tuple {| color := "bg-yellow-100 text-yellow-800"; text := "Pending";
             icon := "clock"; badge := None |}.
Proof. unfold readBadge, badges. rewrite lookup_insert_eq. reflexivity. Qed.

(** Reading a key that is not one of the five entries. *)
Lemma badges_lookup_other (c : bool) (s : string) :
  ~ In s statusEnum -> badges c !! s = None.
Proof.
  intros H. unfold badges.
  repeat (rewrite lookup_insert_ne;
          [| intros <-; apply H; simpl; tauto]).
  apply lookup_empty.
Qed.

(** C5, as stated, fails: a string outside the enumeration, such as
    "archived", is mapped to the "Pending" tuple and not to the "Unknown"
    one. *)
Lemma status_badge_counterexample :
  ~ In "archived" statusEnum
  /\ getStatusBadge (Some "archived") false
     = Tuple {| color := "bg-yellow-100 text-yellow-800"; text := "Pending";
                icon := "clock"; badge := None |}
  /\ getStatusBadge (Some "archived") false <> Tuple unknownBadge.
Proof.
  assert (~ In "archived" statusEnum) as Hout.
  { simpl. intros H. repeat (destruct H as [H|H]; [discriminate H|]). exact H. }
  assert (getStatusBadge (Some "archived") false
          = Tuple {| color := "bg-yellow-100 text-yellow-800"; text := "Pending";
                     icon := "clock"; badge := None |}) as E.
  { unfold getStatusBadge. cbn [negb String.eqb Ascii.eqb Bool.eqb from_option id].
    unfold readBadge at 1. rewrite (badges_lookup_other false "archived" Hout).
    cbn [includes objectPrototypeNames existsb String.eqb Ascii.eqb Bool.eqb orb
         truthyLookup].
    apply readBadge_pending. }
  split; [exact Hout|]. split; [exact E|].
  rewrite E. discriminate.
Qed.

(** C5 (status badge), amended. "pending" maps to the yellow "Pending"
    tuple; an undefined or empty status maps to the neutral "Unknown"
    tuple; a non-empty string outside the five enumerated values, the
    names of the members of Object.prototype apart, maps to the "Pending"
    tuple, by the fallback [badges[status] || badges.pending], and not to
    the "Unknown" one; for "approved" the [badge] field is
    "Admin-Only Editing" when [canEdit] is true and "Read-Only"
    otherwise. *)
Theorem status_badge_mapping :
  (forall c : bool,
     getStatusBadge (Some "pending") c
     = Tuple {| color := "bg-yellow-100 text-yellow-800"; text := "Pending";
                icon := "clock"; badge := None |})
  /\ (forall c : bool,
        getStatusBadge None c = Tuple unknownBadge
        /\ getStatusBadge (Some "") c = Tuple unknownBadge
        /\ text unknownBadge = "Unknown")
  /\ (forall (s : string) (c : bool),
        s <> "" -> ~ In s statusEnum -> ~ In s objectPrototypeNames ->
        getStatusBadge (Some s) c
        = Tuple {| color := "bg-yellow-100 text-yellow-800"; text := "Pending";
                   icon := "clock"; badge := None |})
  /\ (forall c : bool,
        getStatusBadge (Some "approved") c
        = Tuple {| color := "bg-green-100 text-green-800"; text := "Approved";
                   icon := "check-circle";
                   badge := Some (if c then "Admin-Only Editing" else "Read-Only") |}).
Proof.
  split; [|split; [|split]].
  - intros c. unfold getStatusBadge. cbn [negb String.eqb from_option id].
    rewrite readBadge_pending. reflexivity.
  - intros c. repeat split; reflexivity.
  - intros s c Hne Henum Hproto. unfold getStatusBadge.
    apply String.eqb_neq in Hne. rewrite Hne. cbn [negb from_option id].
    unfold readBadge at 1 2. rewrite (badges_lookup_other c s Henum).
    rewrite (includes_not_In _ _ Hproto). cbn [truthyLookup].
    apply readBadge_pending.
  - intros c. unfold getStatusBadge. cbn [negb String.eqb Ascii.eqb Bool.eqb from_option id].
    unfold readBadge, badges.
    rewrite lookup_insert_ne by discriminate.
    rewrite lookup_insert_ne by discriminate.
    rewrite lookup_insert_eq. reflexivity.
Qed.

(** ** Soft-deleted requests in the listing *)

Import Listing.

(** C2, as stated, fails: the evaluator does not read [isDeleted]. For a
    soft-deleted pending request and an admin it grants every capability,
    and the table renders a row for the request. *)
Lemma soft_deleted_counterexample :
  let request := {| _id := "r1"; status := "pending"; submittedBy := "u1";
                    isDeleted := Some true; deletedAt := Some "2024-01-01";
                    deletedBy := Some "u9" |} in
  let admin := {| cu_id := Some "a1"; cu__id := None; cu_role := Some "admin" |} in
  isDeleted request = Some true
  /\ getProjectRequestPermissions (Ref (asEvaluated request)) (Ref admin)
     = Returns {| canEdit := VBool true; canChangeStatus := VBool true;
                  canViewDocument := VBool true; canDelete := VBool true;
                  canApprove := VBool true; canReject := VBool true;
                  isReadOnly := VBool false; showAdminBadge := VBool false |}
  /\ getProjectRequestPermissions (Ref (asEvaluated request)) (Ref admin)
     <> Returns degenerate
  /\ rows [request] = ["r1"].
Proof.
  cbv zeta. split; [reflexivity|].
  split; [reflexivity|]. split; [|reflexivity].
  discriminate.
Qed.

(** The Actions cell is rendered for every request and every actor. *)
Lemma rowActions_returns (request : Listing.ProjectRequest)
    (currentUser : Nullable CurrentUser) :
  exists cell, rowActions request currentUser = Returns cell.
Proof.
  unfold rowActions. destruct (negb (deleted request)).
  - destruct (evaluator_returns (Ref (asEvaluated request)) currentUser) as (p & ->).
    eexists. reflexivity.
  - eexists. reflexivity.
Qed.

(** The table has one row per item, in the order of the items. *)
Lemma tableRows_keys (filters : ProjectRequestFilters) (selected : list string)
    (currentUser : Nullable CurrentUser) (items : list Listing.ProjectRequest) :
  exists tableBody,
    ListingPage.tableRows filters selected currentUser items = Returns tableBody
    /\ map ListingPage.key tableBody = map _id items.
Proof.
  unfold ListingPage.tableRows. induction items as [|r items (tableBody & IH & Hkeys)].
  - exists []. split; reflexivity.
  - cbn [UsersPage.mapE]. unfold ListingPage.renderRow at 1.
    destruct (rowActions_returns r currentUser) as (cell & ->). cbn [bind].
    rewrite IH. cbn [bind]. eexists. split; [reflexivity|].
    cbn [map ListingPage.key]. rewrite Hkeys. reflexivity.
Qed.

(** C2 (soft-deleted requests), amended. The evaluator does not read
    [isDeleted]: requests with the same status and submitter get the same
    record, whatever the flag. The listing page handles a soft-deleted
    request by its own gate: on a row whose [isDeleted] is true it shows
    the DELETED label, evaluates no permission and renders in the Actions
    cell nothing but the link to the details, and its per-status counters
    skip the request. The page filters no item out by [isDeleted]: the
    table has one row per item that was fetched, so that the default
    listing excludes the soft-deleted requests only as far as its
    endpoint does. The deleted requests are read from their own endpoint
    when [showDeleted] is set or the status filter is "deleted", and in
    that view the table has no selection column and the bar of the bulk
    actions is hidden. *)
Theorem soft_deleted_rows :
  (forall (r r' : Listing.ProjectRequest) (cu : Nullable CurrentUser),
     status r = status r' -> submittedBy r = submittedBy r' ->
     getProjectRequestPermissions (Ref (asEvaluated r)) cu
     = getProjectRequestPermissions (Ref (asEvaluated r')) cu)
  /\ (forall filters selected cu (r : Listing.ProjectRequest),
        isDeleted r = Some true ->
        rowActions r cu = Returns [ViewDetails]
        /\ exists row,
             ListingPage.renderRow filters selected cu r = Returns row
             /\ ListingPage.key row = _id r
             /\ ListingPage.tinted row = true
             /\ ListingPage.statusCell row = ListingPage.DeletedLabel
             /\ ListingPage.actions row = [ViewDetails])
  /\ (forall (r : Listing.ProjectRequest) (s : string) (items : list Listing.ProjectRequest),
        isDeleted r = Some true ->
        countStatus s (r :: items) = countStatus s items)
  /\ (forall filters selected cu (items : list Listing.ProjectRequest),
        exists tableBody,
          ListingPage.tableRows filters selected cu items = Returns tableBody
          /\ map ListingPage.key tableBody = map _id items)
  /\ endpoint initialFilters = "/api/project-requests"
  /\ (forall filters : ProjectRequestFilters,
        (endpoint filters = "/api/project-requests/deleted"
         <-> f_showDeleted filters = true \/ f_status filters = "deleted")
        /\ (endpoint filters = "/api/project-requests"
            <-> f_showDeleted filters = false /\ f_status filters <> "deleted"))
  /\ (forall filters selected cu (r : Listing.ProjectRequest),
        endpoint filters = "/api/project-requests/deleted" ->
        ListingPage.bulkBarShown filters selected = false
        /\ exists row,
             ListingPage.renderRow filters selected cu r = Returns row
             /\ ListingPage.checkbox row = None).
Proof.
  assert (forall filters : ProjectRequestFilters,
            (endpoint filters = "/api/project-requests/deleted"
             <-> f_showDeleted filters = true \/ f_status filters = "deleted")
            /\ (endpoint filters = "/api/project-requests"
                <-> f_showDeleted filters = false /\ f_status filters <> "deleted"))
    as Hend.
  { intros filters. unfold endpoint, shouldUseDeletedEndpoint.
    destruct (f_showDeleted filters); cbn [orb].
    + split; split; try discriminate; try tauto. intros [H _]. discriminate H.
    + destruct (String.eqb_spec (f_status filters) "deleted") as [E|E].
      * split; split; try discriminate; try tauto.
      * split; split; try discriminate; try tauto.
        intros [H|H]; [discriminate H | contradiction]. }
  split; [|split; [|split; [|split; [|split; [|split]]]]].
  - intros r r' [| |cu] Hst Hsb; try reflexivity.
    rewrite !evaluate_present. cbv zeta.
    assert (forall x : Listing.ProjectRequest,
              spec_submitterId (asEvaluated x) = submittedBy x) as Hsub by reflexivity.
    rewrite !Hsub. cbn [asEvaluated pr_status]. rewrite Hst, Hsb. reflexivity.
  - intros filters selected cu r Hdel.
    assert (rowActions r cu = Returns [ViewDetails]) as Hcell.
    { unfold rowActions, deleted. rewrite Hdel. reflexivity. }
    split; [exact Hcell|].
    unfold ListingPage.renderRow. rewrite Hcell. cbn [bind].
    eexists. split; [reflexivity|].
    cbn [ListingPage.key ListingPage.tinted ListingPage.statusCell ListingPage.actions].
    unfold deleted. rewrite Hdel. repeat split; reflexivity.
  - intros r s items Hdel. unfold countStatus, deleted. cbn [List.filter].
    rewrite Hdel. cbn [from_option Datatypes.id negb]. rewrite andb_false_r. reflexivity.
  - apply tableRows_keys.
  - reflexivity.
  - exact Hend.
  - intros filters selected cu r Hview.
    assert (f_showDeleted filters || String.eqb (f_status filters) "deleted" = true)
      as Hor.
    { apply Hend in Hview. destruct Hview as [-> | ->]; [reflexivity|].
      apply orb_true_r. }
    split.
    + unfold ListingPage.bulkBarShown.
      apply orb_true_iff in Hor. destruct Hor as [-> | ->].
      * cbn [negb]. rewrite andb_false_r. reflexivity.
      * cbn [negb]. apply andb_false_r.
    + unfold ListingPage.renderRow.
      destruct (rowActions_returns r cu) as (cell & ->). cbn [bind].
      eexists. split; [reflexivity|]. cbn [ListingPage.checkbox].
      rewrite Hor. reflexivity.
Qed.

(** ** The users proxy route *)

Import Proxy.

Example strIncludes_json :
  strIncludes "application/json; charset=utf-8" "application/json" = true
  /\ strIncludes "text/html" "application/json" = false
  /\ strIncludes "" "application/json" = false.
Proof. repeat split; reflexivity. Qed.

Example numToString_status :
  numToString 404 = "404" /\ numToString 0 = "0".
Proof. split; reflexivity. Qed.

(** [trim] strips blanks at both ends and nothing inside. *)
Example trim_blank :
  trim [32; 10; 9]%N = [] /\ trim [32; 123; 32; 125; 10]%N = [123; 32; 125]%N.
Proof. split; reflexivity. Qed.

(** A not-found answer that is not JSON: the reply carries the message
    built from the route parameter, under the backend's status. *)
Example not_found_reply :
  GET "https://backend" (fun _ => None)
    (fun _ => Proxy.Responds {| Proxy.status := 404;
                                contentTypeHeader := Some "text/html";
                                body := Text [60; 112; 62]%N |})
    {| authorization := Some "Bearer t"; Proxy.id := "42" |}
  = Returns {| replyStatus := 404;
               replyBody :=
                 JObj [("success", JBool false);
                       ("message",
                        JStr ("User with ID " +:+ dquote +:+ "42" +:+ dquote
                              +:+ " not found"))] |}.
Proof. vm_compute. reflexivity. Qed.

(** The message of an error reply is never missing: the chain of [||]
    ends in a non-empty string. *)
Lemma errorMessage_truthy (data : json) (st : N) (m : json) :
  errorMessage data st = Returns m -> jsonTruthy m = true.
Proof.
  unfold errorMessage, orJ, bind. intros H.
  destruct (getProp data "message") as [v1|e1]; [|discriminate H].
  destruct (truthyOpt v1) eqn:T1.
  { destruct v1 as [j|]; [|discriminate T1]. injection H as <-. exact T1. }
  destruct (getProp data "error") as [v2|e2]; [|discriminate H].
  destruct (getPropOpt v2 "message") as [v3|e3]; [|discriminate H].
  destruct (truthyOpt v3) eqn:T3.
  { destruct v3 as [j|]; [|discriminate T3]. injection H as <-. exact T3. }
  cbn in H. injection H as <-. reflexivity.
Qed.

(** A reply built for a status the constructor refuses is replaced by the
    reply of the outer [catch]. *)
Lemma error_reply_shape (message : json) (st : N) :
  try_catch
    (NextResponse_json (JObj [("success", JBool false); ("message", message)]) st)
    (fun _ =>
       NextResponse_json
         (JObj [("success", JBool false); ("message", JStr "Internal server error")]) 500)
  = Returns {| replyStatus := st;
               replyBody := JObj [("success", JBool false); ("message", message)] |}
  \/ try_catch
       (NextResponse_json (JObj [("success", JBool false); ("message", message)]) st)
       (fun _ =>
          NextResponse_json
            (JObj [("success", JBool false); ("message", JStr "Internal server error")]) 500)
     = Returns {| replyStatus := 500;
                  replyBody := JObj [("success", JBool false);
                                     ("message", JStr "Internal server error")] |}.
Proof.
  unfold NextResponse_json, try_catch.
  destruct ((st <? 200)%N || (599 <? st)%N); [right; reflexivity|].
  destruct (existsb (N.eqb st) [101; 204; 205; 304]%N); [right|left]; reflexivity.
Qed.



(** ** The drain of the users list *)

Import UsersPage.

Section PagesFacts.
Variable token : string.
Variable activeTab : Tab.
Variable server : Call -> UsersPage.FetchOutcome.

(** A pass does what the verdict on its page says. *)
Lemma pass_verdict (skip : N) (acc : list User) :
  pass token activeTab server skip acc
  = match verdictOf (server (callFor token activeTab skip)) with
    | MoreData users => Returns (Continue (skip + limit) (acc ++ users)%list)
    | NoMoreData users => Returns (Done (acc ++ users)%list)
    | NotOk message => Returns (Break acc message)
    | Failed e => Throws e
    end.
Proof.
  unfold pass, verdictOf.
  destruct (server (callFor token activeTab skip)) as [response|]; [|reflexivity].
  destruct (UsersPage.ok response); cbn [negb].
  - destruct (jsonBody response) as [data|]; [|reflexivity].
    destruct (normalizedUsersOf data) as [[|u users]|e]; cbn [bind length Nat.eqb].
    + rewrite app_nil_r. reflexivity.
    + destruct (hasMoreFlag data) as [flag|e]; cbn [bind]; [|reflexivity].
      destruct (flag || _); reflexivity.
    + reflexivity.
  - destruct (failureMessage response); reflexivity.
Qed.

(** The loop from the page of index [j]: it ends on the first page whose
    verdict is not more data, with what it collected on the way. *)
Lemma drain_pages (fuel : nat) :
  forall (j : nat) (acc : list User) (result : Exc (list User * option json)),
    drain token activeTab server fuel (limit * N.of_nat j) acc = Some result
    <-> exists k,
          k < fuel
          /\ (forall i, i < k -> isMoreData (pageAt token activeTab server (j + i)) = true)
          /\ endingWith (acc ++ collectedFrom token activeTab server j k)%list
               (pageAt token activeTab server (j + k)) = Some result.
Proof.
  induction fuel as [|fuel IH]; intros j acc result.
  - split; [discriminate | intros (k & Hk & _); lia].
  - cbn [drain]. rewrite pass_verdict. fold (pageAt token activeTab server j).
    assert (limit * N.of_nat j + limit = limit * N.of_nat (S j))%N as Hnext
      by (unfold limit; lia).
    destruct (pageAt token activeTab server j) as [users|users|message|e] eqn:Hpage.
    + rewrite Hnext, IH. split.
      * intros (k & Hk & Hmore & Hend). exists (S k). split; [lia|]. split.
        -- intros [|i] Hi; [rewrite Nat.add_0_r, Hpage; reflexivity|].
           replace (j + S i) with (S j + i) by lia. apply Hmore. lia.
        -- replace (j + S k) with (S j + k) by lia.
           unfold collectedFrom in *. cbn [seq flat_map].
           rewrite Hpage. cbn [usersOf]. rewrite app_assoc. exact Hend.
      * intros (k & Hk & Hmore & Hend). destruct k as [|k].
        { rewrite Nat.add_0_r, Hpage in Hend. discriminate Hend. }
        exists k. split; [lia|]. split.
        -- intros i Hi. replace (S j + i) with (j + S i) by lia. apply Hmore. lia.
        -- replace (S j + k) with (j + S k) by lia.
           unfold collectedFrom in *. cbn [seq flat_map] in Hend.
           rewrite Hpage in Hend. cbn [usersOf] in Hend.
           rewrite app_assoc in Hend. exact Hend.
    + split.
      * intros H. injection H as <-. exists 0. split; [lia|].
        split; [intros i Hi; lia|].
        rewrite Nat.add_0_r, Hpage. unfold collectedFrom. cbn [seq flat_map endingWith].
        rewrite app_nil_r. reflexivity.
      * intros ([|k] & Hk & Hmore & Hend).
        -- rewrite Nat.add_0_r, Hpage in Hend. unfold collectedFrom in Hend.
           cbn [seq flat_map endingWith] in Hend. rewrite app_nil_r in Hend.
           exact Hend.
        -- specialize (Hmore 0 ltac:(lia)). rewrite Nat.add_0_r, Hpage in Hmore.
           discriminate Hmore.
    + split.
      * intros H. injection H as <-. exists 0. split; [lia|].
        split; [intros i Hi; lia|].
        rewrite Nat.add_0_r, Hpage. unfold collectedFrom. cbn [seq flat_map endingWith].
        rewrite app_nil_r. reflexivity.
      * intros ([|k] & Hk & Hmore & Hend).
        -- rewrite Nat.add_0_r, Hpage in Hend. unfold collectedFrom in Hend.
           cbn [seq flat_map endingWith] in Hend. rewrite app_nil_r in Hend.
           exact Hend.
        -- specialize (Hmore 0 ltac:(lia)). rewrite Nat.add_0_r, Hpage in Hmore.
           discriminate Hmore.
    + split.
      * intros H. injection H as <-. exists 0. split; [lia|].
        split; [intros i Hi; lia|].
        rewrite Nat.add_0_r, Hpage. reflexivity.
      * intros ([|k] & Hk & Hmore & Hend).
        -- rewrite Nat.add_0_r, Hpage in Hend. exact Hend.
        -- specialize (Hmore 0 ltac:(lia)). rewrite Nat.add_0_r, Hpage in Hmore.
           discriminate Hmore.
Qed.

(** Up to any page, either some first page is not more data, or all
    are. *)
Lemma scan_pages (n : nat) :
  (exists k,
     k < n
     /\ (forall i, i < k -> isMoreData (pageAt token activeTab server i) = true)
     /\ isMoreData (pageAt token activeTab server k) = false)
  \/ (forall i, i < n -> isMoreData (pageAt token activeTab server i) = true).
Proof.
  induction n as [|n [(k & Hk & Hbefore & Hat)|Hall]].
  - right. intros i Hi. lia.
  - left. exists k. split; [lia|]. split; assumption.
  - destruct (isMoreData (pageAt token activeTab server n)) eqn:Hn.
    + right. intros i Hi. destruct (Nat.eq_dec i n) as [->|]; [exact Hn|].
      apply Hall. lia.
    + left. exists n. split; [lia|]. split; assumption.
Qed.

(** The first page that is not more data, when there is one. *)
Lemma first_ending_page (n : nat) :
  isMoreData (pageAt token activeTab server n) = false ->
  exists k,
    k <= n
    /\ (forall i, i < k -> isMoreData (pageAt token activeTab server i) = true)
    /\ isMoreData (pageAt token activeTab server k) = false.
Proof.
  intros Hn. destruct (scan_pages n) as [(k & Hk & Hbefore & Hat)|Hall].
  - exists k. split; [lia|]. split; assumption.
  - exists n. split; [lia|]. split; assumption.
Qed.

(** More fuel does not change the outcome of a loop that ended. *)
Lemma drain_more_fuel (fuel : nat) :
  forall (skip : N) (all : list User) result (fuel' : nat),
    drain token activeTab server fuel skip all = Some result ->
    fuel <= fuel' ->
    drain token activeTab server fuel' skip all = Some result.
Proof.
  induction fuel as [|fuel IH]; intros skip all result fuel' Hd Hle; [discriminate Hd|].
  destruct fuel' as [|fuel']; [lia|].
  cbn [drain] in *.
  destruct (pass token activeTab server skip all) as [[s' a'|a' m|a']|e];
    try exact Hd.
  apply IH; [exact Hd | lia].
Qed.

End PagesFacts.

(** More data, in terms of the answer. *)
Lemma moreData_iff (outcome : UsersPage.FetchOutcome) :
  isMoreData (verdictOf outcome) = true
  <-> exists response data users flag,
        outcome = UsersPage.Responds response
        /\ UsersPage.ok response = true
        /\ jsonBody response = Some data
        /\ normalizedUsersOf data = Returns users
        /\ users <> []
        /\ hasMoreFlag data = Returns flag
        /\ (flag = true \/ N.of_nat (length users) = limit).
Proof.
  unfold verdictOf. split.
  - destruct outcome as [response|]; [|discriminate].
    destruct (UsersPage.ok response) eqn:Hok.
    2:{ destruct (failureMessage response); discriminate. }
    destruct (jsonBody response) as [data|] eqn:Hbody; [|discriminate].
    destruct (normalizedUsersOf data) as [[|u users]|e] eqn:Hn; try discriminate.
    destruct (hasMoreFlag data) as [flag|e] eqn:Hf; [|discriminate].
    destruct (flag || _) eqn:Hmore; [|discriminate].
    intros _. exists response, data, (u :: users), flag.
    repeat split; try assumption; try reflexivity; try discriminate.
    apply orb_true_iff in Hmore. destruct Hmore as [->|Hfull]; [left; reflexivity|].
    right. apply N.eqb_eq. exact Hfull.
  - intros (response & data & users & flag & -> & Hok & Hbody & Hn & Hne & Hf & Hmore).
    rewrite Hok, Hbody, Hn. destruct users as [|u users]; [contradiction|].
    rewrite Hf. destruct Hmore as [->|E]; [reflexivity|].
    apply N.eqb_eq in E. rewrite E, orb_true_r. reflexivity.
Qed.

(** A response that is not ok always gives rise to a message. *)
Lemma failureMessage_returns (response : UsersPage.Response) :
  exists message, failureMessage response = Returns message.
Proof.
  unfold failureMessage, orJ, bind.
  destruct (N.eqb (UsersPage.status response) 429); [eexists; reflexivity|].
  assert (forall k, exists v, getPropOpt (UsersPage.jsonBody response) k = Returns v)
    as Hget.
  { intros k. destruct (UsersPage.jsonBody response) as [[]|]; eexists; reflexivity. }
  destruct (Hget "message") as (v1 & ->).
  destruct (truthyOpt v1); [eexists; reflexivity|].
  destruct (Hget "error") as (v2 & ->).
  destruct (truthyOpt v2); eexists; reflexivity.
Qed.

(** The verdicts that end the loop, in terms of the answer. *)
Lemma ending_verdicts (outcome : UsersPage.FetchOutcome) :
  (forall users,
     verdictOf outcome = NoMoreData users
     <-> exists response data,
           outcome = UsersPage.Responds response
           /\ UsersPage.ok response = true
           /\ jsonBody response = Some data
           /\ normalizedUsersOf data = Returns users
           /\ (users = []
               \/ (hasMoreFlag data = Returns false
                   /\ N.of_nat (length users) <> limit)))
  /\ (forall message,
        verdictOf outcome = NotOk message
        <-> exists response,
              outcome = UsersPage.Responds response
              /\ UsersPage.ok response = false
              /\ failureMessage response = Returns message)
  /\ (forall e,
        verdictOf outcome = Failed e
        -> outcome = UsersPage.FetchFails
           \/ exists response,
                outcome = UsersPage.Responds response
                /\ UsersPage.ok response = true
                /\ (jsonBody response = None
                    \/ exists data,
                         jsonBody response = Some data
                         /\ (normalizedUsersOf data = Throws e
                             \/ hasMoreFlag data = Throws e))).
Proof.
  unfold verdictOf. destruct outcome as [response|].
  2:{ split; [|split].
      - intros users. split; [discriminate | intros (r & d & H & _); discriminate H].
      - intros m. split; [discriminate | intros (r & H & _); discriminate H].
      - intros e _. left. reflexivity. }
  destruct (UsersPage.ok response) eqn:Hok.
  - destruct (jsonBody response) as [data|] eqn:Hbody.
    2:{ split; [|split].
        - intros users. split; [discriminate|].
          intros (r & d & H & _ & Hb & _). injection H as <-. congruence.
        - intros m. split; [discriminate|].
          intros (r & H & Hno & _). injection H as <-. congruence.
        - intros e _. right. exists response. split; [reflexivity|].
          split; [exact Hok|]. left. exact Hbody. }
    destruct (normalizedUsersOf data) as [[|u users]|e0] eqn:Hn.
    + split; [|split].
      * intros users. split.
        -- intros H. injection H as <-. exists response, data.
           split; [reflexivity|]. split; [exact Hok|]. split; [exact Hbody|].
           split; [exact Hn|]. left. reflexivity.
        -- intros (r & d & H & _ & Hb & Hn' & _). injection H as <-.
           rewrite Hbody in Hb. injection Hb as <-. congruence.
      * intros m. split; [discriminate|].
        intros (r & H & Hno & _). injection H as <-. congruence.
      * intros e H. discriminate H.
    + destruct (hasMoreFlag data) as [flag|e1] eqn:Hf.
      * destruct (flag || N.eqb (N.of_nat (length (u :: users))) limit) eqn:Hmore.
        -- split; [|split].
           ++ intros us. split; [discriminate|].
              intros (r & d & H & _ & Hb & Hn' & Hend). injection H as <-.
              rewrite Hbody in Hb. injection Hb as <-. rewrite Hn in Hn'.
              injection Hn' as <-. destruct Hend as [H|[Hflag Hlen]]; [discriminate H|].
              rewrite Hf in Hflag. injection Hflag as ->. cbn [orb] in Hmore.
              apply N.eqb_eq in Hmore. contradiction.
           ++ intros m. split; [discriminate|].
              intros (r & H & Hno & _). injection H as <-. congruence.
           ++ intros e H. discriminate H.
        -- apply orb_false_iff in Hmore. destruct Hmore as [-> Hlen].
           split; [|split].
           ++ intros us. split.
              ** intros H. injection H as <-. exists response, data.
                 split; [reflexivity|]. split; [exact Hok|]. split; [exact Hbody|].
                 split; [exact Hn|]. right. split; [exact Hf|].
                 apply N.eqb_neq. exact Hlen.
              ** intros (r & d & H & _ & Hb & Hn' & _). injection H as <-.
                 rewrite Hbody in Hb. injection Hb as <-. congruence.
           ++ intros m. split; [discriminate|].
              intros (r & H & Hno & _). injection H as <-. congruence.
           ++ intros e H. discriminate H.
      * split; [|split].
        -- intros us. split; [discriminate|].
           intros (r & d & H & _ & Hb & Hn' & Hend). injection H as <-.
           rewrite Hbody in Hb. injection Hb as <-. rewrite Hn in Hn'.
           injection Hn' as <-. destruct Hend as [H|[Hflag _]]; [discriminate H|].
           congruence.
        -- intros m. split; [discriminate|].
           intros (r & H & Hno & _). injection H as <-. congruence.
        -- intros e H. injection H as <-. right. exists response.
           split; [reflexivity|]. split; [exact Hok|]. right. exists data.
           split; [exact Hbody|]. right. exact Hf.
    + split; [|split].
      * intros us. split; [discriminate|].
        intros (r & d & H & _ & Hb & Hn' & _). injection H as <-.
        rewrite Hbody in Hb. injection Hb as <-. congruence.
      * intros m. split; [discriminate|].
        intros (r & H & Hno & _). injection H as <-. congruence.
      * intros e H. injection H as <-. right. exists response.
        split; [reflexivity|]. split; [exact Hok|]. right. exists data.
        split; [exact Hbody|]. left. exact Hn.
  - destruct (failureMessage_returns response) as (message & Hm). rewrite Hm.
    split; [|split].
    + intros us. split; [discriminate|].
      intros (r & d & H & Hyes & _). injection H as <-. congruence.
    + intros m. split.
      * intros H. injection H as <-. exists response.
        split; [reflexivity|]. split; [exact Hok | exact Hm].
      * intros (r & H & _ & Hm'). injection H as <-. congruence.
    + intros e H. discriminate H.
Qed.

(** A verdict other than more data ends the loop. *)
Lemma endingWith_some (acc : list User) (v : Verdict) :
  isMoreData v = false -> exists result, endingWith acc v = Some result.
Proof. destruct v; [discriminate| | |]; intros _; eexists; reflexivity. Qed.

(** Against a backend with no users from [bound] on, a page at or beyond
    [bound] is not more data. *)
Lemma page_beyond_bound (token : string) (activeTab : Tab)
    (server : Call -> UsersPage.FetchOutcome) (bound : N) (i : nat) :
  noUsersFrom server bound ->
  (bound <= limit * N.of_nat i)%N ->
  isMoreData (pageAt token activeTab server i) = false.
Proof.
  intros Hfin Hb. destruct (isMoreData _) eqn:Hmore; [|reflexivity]. exfalso.
  apply moreData_iff in Hmore.
  destruct Hmore as (response & data & users & flag & Hs & Hok & Hbody & Hn & Hne & _).
  apply Hne.
  exact (Hfin (callFor token activeTab (limit * N.of_nat i)) response data users
           Hb Hs Hok Hbody Hn).
Qed.


(** The store server has no users beyond the length of its store. *)
Lemma serveStore_finite (store : list json) :
  noUsersFrom (serveStore store) (N.of_nat (length store)).
Proof.
  intros call response data users Hb Hs Hok Hbody Hn.
  unfold serveStore in Hs. injection Hs as <-. cbn [jsonBody] in Hbody.
  injection Hbody as <-.
  rewrite drop_ge in Hn by lia. rewrite take_nil in Hn.
  cbv in Hn. injection Hn as <-. reflexivity.
Qed.

(** A run of the loop against a store of three users, one of them without
    an identifier: one pass, two users kept. *)
Example drain_run :
  drain "t" Active
    (serveStore [JObj [("id", JStr "u1")]; JObj [("name", JStr "nobody")];
                 JObj [("_id", JStr "u3")]]) 1 0%N []
  = Some (Returns
      ([ {| UsersPage.id := Some "u1"; UsersPage._id := Some (JStr "u1");
            spread := [("id", JStr "u1")] |};
         {| UsersPage.id := Some "u3"; UsersPage._id := Some (JStr "u3");
            spread := [("_id", JStr "u3")] |} ], None)).
Proof. vm_compute. reflexivity. Qed.



(** * Further results *)

(** ** The rule table of the evaluator *)

(** The three values [isOwner] can take, against the owner of the
    specification. *)
Lemma isOwnerOf_forms (pr : Permissions.ProjectRequest) (cu : CurrentUser) :
  (isOwnerOf (spec_actorId cu) (spec_submitterId pr) = VBool true
   /\ spec_isOwner pr cu = true)
  \/ (isOwnerOf (spec_actorId cu) (spec_submitterId pr) = VBool false
      /\ spec_isOwner pr cu = false)
  \/ (isOwnerOf (spec_actorId cu) (spec_submitterId pr) = VStr ""
      /\ spec_isOwner pr cu = false).
Proof.
  unfold spec_isOwner, isOwnerOf, and_, strictEq, toString. cbn [truthy].
  destruct (String.eqb_spec (spec_actorId cu) "") as [E|E]; cbn [negb andb truthy].
  - right. right. rewrite E. split; reflexivity.
  - destruct (String.eqb_spec (spec_submitterId pr) "") as [F|F];
      cbn [negb andb truthy].
    + right. right. rewrite F. split; reflexivity.
    + destruct (String.eqb (spec_actorId cu) (spec_submitterId pr));
        [left | right; left]; split; reflexivity.
Qed.

Lemma permission_formulae (pr : Permissions.ProjectRequest) (cu : CurrentUser) :
  let admin := bool_decide (cu_role cu = Some "admin") in
  let owner := spec_isOwner pr cu in
  let mentor := spec_isMentorOrHigher cu in
  let approved := String.eqb (pr_status pr) "approved" in
  let rejected := String.eqb (pr_status pr) "rejected" in
  let under_review := String.eqb (pr_status pr) "under_review" in
  exists p,
    getProjectRequestPermissions (Ref pr) (Ref cu) = Returns p
    /\ canEdit p
       = VBool (admin || (owner && negb approved && negb rejected)
                || (mentor && negb approved))
    /\ canChangeStatus p = VBool (admin || (mentor && negb approved))
    /\ canViewDocument p = VBool (admin || owner || mentor)
    /\ truthy (canDelete p) = admin || (owner && negb approved && negb under_review)
    /\ (canDelete p = VStr "" \/ exists b, canDelete p = VBool b)
    /\ canApprove p = VBool (mentor && negb approved)
    /\ canReject p = VBool (mentor && negb approved)
    /\ isReadOnly p = VBool (approved && negb admin)
    /\ showAdminBadge p = VBool (approved && admin).
Proof.
  cbv zeta. rewrite evaluate_present. cbv zeta. eexists. split; [reflexivity|].
  cbn [canEdit canChangeStatus canViewDocument canDelete canApprove canReject
       isReadOnly showAdminBadge].
  unfold strictEq, strictNe.
  destruct (isOwnerOf_forms pr cu) as [(-> & ->)|[(-> & ->)|(-> & ->)]];
    destruct (bool_decide (cu_role cu = Some "admin"));
    destruct (spec_isMentorOrHigher cu);
    destruct (String.eqb (pr_status pr) "approved");
    destruct (String.eqb (pr_status pr) "rejected");
    destruct (String.eqb (pr_status pr) "under_review");
    cbv [and_ or_ not_ truthy negb andb orb String.eqb];
    repeat split; try reflexivity; eauto.
Qed.

(** X1 (rule table). For a present request and a present actor the
    evaluator computes the rule table: each capability is the boolean
    combination of admin, owner, mentor-or-higher and the status tests
    that the table gives, the owner being the one of [spec_isOwner]. All
    fields are booleans except [canDelete], which is a boolean or the
    empty string and whose truthiness is the table's. *)
Theorem rule_table (pr : Permissions.ProjectRequest) (cu : CurrentUser) :
  let admin := bool_decide (cu_role cu = Some "admin") in
  let owner := spec_isOwner pr cu in
  let mentor := spec_isMentorOrHigher cu in
  let approved := String.eqb (pr_status pr) "approved" in
  let rejected := String.eqb (pr_status pr) "rejected" in
  let under_review := String.eqb (pr_status pr) "under_review" in
  exists p,
    getProjectRequestPermissions (Ref pr) (Ref cu) = Returns p
    /\ canEdit p
       = VBool (admin || (owner && negb approved && negb rejected)
                || (mentor && negb approved))
    /\ canChangeStatus p = VBool (admin || (mentor && negb approved))
    /\ canViewDocument p = VBool (admin || owner || mentor)
    /\ truthy (canDelete p) = admin || (owner && negb approved && negb under_review)
    /\ (canDelete p = VStr "" \/ exists b, canDelete p = VBool b)
    /\ canApprove p = VBool (mentor && negb approved)
    /\ canReject p = VBool (mentor && negb approved)
    /\ isReadOnly p = VBool (approved && negb admin)
    /\ showAdminBadge p = VBool (approved && admin).
Proof. exact (permission_formulae pr cu). Qed.

(** X2 (a stranger gets nothing). A present actor who is neither the
    owner nor mentor-or-higher (hence not admin) is granted no
    capability on any request, whatever its status: he cannot edit,
    change the status, view the document, delete, approve or reject. *)
Theorem stranger_gets_nothing (pr : Permissions.ProjectRequest) (cu : CurrentUser) :
  spec_isOwner pr cu = false ->
  spec_isMentorOrHigher cu = false ->
  exists p,
    getProjectRequestPermissions (Ref pr) (Ref cu) = Returns p
    /\ canEdit p = VBool false
    /\ canChangeStatus p = VBool false
    /\ canViewDocument p = VBool false
    /\ truthy (canDelete p) = false
    /\ canApprove p = VBool false
    /\ canReject p = VBool false
    /\ showAdminBadge p = VBool false.
Proof.
  intros Ho Hm.
  destruct (permission_formulae pr cu)
    as (p & E & He & Hc & Hv & Hd & _ & Ha & Hr & _ & Hb).
  assert (bool_decide (cu_role cu = Some "admin") = false) as Hadm.
  { unfold spec_isMentorOrHigher in Hm.
    destruct (bool_decide (cu_role cu = Some "admin")); [|reflexivity].
    rewrite !orb_true_r in Hm. discriminate Hm. }
  rewrite Ho, Hm, Hadm in *. cbn [andb orb] in *.
  rewrite andb_false_r in Hb.
  exists p. repeat split; assumption.
Qed.

Lemma stranger_gets_nothing_witness :
  let pr := {| pr__id := Some "r1"; pr_id := None; pr_status := "pending";
               pr_submittedBy := Some (SbObject {| sb__id := Some "u1"; sb_id := None |});
               pr_submittedById := None |} in
  let cu := {| cu_id := Some "u2"; cu__id := None; cu_role := Some "student" |} in
  spec_isOwner pr cu = false
  /\ spec_isMentorOrHigher cu = false
  /\ exists p,
       getProjectRequestPermissions (Ref pr) (Ref cu) = Returns p
       /\ canEdit p = VBool false /\ canChangeStatus p = VBool false
       /\ canViewDocument p = VBool false /\ truthy (canDelete p) = false
       /\ canApprove p = VBool false /\ canReject p = VBool false
       /\ showAdminBadge p = VBool false.
Proof.
  intros pr cu. split; [reflexivity|]. split; [reflexivity|].
  exact (stranger_gets_nothing pr cu eq_refl eq_refl).
Defined.

(** X3 (administrator). An actor whose role is "admin" can edit, change
    the status, view the document and delete on every request, whatever
    its status and whoever submitted it; approving and rejecting are
    granted to him exactly when the request is not approved, and the
    request is never read-only for him. *)
Theorem admin_rights (pr : Permissions.ProjectRequest) (cu : CurrentUser) :
  cu_role cu = Some "admin" ->
  exists p,
    getProjectRequestPermissions (Ref pr) (Ref cu) = Returns p
    /\ canEdit p = VBool true
    /\ canChangeStatus p = VBool true
    /\ canViewDocument p = VBool true
    /\ canDelete p = VBool true
    /\ canApprove p = VBool (negb (String.eqb (pr_status pr) "approved"))
    /\ canReject p = VBool (negb (String.eqb (pr_status pr) "approved"))
    /\ isReadOnly p = VBool false
    /\ showAdminBadge p = VBool (String.eqb (pr_status pr) "approved").
Proof.
  intros Hrole. rewrite evaluate_present. cbv zeta. eexists. split; [reflexivity|].
  cbn [canEdit canChangeStatus canViewDocument canDelete canApprove canReject
       isReadOnly showAdminBadge].
  unfold spec_isMentorOrHigher, strictEq. rewrite Hrole.
  cbn [bool_decide]. rewrite !bool_decide_eq_true_2 by reflexivity.
  rewrite !orb_true_r.
  destruct (String.eqb (pr_status pr) "approved");
    cbv [and_ or_ not_ truthy negb]; repeat split; reflexivity.
Qed.

Lemma admin_rights_witness :
  let pr := {| pr__id := Some "r1"; pr_id := None; pr_status := "approved";
               pr_submittedBy := Some (SbString "u1"); pr_submittedById := None |} in
  let cu := {| cu_id := Some "a1"; cu__id := None; cu_role := Some "admin" |} in
  cu_role cu = Some "admin"
  /\ exists p,
       getProjectRequestPermissions (Ref pr) (Ref cu) = Returns p
       /\ canEdit p = VBool true /\ canChangeStatus p = VBool true
       /\ canViewDocument p = VBool true /\ canDelete p = VBool true
       /\ canApprove p = VBool false /\ canReject p = VBool false
       /\ isReadOnly p = VBool false /\ showAdminBadge p = VBool true.
Proof.
  intros pr cu. split; [reflexivity|].
  exact (admin_rights pr cu eq_refl).
Defined.

(** ** The rows of the listing *)

Import ListingPage.

Lemma In_shown (c : bool) (a b : Action) :
  In a (shown c b) <-> c = true /\ a = b.
Proof.
  destruct c; simpl; split; try tauto.
  - intros [H|[]]. split; [reflexivity | symmetry; exact H].
  - intros [_ H]. left. symmetry. exact H.
  - intros [H _]. discriminate H.
Qed.

(** The Actions cell of a row that is not deleted, from the record the
    evaluator returns. *)
Lemma rowActions_live (r : Listing.ProjectRequest) (cu : Nullable CurrentUser)
    (p : PermissionSet) :
  deleted r = false ->
  getProjectRequestPermissions (Ref (asEvaluated r)) cu = Returns p ->
  rowActions r cu
  = Returns
      (ViewDetails ::
       shown (truthy (canChangeStatus p) && negb (String.eqb (Listing.status r) "approved")) Approve
       ++ shown (truthy (canChangeStatus p) && negb (String.eqb (Listing.status r) "rejected")) Reject
       ++ shown (truthy (canChangeStatus p) && negb (String.eqb (Listing.status r) "under_review")) PutUnderReview
       ++ shown (truthy (canChangeStatus p) && negb (String.eqb (Listing.status r) "on_hold")) PutOnHold
       ++ shown (truthy (canChangeStatus p) && negb (String.eqb (Listing.status r) "pending")) ResetToPending
       ++ shown (match cu with
                 | Ref u => bool_decide (cu_role u = Some "admin")
                 | _ => false
                 end && String.eqb (Listing.status r) "approved") AdminChangeStatus
       ++ shown (truthy (canDelete p)) Delete)%list.
Proof.
  intros Hd E. unfold rowActions. rewrite Hd, E. reflexivity.
Qed.

(** X4 (buttons against verdicts). On a row that is not deleted, for a
    present actor: the Approve button is shown exactly when the evaluator
    grants [canApprove]; the Delete button exactly when [canDelete] is
    truthy; the Reject button exactly when [canReject] is granted and the
    request is not rejected, or when the actor is admin and the request
    is approved (where [canReject] is false); the admin-only status
    button exactly for an admin on an approved request. *)
Theorem row_buttons_follow_verdicts (r : Listing.ProjectRequest) (cu : CurrentUser) :
  deleted r = false ->
  exists acts p,
    rowActions r (Ref cu) = Returns acts
    /\ getProjectRequestPermissions (Ref (asEvaluated r)) (Ref cu) = Returns p
    /\ (In Approve acts <-> canApprove p = VBool true)
    /\ (In Delete acts <-> truthy (canDelete p) = true)
    /\ (In Reject acts
        <-> (canReject p = VBool true /\ Listing.status r <> "rejected")
            \/ (cu_role cu = Some "admin" /\ Listing.status r = "approved"))
    /\ (In AdminChangeStatus acts
        <-> cu_role cu = Some "admin" /\ Listing.status r = "approved").
Proof.
  intros Hd.
  destruct (permission_formulae (asEvaluated r) cu)
    as (p & E & _ & Hc & _ & _ & _ & Ha & Hr & _).
  cbn [pr_status asEvaluated] in Hc, Ha, Hr.
  eexists. exists p. split; [exact (rowActions_live r (Ref cu) p Hd E)|].
  split; [exact E|].
  rewrite Hc, Ha, Hr. cbn [truthy In].
  repeat setoid_rewrite in_app_iff. repeat setoid_rewrite In_shown.
  unfold spec_isMentorOrHigher.
  destruct (String.eqb_spec (Listing.status r) "approved") as [Hs|Hs];
    destruct (String.eqb_spec (Listing.status r) "rejected") as [Hj|Hj];
    try (rewrite Hs in Hj; discriminate Hj);
    repeat case_bool_decide; cbn [negb andb orb];
    repeat split; intros; intuition (try discriminate; try congruence).
Qed.

Lemma row_buttons_follow_verdicts_witness :
  let r := {| Listing._id := "r1"; Listing.status := "approved";
              Listing.submittedBy := "u1"; Listing.isDeleted := None;
              Listing.deletedAt := None; Listing.deletedBy := None |} in
  let admin := {| cu_id := Some "a1"; cu__id := None; cu_role := Some "admin" |} in
  deleted r = false
  /\ exists acts p,
       rowActions r (Ref admin) = Returns acts
       /\ getProjectRequestPermissions (Ref (asEvaluated r)) (Ref admin) = Returns p
       /\ In Reject acts /\ canReject p = VBool false.
Proof.
  intros r admin. split; [reflexivity|].
  destruct (row_buttons_follow_verdicts r admin eq_refl)
    as (acts & p & Ea & Ep & _ & _ & Hrej & _).
  exists acts, p. split; [exact Ea|]. split; [exact Ep|]. split.
  - apply Hrej. right. split; reflexivity.
  - vm_compute in Ep. injection Ep as <-. reflexivity.
Defined.

(** X5 (frozen rows). The Actions cell holds the link to the details
    and nothing else when nobody is signed in, when the request is
    approved and the actor is not admin, and when the actor is neither
    the submitter nor mentor-or-higher. *)
Theorem frozen_rows (r : Listing.ProjectRequest) :
  rowActions r Null = Returns [ViewDetails]
  /\ rowActions r Undefined = Returns [ViewDetails]
  /\ (forall cu : CurrentUser,
        Listing.status r = "approved" -> cu_role cu <> Some "admin" ->
        rowActions r (Ref cu) = Returns [ViewDetails])
  /\ (forall cu : CurrentUser,
        spec_isOwner (asEvaluated r) cu = false ->
        spec_isMentorOrHigher cu = false ->
        rowActions r (Ref cu) = Returns [ViewDetails]).
Proof.
  assert (forall cu p,
            getProjectRequestPermissions (Ref (asEvaluated r)) cu = Returns p ->
            truthy (canChangeStatus p) = false ->
            truthy (canDelete p) = false ->
            match cu with
            | Ref u => bool_decide (cu_role u = Some "admin")
            | _ => false
            end && String.eqb (Listing.status r) "approved" = false ->
            rowActions r cu = Returns [ViewDetails]) as Hfrozen.
  { intros cu p E Hc Hdel Hadm. destruct (deleted r) eqn:Hd.
    - unfold rowActions. rewrite Hd. reflexivity.
    - rewrite (rowActions_live r cu p Hd E), Hc, Hdel, Hadm. reflexivity. }
  split; [|split; [|split]].
  - apply (Hfrozen Null degenerate); reflexivity.
  - apply (Hfrozen Undefined degenerate); reflexivity.
  - intros cu Hs Hrole.
    destruct (permission_formulae (asEvaluated r) cu)
      as (p & E & _ & Hc & _ & Hdel & _).
    cbn [pr_status asEvaluated] in Hc, Hdel.
    rewrite Hs in Hc, Hdel. cbn [String.eqb Ascii.eqb Bool.eqb negb andb] in Hc, Hdel.
    rewrite bool_decide_eq_false_2 in Hc, Hdel by exact Hrole.
    rewrite !andb_false_r in *. cbn [orb] in *.
    apply (Hfrozen (Ref cu) p E).
    + rewrite Hc. reflexivity.
    + exact Hdel.
    + rewrite bool_decide_eq_false_2 by exact Hrole. reflexivity.
  - intros cu Ho Hm.
    destruct (permission_formulae (asEvaluated r) cu)
      as (p & E & _ & Hc & _ & Hdel & _).
    assert (bool_decide (cu_role cu = Some "admin") = false) as Hadm.
    { unfold spec_isMentorOrHigher in Hm.
      destruct (bool_decide (cu_role cu = Some "admin")); [|reflexivity].
      rewrite !orb_true_r in Hm. discriminate Hm. }
    rewrite Ho, Hm, Hadm in *. cbn [andb orb] in *.
    apply (Hfrozen (Ref cu) p E).
    + rewrite Hc. reflexivity.
    + exact Hdel.
    + rewrite Hadm. reflexivity.
Qed.

(** ** Colours, filters and selection of the listing *)

(** X6 (colour of a status). On each of the five statuses the colour of
    the listing, [getStatusColor], is the colour of the tuple that
    [getStatusBadge] returns, and both are grey for a missing or empty
    status; on any other string the listing shows grey while the badge
    tuple, being the "Pending" one, is yellow. *)
Theorem status_colours_agree :
  (forall (s : string) (c : bool),
     In s statusEnum ->
     exists b, getStatusBadge (Some s) c = Tuple b
               /\ color b = getStatusColor (Some s))
  /\ (forall c : bool,
        getStatusBadge None c = Tuple unknownBadge
        /\ getStatusBadge (Some "") c = Tuple unknownBadge
        /\ color unknownBadge = getStatusColor None
        /\ color unknownBadge = getStatusColor (Some ""))
  /\ (forall (s : string) (c : bool),
        s <> "" -> ~ In s statusEnum -> ~ In s objectPrototypeNames ->
        exists b, getStatusBadge (Some s) c = Tuple b
                  /\ color b = "bg-yellow-100 text-yellow-800"
                  /\ getStatusColor (Some s) = "bg-gray-100 text-gray-800").
Proof.
  split; [|split].
  - intros s c Hin. simpl in Hin.
    repeat (destruct Hin as [<-|Hin]; [eexists; split; vm_compute; reflexivity|]).
    contradiction.
  - intros c. repeat split; reflexivity.
  - intros s c Hne Henum Hproto. eexists. split; [|split].
    + unfold getStatusBadge.
      apply String.eqb_neq in Hne. rewrite Hne. cbn [negb from_option Datatypes.id].
      unfold readBadge at 1 2. rewrite (badges_lookup_other c s Henum).
      rewrite (includes_not_In _ _ Hproto). cbn [truthyLookup].
      apply readBadge_pending.
    + reflexivity.
    + unfold getStatusColor.
      apply String.eqb_neq in Hne. rewrite Hne.
      repeat match goal with
      | |- context [String.eqb s ?c] =>
          destruct (String.eqb_spec s c);
          [exfalso; apply Henum; subst s; simpl; tauto|]
      end.
      reflexivity.
Qed.

(** X7 (filter changes). Every change of a filter returns to page 1.
    Choosing the status "deleted" turns [showDeleted] on and selects the
    endpoint of the deleted requests; leaving the status "deleted" for
    another value turns [showDeleted] off, also when it had been set by
    hand before, and selects the default endpoint; a change of any other
    text filter keeps the endpoint. *)
Theorem filter_change_endpoint (filters : ProjectRequestFilters) :
  (forall change, snd (handleFilterChange filters change) = 1%Z)
  /\ f_showDeleted (fst (handleFilterChange filters (SetStatus "deleted"))) = true
  /\ endpoint (fst (handleFilterChange filters (SetStatus "deleted")))
     = "/api/project-requests/deleted"
  /\ (forall value : string,
        value <> "deleted" ->
        let after :=
          fst (handleFilterChange
                 (fst (handleFilterChange filters (SetStatus "deleted")))
                 (SetStatus value)) in
        f_showDeleted after = false
        /\ f_status after = value
        /\ endpoint after = "/api/project-requests")
  /\ (forall value : string,
        endpoint (fst (handleFilterChange filters (SetSearch value))) = endpoint filters
        /\ endpoint (fst (handleFilterChange filters (SetMentorId value))) = endpoint filters
        /\ endpoint (fst (handleFilterChange filters (SetSubmittedBy value))) = endpoint filters
        /\ endpoint (fst (handleFilterChange filters (SetDeletedBy value))) = endpoint filters
        /\ endpoint (fst (handleFilterChange filters (SetSortBy value))) = endpoint filters
        /\ endpoint (fst (handleFilterChange filters (SetSortOrder value))) = endpoint filters).
Proof.
  split; [|split; [|split; [|split]]].
  - intros change. reflexivity.
  - reflexivity.
  - reflexivity.
  - intros value Hne. cbv zeta.
    unfold handleFilterChange. cbn [fst String.eqb Ascii.eqb Bool.eqb].
    apply String.eqb_neq in Hne. rewrite Hne.
    cbn [assign withShowDeleted f_status negb andb String.eqb Ascii.eqb Bool.eqb].
    unfold endpoint, shouldUseDeletedEndpoint.
    cbn [assign withShowDeleted f_status f_showDeleted orb]. rewrite Hne.
    repeat split; reflexivity.
  - intros value. repeat split; reflexivity.
Qed.

Lemma In_appendIf (c : bool) (k v : string) (kv : string * string) :
  In kv (appendIf c k v) <-> c = true /\ kv = (k, v).
Proof.
  destruct c; simpl; split; try tauto.
  - intros [H|[]]. split; [reflexivity | symmetry; exact H].
  - intros [_ H]. left. symmetry. exact H.
  - intros [H _]. discriminate H.
Qed.

(** X8 (query of the listing). The query always ends with [limit=20] and
    [skip=(currentPage-1)*20]. A [status] parameter is sent exactly when
    the status filter is neither empty nor the pseudo-status "deleted",
    and then with the filter's value. The parameters [deletedBy],
    [sortBy] and [sortOrder] are sent only to the endpoint of the
    deleted requests, and [sortBy] and [sortOrder] always there. *)
Theorem listing_query (filters : ProjectRequestFilters) (currentPage : Z) :
  (exists front,
     queryParams filters currentPage
     = (front ++ [("limit", "20"); ("skip", intToString ((currentPage - 1) * 20))])%list
     /\ forall k v, In (k, v) front -> k <> "limit" /\ k <> "skip")
  /\ (forall v : string,
        In ("status", v) (queryParams filters currentPage)
        <-> v = f_status filters /\ v <> "" /\ v <> "deleted")
  /\ (forall k v : string,
        In (k, v) (queryParams filters currentPage) ->
        k = "deletedBy" \/ k = "sortBy" \/ k = "sortOrder" ->
        endpoint filters = "/api/project-requests/deleted")
  /\ (endpoint filters = "/api/project-requests/deleted" ->
      In ("sortBy", f_sortBy filters) (queryParams filters currentPage)
      /\ In ("sortOrder", f_sortOrder filters) (queryParams filters currentPage)).
Proof.
  unfold queryParams, endpoint.
  destruct (shouldUseDeletedEndpoint filters) eqn:Hshould.
  - split; [|split; [|split]].
    + eexists. split.
      * rewrite !app_assoc. reflexivity.
      * intros k v. rewrite !in_app_iff, !In_appendIf. simpl.
        intros H. split; intros ->;
          intuition (try discriminate; try congruence).
    + intros v. rewrite !in_app_iff, !In_appendIf. simpl. cbn [andb].
      unfold nonEmpty.
      destruct (String.eqb_spec (f_status filters) "");
        destruct (String.eqb_spec (f_status filters) "deleted");
        cbn [negb andb]; split; intros H;
        intuition (try discriminate; try congruence).
    + intros. reflexivity.
    + intros _. rewrite !in_app_iff. simpl. split; tauto.
  - split; [|split; [|split]].
    + eexists. split.
      * rewrite !app_assoc. reflexivity.
      * intros k v. rewrite !in_app_iff, !In_appendIf. simpl.
        intros H. split; intros ->;
          intuition (try discriminate; try congruence).
    + intros v. rewrite !in_app_iff, !In_appendIf. simpl. cbn [andb negb].
      rewrite andb_true_r. unfold nonEmpty.
      assert (f_status filters <> "deleted") as Hnd.
      { intros E. unfold shouldUseDeletedEndpoint in Hshould. rewrite E in Hshould.
        rewrite orb_true_r in Hshould. discriminate Hshould. }
      destruct (String.eqb_spec (f_status filters) "");
        cbn [negb]; split; intros H;
        intuition (try discriminate; try congruence).
    + intros k v. rewrite !in_app_iff, !In_appendIf. simpl. cbn [andb].
      intros H [-> | [-> | ->]];
        intuition (try discriminate; try congruence).
    + intros H. discriminate H.
Qed.

(** X9 (selection of rows). Clicking the checkbox of a request flips
    its membership in the selection and leaves the membership of every
    other request as it was; a selection without repetition stays without
    repetition; selecting and then unselecting a request that was not
    selected restores the selection. The header checkbox selects every
    row from the empty selection and clears the selection when all rows
    are selected. *)
Theorem selection_toggle (prev : list string) (requestId : string) :
  (forall x : string,
     In x (handleSelectRequest prev requestId)
     <-> (x = requestId /\ ~ In requestId prev) \/ (x <> requestId /\ In x prev))
  /\ (List.NoDup prev -> List.NoDup (handleSelectRequest prev requestId))
  /\ (~ In requestId prev ->
      handleSelectRequest (handleSelectRequest prev requestId) requestId = prev)
  /\ (forall rows : list Listing.ProjectRequest,
        (rows <> [] -> handleSelectAll [] rows = map Listing._id rows)
        /\ handleSelectAll (map Listing._id rows) rows = []).
Proof.
  assert (forall l : list string,
            ~ In requestId l ->
            List.filter (fun id => negb (String.eqb id requestId)) l = l) as Hkeep.
  { induction l as [|a l IH]; intros Hn; [reflexivity|]. cbn [List.filter].
    destruct (String.eqb_spec a requestId) as [->|Hne].
    - exfalso. apply Hn. left. reflexivity.
    - cbn [negb]. f_equal. apply IH. intros H. apply Hn. right. exact H. }
  unfold handleSelectRequest.
  destruct (includes prev requestId) eqn:Hinc.
  - apply includes_In in Hinc. split; [|split; [|split]].
    + intros x. rewrite filter_In. rewrite negb_true_iff, String.eqb_neq. tauto.
    + intros Hnd. apply List.NoDup_filter. exact Hnd.
    + intros Hn. contradiction.
    + intros rows. split.
      * intros Hne. unfold handleSelectAll. destruct rows; [contradiction|]. reflexivity.
      * unfold handleSelectAll. rewrite length_map, Nat.eqb_refl. reflexivity.
  - assert (~ In requestId prev) as Hnot.
    { intros H. apply includes_In in H. rewrite H in Hinc. discriminate Hinc. }
    split; [|split; [|split]].
    + intros x. rewrite in_app_iff. simpl.
      destruct (String.eqb_spec x requestId) as [->|Hne]; [tauto|].
      split; [intros [H|[H|[]]]; [tauto | congruence] | tauto].
    + intros Hnd. apply List.NoDup_app; [exact Hnd | |].
      * constructor; [intros [] | constructor].
      * intros x Hx [<-|[]]. apply Hnot. exact Hx.
    + intros _.
      assert (includes (prev ++ [requestId]) requestId = true) as ->.
      { apply includes_In. apply in_app_iff. right. left. reflexivity. }
      rewrite List.filter_app. rewrite (Hkeep prev Hnot). cbn [List.filter].
      rewrite String.eqb_refl. cbn [negb]. apply app_nil_r.
    + intros rows. split.
      * intros Hne. unfold handleSelectAll. destruct rows; [contradiction|]. reflexivity.
      * unfold handleSelectAll. rewrite length_map, Nat.eqb_refl. reflexivity.
Qed.

(** ** Status updates from the listing *)

(** The effects after the response: one alert and no further call. *)
Lemma afterStatusUpdate_effects (status : string) (answer : Answer) (effects : list Effect) :
  afterStatusUpdate status answer = Returns effects ->
  (exists message, effects = [Alert message])
  \/ (exists message, effects = [Refresh; Alert message]).
Proof.
  unfold afterStatusUpdate, orJ, bind.
  destruct (jsonBody answer) as [data|]; [|discriminate].
  destruct (getProp data "success") as [success|]; [|discriminate].
  destruct (truthyOpt success).
  { intros H. injection H as <-. right. eexists. reflexivity. }
  destruct (N.eqb (answerStatus answer) 403).
  - destruct (getProp data "message") as [m|]; [|discriminate].
    destruct (truthyOpt m);
      repeat match goal with
      | |- context [match messageIncludes ?a ?b with _ => _ end] =>
          destruct (messageIncludes a b) as [[|]|]
      end;
      try discriminate;
      intros H; injection H as <-; left; eexists; reflexivity.
  - destruct (getProp data "message") as [m|]; [|discriminate].
    destruct (truthyOpt m); intros H; injection H as <-; left; eexists; reflexivity.
Qed.

(** X10 (status update from the listing). For a request of the list the
    status update is refused on the page, with one alert and no call,
    when the evaluator does not grant [canChangeStatus] - as for every
    approved request and an actor who is not admin, and for every request
    when nobody is signed in; it is sent, as a PUT with the new status,
    when [canChangeStatus] is granted, and also, without any check, when
    the request is not in the list. Every run shows exactly one alert and
    makes at most one call. *)
Theorem status_update_guard
    (backendUrl : string) (token : option string) (backend : Call -> ListingPage.FetchOutcome)
    (projectRequests : list Listing.ProjectRequest) (currentUser : Nullable CurrentUser)
    (requestId status : string) (reviewNotes : option string) :
  let effects :=
    handleUpdateStatus backendUrl token backend projectRequests currentUser
      requestId status reviewNotes in
  let listed :=
    List.find (fun r => String.eqb (Listing._id r) requestId) projectRequests in
  length (List.filter (fun e => match e with Alert _ => true | _ => false end) effects) = 1
  /\ length (List.filter (fun e => match e with Fetch _ => true | _ => false end) effects) <= 1
  /\ (forall r p,
        listed = Some r ->
        getProjectRequestPermissions (Ref (asEvaluated r)) currentUser = Returns p ->
        canChangeStatus p = VBool false ->
        effects = [refusal])
  /\ (forall r p,
        listed = Some r ->
        getProjectRequestPermissions (Ref (asEvaluated r)) currentUser = Returns p ->
        canChangeStatus p = VBool true ->
        exists rest,
          effects = Fetch (statusCall backendUrl token requestId status reviewNotes) :: rest)
  /\ (listed = None ->
      exists rest,
        effects = Fetch (statusCall backendUrl token requestId status reviewNotes) :: rest)
  /\ (forall r,
        listed = Some r ->
        (Listing.status r = "approved"
         /\ forall u, currentUser = Ref u -> cu_role u <> Some "admin")
        \/ currentUser = Null \/ currentUser = Undefined ->
        effects = [refusal]).
Proof.
  cbv zeta.
  assert (forall call,
            exists message,
              match backend call with
              | ListingPage.FetchFails => [Alert (JStr "Failed to update status")]
              | ListingPage.Responds answer =>
                  match afterStatusUpdate status answer with
                  | Returns effects => effects
                  | Throws _ => [Alert (JStr "Failed to update status")]
                  end
              end = [Alert message]
              \/ match backend call with
                 | ListingPage.FetchFails => [Alert (JStr "Failed to update status")]
                 | ListingPage.Responds answer =>
                     match afterStatusUpdate status answer with
                     | Returns effects => effects
                     | Throws _ => [Alert (JStr "Failed to update status")]
                     end
                 end = [Refresh; Alert message]) as Hafter.
  { intros call. destruct (backend call) as [answer|].
    - destruct (afterStatusUpdate status answer) as [effects|e] eqn:Ea.
      + destruct (afterStatusUpdate_effects status answer effects Ea)
          as [(m & ->)|(m & ->)]; exists m; [left | right]; reflexivity.
      + eexists. left. reflexivity.
    - eexists. left. reflexivity. }
  assert (forall r p,
            List.find (fun r => String.eqb (Listing._id r) requestId) projectRequests
            = Some r ->
            getProjectRequestPermissions (Ref (asEvaluated r)) currentUser = Returns p ->
            canChangeStatus p = VBool false ->
            handleUpdateStatus backendUrl token backend projectRequests currentUser
              requestId status reviewNotes = [refusal]) as Hrefuse.
  { intros r p Hfind E Hc. unfold handleUpdateStatus, canChangeStatus'.
    rewrite Hfind, E. cbn [bind]. rewrite Hc. reflexivity. }
  split; [|split; [|split; [|split; [|split]]]].
  - unfold handleUpdateStatus, canChangeStatus'.
    destruct (List.find _ projectRequests) as [r|].
    + destruct (getProjectRequestPermissions (Ref (asEvaluated r)) currentUser)
        as [p|e]; cbn [bind]; [|reflexivity].
      destruct (negb (truthy (canChangeStatus p))); [reflexivity|].
      destruct (Hafter (statusCall backendUrl token requestId status reviewNotes))
        as (m & [-> | ->]); reflexivity.
    + destruct (Hafter (statusCall backendUrl token requestId status reviewNotes))
        as (m & [-> | ->]); reflexivity.
  - unfold handleUpdateStatus, canChangeStatus'.
    destruct (List.find _ projectRequests) as [r|].
    + destruct (getProjectRequestPermissions (Ref (asEvaluated r)) currentUser)
        as [p|e]; cbn [bind]; [|simpl; lia].
      destruct (negb (truthy (canChangeStatus p))); [simpl; lia|].
      destruct (Hafter (statusCall backendUrl token requestId status reviewNotes))
        as (m & [-> | ->]); simpl; lia.
    + destruct (Hafter (statusCall backendUrl token requestId status reviewNotes))
        as (m & [-> | ->]); simpl; lia.
  - exact Hrefuse.
  - intros r p Hfind E Hc. unfold handleUpdateStatus, canChangeStatus'.
    rewrite Hfind, E. cbn [bind]. rewrite Hc. cbn [truthy negb].
    eexists. reflexivity.
  - intros Hfind. unfold handleUpdateStatus. rewrite Hfind.
    eexists. reflexivity.
  - intros r Hfind Hcase.
    destruct currentUser as [| |u].
    + apply (Hrefuse r degenerate Hfind); reflexivity.
    + apply (Hrefuse r degenerate Hfind); reflexivity.
    + destruct Hcase as [(Hs & Hrole)|[Hn|Hn]]; try discriminate Hn.
      specialize (Hrole u eq_refl).
      destruct (permission_formulae (asEvaluated r) u) as (p & E & _ & Hc & _).
      cbn [pr_status asEvaluated] in Hc. rewrite Hs in Hc.
      rewrite bool_decide_eq_false_2 in Hc by exact Hrole.
      cbn [String.eqb Ascii.eqb Bool.eqb negb] in Hc.
      rewrite andb_false_r in Hc.
      apply (Hrefuse r p Hfind E Hc).
Qed.

(** ** The handlers of the users route *)

Import UsersRoute.

(** An error reply goes out under its status, or is replaced by the reply
    of the outer [catch] when the constructor refuses the status. *)
Lemma guarded_reply (body : json) (st : N) :
  (try_catch (NextResponse_json body st)
     (fun _ => NextResponse_json internalError 500)
   = Returns {| replyStatus := st; replyBody := body |}
   /\ (200 <= st <= 599)%N /\ st <> 204%N /\ st <> 205%N /\ st <> 304%N)
  \/ try_catch (NextResponse_json body st)
       (fun _ => NextResponse_json internalError 500)
     = Returns {| replyStatus := 500; replyBody := internalError |}.
Proof.
  unfold NextResponse_json, try_catch.
  destruct (N.ltb_spec st 200); cbn [orb]; [right; reflexivity|].
  destruct (N.ltb_spec 599 st); cbn [orb]; [right; reflexivity|].
  cbn [existsb].
  destruct (N.eqb_spec st 101); [lia|].
  destruct (N.eqb_spec st 204); [right; reflexivity|].
  destruct (N.eqb_spec st 205); [right; reflexivity|].
  destruct (N.eqb_spec st 304); [right; reflexivity|].
  left. cbn [orb]. repeat split; assumption.
Qed.

Lemma orString_truthy (m : option json) (fallback : string) :
  fallback <> "" -> jsonTruthy (orString m fallback) = true.
Proof.
  intros Hne. unfold orString. destruct (truthyOpt m) eqn:T.
  - destruct m as [j|]; [exact T | discriminate T].
  - cbn [jsonTruthy]. apply String.eqb_neq in Hne. rewrite Hne. reflexivity.
Qed.

Lemma append_nonempty (a b : string) : a <> "" -> a +:+ b <> "".
Proof. destruct a; [contradiction | discriminate]. Qed.

Lemma ok_not_status (st : N) :
  ((200 <=? st) && (st <=? 299))%N = false -> st <> 200%N.
Proof. intros H ->. discriminate H. Qed.

Lemma trimStart_nil (s : list N) :
  trimStart s = [] <-> forallb isWhiteSpace s = true.
Proof.
  induction s as [|c s IH]; cbn [trimStart forallb]; [tauto|].
  destruct (isWhiteSpace c); cbn [andb]; [exact IH|].
  split; discriminate.
Qed.

Lemma trimStart_forallb (s : list N) :
  forallb isWhiteSpace (trimStart s) = forallb isWhiteSpace s.
Proof.
  induction s as [|c s IH]; [reflexivity|]. cbn [trimStart].
  destruct (isWhiteSpace c) eqn:E; [|reflexivity].
  cbn [forallb]. rewrite E. exact IH.
Qed.

Lemma forallb_rev (f : N -> bool) (s : list N) :
  forallb f (rev s) = forallb f s.
Proof.
  induction s as [|c s IH]; [reflexivity|].
  cbn [rev forallb]. rewrite forallb_app, IH. cbn [forallb].
  rewrite andb_true_r. apply andb_comm.
Qed.

(** A text trims to the empty string exactly when all of it is white
    space. *)
Lemma trim_nil (s : list N) :
  trim s = [] <-> forallb isWhiteSpace s = true.
Proof.
  unfold trim, trimEnd. rewrite <- (trimStart_forallb s).
  rewrite <- (forallb_rev isWhiteSpace (trimStart s)).
  rewrite <- trimStart_nil. split.
  - intros H. apply (f_equal (@rev N)) in H. rewrite rev_involutive in H. exact H.
  - intros ->. reflexivity.
Qed.

(** A user id is blank exactly when all its code units are white space,
    the empty id included. *)
Lemma blankId_iff (id : string) :
  blankId id = true <-> forallb isWhiteSpace (codeUnits id) = true.
Proof.
  unfold blankId. rewrite <- trim_nil. split.
  - intros H. apply orb_true_iff in H. destruct H as [H|H].
    + apply String.eqb_eq in H. subst id. reflexivity.
    + apply Nat.eqb_eq in H. destruct (trim (codeUnits id)); [reflexivity | discriminate H].
  - intros ->. apply orb_true_r.
Qed.

(** An id made of one EM SPACE (U+2003) and an ordinary space is blank;
    an id with a letter is not. *)
Example blank_em_space :
  let emSpace := String (ascii_of_nat 226) (String (ascii_of_nat 128)
                   (String (ascii_of_nat 131) EmptyString)) in
  codeUnits emSpace = [8195%N]
  /\ blankId (emSpace +:+ " ") = true
  /\ blankId (emSpace +:+ "7") = false.
Proof. cbv zeta. repeat split; reflexivity. Qed.

(** X11 (short circuits). Without an Authorization token (none, or the
    empty string) the handlers [GET], [PUT] and [DELETE] of the users
    route and the [GET] of the document route reply 401 with
    [{success: false, message: "No authorization token provided"}],
    whatever the backend would answer: the reply does not depend on it.
    With a token and a blank user id - one that is empty or made of
    white space only, that is of code units that [trim] strips - [PUT]
    replies 400 with
    [{success: false, message: "Invalid user ID provided"}], whatever the
    body of the request and the backend. *)
Theorem route_short_circuits :
  (forall (request : NextRequest) backendUrl JSON_parse toLowerCase textString,
     noToken request = true ->
     (forall backend,
        Proxy.GET backendUrl JSON_parse backend request
        = Returns {| replyStatus := 401; replyBody := unauthorized |})
     /\ (forall backend,
           UsersRoute.DELETE backendUrl JSON_parse backend request
           = Returns {| replyStatus := 401; replyBody := unauthorized |})
     /\ (forall backend requestBody,
           UsersRoute.PUT backendUrl JSON_parse toLowerCase textString backend
             request requestBody
           = Returns {| replyStatus := 401; replyBody := unauthorized |}))
  /\ (forall (request : NextRequest) backendUrl JSON_parse toLowerCase textString
             backend requestBody,
        noToken request = false ->
        forallb isWhiteSpace (codeUnits (Proxy.id request)) = true ->
        UsersRoute.PUT backendUrl JSON_parse toLowerCase textString backend
          request requestBody
        = Returns {| replyStatus := 400;
                     replyBody := JObj [("success", JBool false);
                                        ("message", JStr "Invalid user ID provided")] |})
  /\ (forall (Blob : Type) backendUrl parseURL
             (backend : string -> string -> DocumentRoute.FetchOutcome Blob) (id : string),
        DocumentRoute.GET Blob backendUrl parseURL backend None id
        = Returns (DocumentRoute.Json
                     {| replyStatus := 401; replyBody := unauthorized |})
        /\ DocumentRoute.GET Blob backendUrl parseURL backend (Some "") id
           = Returns (DocumentRoute.Json
                        {| replyStatus := 401; replyBody := unauthorized |})).
Proof.
  split; [|split].
  - intros request backendUrl JSON_parse toLowerCase textString Htok.
    unfold noToken in Htok. split; [|split].
    + intros backend. unfold Proxy.GET, Proxy.handle. rewrite Htok. reflexivity.
    + intros backend. unfold UsersRoute.DELETE, handleDelete, noToken.
      rewrite Htok. reflexivity.
    + intros backend requestBody. unfold UsersRoute.PUT, handlePut, noToken.
      rewrite Htok. reflexivity.
  - intros request backendUrl JSON_parse toLowerCase textString backend requestBody
      Htok Hblank. apply blankId_iff in Hblank.
    unfold UsersRoute.PUT, handlePut. rewrite Htok, Hblank. reflexivity.
  - intros Blob backendUrl parseURL backend id. split; reflexivity.
Qed.

(** X12 (replies of DELETE). The [DELETE] handler always replies and
    never throws. It replies under status 200 exactly when a token is
    given and the backend answered with a status in 200-299; every other
    reply is an envelope [{success: false, message}] with a truthy
    message, so that a failure of the backend is never passed on as a
    success. *)
Theorem delete_replies
    (backendUrl : string) (JSON_parse : list N -> option json)
    (backend : UsersRoute.Call -> Proxy.FetchOutcome) (request : NextRequest) :
  exists reply,
    UsersRoute.DELETE backendUrl JSON_parse backend request = Returns reply
    /\ (replyStatus reply = 200%N
        <-> noToken request = false
            /\ exists response,
                 backend {| method := "DELETE";
                            url := backendUrl +:+ "/api/users/" +:+ Proxy.id request;
                            UsersRoute.authorizationHeader :=
                              default "" (authorization request);
                            callBody := None |}
                 = Proxy.Responds response
                 /\ Proxy.ok response = true)
    /\ (replyStatus reply <> 200%N ->
        exists message,
          replyBody reply = JObj [("success", JBool false); ("message", message)]
          /\ jsonTruthy message = true).
Proof.
  unfold UsersRoute.DELETE, handleDelete.
  destruct (noToken request) eqn:Htok.
  { eexists. split; [reflexivity|]. cbn [replyStatus replyBody]. split.
    - split; [discriminate | intros [H _]; discriminate H].
    - intros _. eexists. split; reflexivity. }
  destruct (backend _) as [response|] eqn:Hb.
  2:{ eexists. split; [reflexivity|]. cbn [replyStatus replyBody]. split.
      - split; [discriminate | intros [_ (r & H & _)]; discriminate H].
      - intros _. eexists. split; reflexivity. }
  destruct (Proxy.ok response) eqn:Hok.
  - eexists. split; [reflexivity|]. cbn [replyStatus]. split.
    + split; [|reflexivity]. intros _. split; [reflexivity|].
      exists response. split; [reflexivity | exact Hok].
    + intros H. contradiction.
  - assert (forall st : N,
              (st = Proxy.status response \/ st = 500%N) ->
              (st = 200%N
               <-> false = false
                   /\ exists response0,
                        Proxy.Responds response = Proxy.Responds response0
                        /\ Proxy.ok response0 = true)) as Hiff.
    { intros st Hst. split.
      - intros H200. exfalso. destruct Hst as [Hst|Hst]; [|congruence].
        rewrite H200 in Hst. unfold Proxy.ok in Hok. rewrite <- Hst in Hok.
        discriminate Hok.
      - intros [_ (r & Hr & Hokr)]. injection Hr as <-. congruence. }
    destruct (messageOf (readData JSON_parse (Proxy.id request) response))
      as [m|e] eqn:Hm; cbn [bind].
    + match goal with
      | |- context [NextResponse_json ?b ?s] =>
          destruct (guarded_reply b s) as [(-> & _)| ->]
      end; eexists; (split; [reflexivity|]); cbn [replyStatus replyBody];
        (split; [apply Hiff; tauto|]); intros _; eexists; (split; [reflexivity|]).
      * apply orString_truthy. discriminate.
      * reflexivity.
    + cbn [try_catch]. eexists. split; [reflexivity|]. cbn [replyStatus replyBody].
      split; [apply Hiff; tauto|]. intros _. eexists. split; reflexivity.
Qed.

Lemma putErrorMessage_truthy (backendUrl id : string) (data : json) (st : N) (m : json) :
  putErrorMessage backendUrl id data st = Returns m -> jsonTruthy m = true.
Proof.
  unfold putErrorMessage, bind.
  destruct (messageOf data) as [em|]; [|discriminate].
  destruct (N.eqb st 404).
  - destruct (getProp data "error") as [error|]; [|discriminate].
    destruct (match error with
              | Some (JStr s) => String.eqb s "Vercel deployment not found"
              | _ => false
              end).
    + destruct (getProp data "message") as [dm|]; [|discriminate].
      intros H. injection H as <-. apply orString_truthy. discriminate.
    + intros H. injection H as <-. apply orString_truthy. discriminate.
  - destruct (N.eqb st 401); [|destruct (N.eqb st 403)];
      intros H; injection H as <-; apply orString_truthy; discriminate.
Qed.

(** X13 (replies of PUT). The [PUT] handler always replies and never
    throws. It replies under status 200 exactly when a token is given,
    the user id is not blank, the body of the request parses and the
    backend answered with a status in 200-299. Every other reply is an
    object with [success: false] and a truthy [message]; a failure of the
    backend is never passed on as a success. *)
Theorem put_replies
    (backendUrl : string) (JSON_parse : list N -> option json)
    (toLowerCase : list N -> list N) (textString : list N -> string)
    (backend : UsersRoute.Call -> Proxy.FetchOutcome)
    (request : NextRequest) (requestBody : option json) :
  exists reply,
    UsersRoute.PUT backendUrl JSON_parse toLowerCase textString backend
      request requestBody = Returns reply
    /\ (replyStatus reply = 200%N
        <-> noToken request = false
            /\ blankId (Proxy.id request) = false
            /\ exists body response,
                 requestBody = Some body
                 /\ backend {| method := "PUT";
                               url := backendUrl +:+ "/api/users/" +:+ Proxy.id request;
                               UsersRoute.authorizationHeader :=
                                 default "" (authorization request);
                               callBody := Some body |}
                    = Proxy.Responds response
                 /\ Proxy.ok response = true)
    /\ (replyStatus reply <> 200%N ->
        exists fields message,
          replyBody reply = JObj fields
          /\ assoc "success" fields = Some (JBool false)
          /\ assoc "message" fields = Some message
          /\ jsonTruthy message = true).
Proof.
  unfold UsersRoute.PUT, handlePut.
  destruct (noToken request) eqn:Htok.
  { eexists. split; [reflexivity|]. cbn [replyStatus replyBody]. split.
    - split; [discriminate | intros [H _]; discriminate H].
    - intros _. do 2 eexists. repeat split; reflexivity. }
  destruct (blankId (Proxy.id request)) eqn:Hblank.
  { eexists. split; [reflexivity|]. cbn [replyStatus replyBody]. split.
    - split; [discriminate | intros (_ & H & _); discriminate H].
    - intros _. do 2 eexists. repeat split; reflexivity. }
  destruct requestBody as [body|].
  2:{ eexists. split; [reflexivity|]. cbn [replyStatus replyBody]. split.
      - split; [discriminate | intros (_ & _ & b & r & H & _); discriminate H].
      - intros _. do 2 eexists. repeat split; reflexivity. }
  destruct (backend _) as [response|] eqn:Hb.
  2:{ eexists. split; [reflexivity|]. cbn [replyStatus replyBody]. split.
      - split; [discriminate|]. intros (_ & _ & b & r & Hb' & H & _).
        injection Hb' as <-. rewrite Hb in H. discriminate H.
      - intros _. do 2 eexists. repeat split; reflexivity. }
  destruct (Proxy.ok response) eqn:Hok.
  - eexists. split; [reflexivity|]. cbn [replyStatus]. split.
    + split; [|reflexivity]. intros _. split; [reflexivity|]. split; [reflexivity|].
      exists body, response. repeat split; assumption.
    + intros H. contradiction.
  - assert (forall st : N,
              (st = Proxy.status response \/ st = 500%N) ->
              (st = 200%N
               <-> false = false /\ false = false
                   /\ exists body0 response0,
                        Some body = Some body0
                        /\ backend {| method := "PUT";
                                      url := backendUrl +:+ "/api/users/"
                                             +:+ Proxy.id request;
                                      UsersRoute.authorizationHeader :=
                                        default "" (authorization request);
                                      callBody := Some body0 |}
                           = Proxy.Responds response0
                        /\ Proxy.ok response0 = true)) as Hiff.
    { intros st Hst. split.
      - intros H200. exfalso. destruct Hst as [Hst|Hst]; [|congruence].
        rewrite H200 in Hst. unfold Proxy.ok in Hok. rewrite <- Hst in Hok.
        discriminate Hok.
      - intros (_ & _ & b & r & Hb' & Hr & Hokr). injection Hb' as <-.
        rewrite Hb in Hr. injection Hr as <-. congruence. }
    destruct (putErrorMessage backendUrl (Proxy.id request)
                (readDataPut backendUrl JSON_parse toLowerCase textString
                   (Proxy.id request) response)
                (Proxy.status response)) as [m|e] eqn:Hm; cbn [bind].
    + match goal with
      | |- context [NextResponse_json ?b ?s] =>
          destruct (guarded_reply b s) as [(-> & _)| ->]
      end; eexists; (split; [reflexivity|]); cbn [replyStatus replyBody];
        (split; [apply Hiff; tauto|]); intros _; do 2 eexists;
        (split; [reflexivity|]); (split; [reflexivity|]); (split; [reflexivity|]).
      * exact (putErrorMessage_truthy _ _ _ _ _ Hm).
      * reflexivity.
    + cbn [try_catch]. eexists. split; [reflexivity|]. cbn [replyStatus replyBody].
      split; [apply Hiff; tauto|]. intros _. do 2 eexists. repeat split; reflexivity.
Qed.

(** *** Blank bodies and the deployment page *)

Lemma startsWith_app (needle hay : list N) :
  startsWith needle hay = true -> exists post, hay = (needle ++ post)%list.
Proof.
  revert hay. induction needle as [|n needle IH]; intros hay H.
  - exists hay. reflexivity.
  - destruct hay as [|h hay]; [discriminate H|]. cbn [startsWith] in H.
    apply andb_true_iff in H. destruct H as [Hn Hrest].
    apply N.eqb_eq in Hn. subst h.
    destruct (IH hay Hrest) as (post & ->). exists post. reflexivity.
Qed.

Lemma textIncludes_app (hay needle : list N) :
  textIncludes hay needle = true ->
  exists pre post, hay = (pre ++ needle ++ post)%list.
Proof.
  induction hay as [|h hay IH]; cbn [textIncludes]; intros H.
  - rewrite orb_false_r in H. destruct (startsWith_app _ _ H) as (post & E).
    exists [], post. exact E.
  - apply orb_true_iff in H. destruct H as [H|H].
    + destruct (startsWith_app _ _ H) as (post & E). exists [], post. exact E.
    + destruct (IH H) as (pre & post & ->). exists (h :: pre), post. reflexivity.
Qed.

Lemma includes_not_blank (text needle : list N) :
  textIncludes text needle = true ->
  forallb isWhiteSpace needle = false ->
  Nat.eqb (length text) 0 || Nat.eqb (length (trim text)) 0 = false.
Proof.
  intros Hinc Hneedle.
  destruct (textIncludes_app _ _ Hinc) as (pre & post & ->).
  assert (forallb isWhiteSpace (pre ++ needle ++ post) = false) as Hws.
  { rewrite !forallb_app, Hneedle. cbn [andb]. apply andb_false_r. }
  destruct (trim (pre ++ needle ++ post)) as [|c rest] eqn:Et.
  - apply trim_nil in Et. rewrite Et in Hws. discriminate Hws.
  - destruct (pre ++ needle ++ post)%list; [discriminate Hws | reflexivity].
Qed.

(** X14 (deployment page). When the backend answers [PUT] with status
    404 and a body that is not declared as JSON and contains
    "DEPLOYMENT_NOT_FOUND", the reply is 404 with the message that the
    backend deployment was not found, naming the backend URL, and not the
    message that the user was not found; the details carry the error
    "Vercel deployment not found" and the user id is echoed. *)
Theorem put_deployment_not_found
    (backendUrl : string) (JSON_parse : list N -> option json)
    (toLowerCase : list N -> list N) (textString : list N -> string)
    (backend : UsersRoute.Call -> Proxy.FetchOutcome)
    (request : NextRequest) (body : json)
    (contentTypeValue : option string) (text : list N) :
  noToken request = false ->
  blankId (Proxy.id request) = false ->
  backend {| method := "PUT";
             url := backendUrl +:+ "/api/users/" +:+ Proxy.id request;
             UsersRoute.authorizationHeader := default "" (authorization request);
             callBody := Some body |}
  = Proxy.Responds {| Proxy.status := 404; contentTypeHeader := contentTypeValue;
                      Proxy.body := Text text |} ->
  strIncludes (default "" contentTypeValue) "application/json" = false ->
  textIncludes text (codeUnits "DEPLOYMENT_NOT_FOUND") = true ->
  exists details,
    UsersRoute.PUT backendUrl JSON_parse toLowerCase textString backend
      request (Some body)
    = Returns
        {| replyStatus := 404;
           replyBody :=
             JObj [("success", JBool false);
                   ("message",
                    JStr ("Backend deployment not found. The backend URL " +:+ dquote
                          +:+ backendUrl +:+ dquote
                          +:+ " does not exist on Vercel. Please check your BACKEND_URL environment variable."));
                   ("details", JObj details);
                   ("userId", JStr (Proxy.id request))] |}
    /\ assoc "error" details = Some (JStr "Vercel deployment not found")
    /\ assoc "backendUrl" details = Some (JStr backendUrl).
Proof.
  intros Htok Hblank Hb Hct Hinc.
  unfold UsersRoute.PUT, handlePut. rewrite Htok, Hblank, Hb.
  cbn [Proxy.ok Proxy.status N.leb N.compare Pos.compare Pos.compare_cont andb].
  unfold readDataPut.
  cbn [Proxy.body contentTypeHeader Proxy.status].
  rewrite (includes_not_blank text _ Hinc) by reflexivity.
  rewrite Hct, Hinc. cbn [orb].
  eexists. split.
  - unfold putErrorMessage, messageOf, orJ, bind.
    cbn [getProp assoc String.eqb Ascii.eqb Bool.eqb truthyOpt jsonTruthy].
    assert (forall s : string,
              ("Backend deployment not found. The backend URL " +:+ s =? "") = false)
      as Hne by (intros s; reflexivity).
    rewrite Hne. cbn [negb N.eqb Pos.eqb].
    unfold orString. cbn [truthyOpt jsonTruthy]. rewrite Hne. cbn [negb from_option].
    reflexivity.
  - split; reflexivity.
Qed.

Lemma put_deployment_not_found_witness :
  let request := {| authorization := Some "Bearer t"; Proxy.id := "42" |} in
  let page := codeUnits "<h1>DEPLOYMENT_NOT_FOUND</h1>" in
  let backend := fun _ : UsersRoute.Call =>
    Proxy.Responds {| Proxy.status := 404; contentTypeHeader := Some "text/html";
                      Proxy.body := Text page |} in
  exists details,
    UsersRoute.PUT "https://b" (fun _ => None) (fun t => t) (fun _ => "") backend
      request (Some (JObj [("firstName", JStr "Ada")]))
    = Returns
        {| replyStatus := 404;
           replyBody :=
             JObj [("success", JBool false);
                   ("message",
                    JStr ("Backend deployment not found. The backend URL " +:+ dquote
                          +:+ "https://b" +:+ dquote
                          +:+ " does not exist on Vercel. Please check your BACKEND_URL environment variable."));
                   ("details", JObj details);
                   ("userId", JStr "42")] |}
    /\ assoc "error" details = Some (JStr "Vercel deployment not found")
    /\ assoc "backendUrl" details = Some (JStr "https://b").
Proof.
  intros request page backend.
  exact (put_deployment_not_found "https://b" (fun _ => None) (fun t => t)
           (fun _ => "") backend request (JObj [("firstName", JStr "Ada")])
           (Some "text/html") page eq_refl eq_refl eq_refl eq_refl eq_refl).
Defined.

(** ** The document route *)

Lemma append_right_nonempty (a b : string) : b <> "" -> a +:+ b <> "".
Proof.
  intros Hb H. destruct a as [|c a]; [exact (Hb H) | discriminate H].
Qed.

Lemma headerOr_nonempty (h : option string) (fallback : string) :
  fallback <> "" -> DocumentRoute.headerOr h fallback <> "".
Proof.
  intros Hf. unfold DocumentRoute.headerOr. destruct h as [v|]; [|exact Hf].
  destruct (String.eqb_spec v ""); [exact Hf | assumption].
Qed.

(** X15 (replies of the document route). The handler always replies and
    never throws. A JSON reply is always an envelope
    [{success: false, message}] with a truthy message. The file is
    passed on only when the backend answered with a status in 200-299 at
    a final URL that is not on Cloudinary, and then always with a content
    type and a content disposition, "application/octet-stream" and an
    attachment named document.pdf standing in for a missing header.
    When the final URL is on Cloudinary or the status is 301 or 302 the
    reply is decided by the target alone, the Location header or, when
    that is missing, the final URL: the redirect to the target when it
    parses as a URL, and the 500 envelope when it does not. The file is
    never streamed then, and a redirect is replied in no other case. *)
Theorem document_replies
    (Blob : Type) (backendUrl : string) (parseURL : string -> option string)
    (backend : string -> string -> DocumentRoute.FetchOutcome Blob)
    (authorization : option string) (id : string) :
  let url := backendUrl +:+ "/api/project-requests/" +:+ id +:+ "/document" in
  let finalUrlOf := fun response : DocumentRoute.Response Blob =>
    DocumentRoute.headerOr (Some (DocumentRoute.responseUrl response)) url in
  let redirects := fun response : DocumentRoute.Response Blob =>
    strIncludes (finalUrlOf response) "cloudinary.com"
    || strIncludes (finalUrlOf response) "res.cloudinary.com"
    || N.eqb (DocumentRoute.status response) 302
    || N.eqb (DocumentRoute.status response) 301 in
  exists reply,
    DocumentRoute.GET Blob backendUrl parseURL backend authorization id = Returns reply
    /\ match reply with
       | DocumentRoute.Json r =>
           exists message,
             replyBody r = JObj [("success", JBool false); ("message", message)]
             /\ jsonTruthy message = true
       | DocumentRoute.File content ct cd =>
           ct <> "" /\ cd <> ""
           /\ exists token response,
                authorization = Some token
                /\ backend url token = DocumentRoute.Responds response
                /\ DocumentRoute.ok response = true
                /\ redirects response = false
                /\ DocumentRoute.blob response = Some content
                /\ ct = DocumentRoute.headerOr (DocumentRoute.contentType response)
                          "application/octet-stream"
                /\ cd = DocumentRoute.headerOr (DocumentRoute.contentDisposition response)
                          ("attachment; filename=" +:+ dquote +:+ "document.pdf" +:+ dquote)
       | DocumentRoute.Redirect href =>
           exists token response,
             authorization = Some token
             /\ backend url token = DocumentRoute.Responds response
             /\ redirects response = true
             /\ parseURL (DocumentRoute.headerOr (DocumentRoute.locationHeader response)
                            (finalUrlOf response)) = Some href
       end
    /\ (forall token response,
          authorization = Some token -> token <> "" ->
          backend url token = DocumentRoute.Responds response ->
          redirects response = true ->
          reply
          = match parseURL (DocumentRoute.headerOr
                              (DocumentRoute.locationHeader response)
                              (finalUrlOf response)) with
            | Some href => DocumentRoute.Redirect href
            | None =>
                DocumentRoute.Json {| replyStatus := 500; replyBody := internalError |}
            end).
Proof.
  cbv zeta. unfold DocumentRoute.GET, DocumentRoute.handle.
  set (url := backendUrl +:+ "/api/project-requests/" +:+ id +:+ "/document").
  set (fallback := fun _ : string =>
         DocumentRoute.json_reply Blob
           (JObj [("success", JBool false); ("message", JStr "Internal server error")])
           500).
  assert (url <> "") as Hurl.
  { unfold url. apply append_right_nonempty. discriminate. }
  assert (forall (body : json) (st : N),
            try_catch (DocumentRoute.json_reply Blob body st) fallback
            = Returns (DocumentRoute.Json {| replyStatus := st; replyBody := body |})
            \/ try_catch (DocumentRoute.json_reply Blob body st) fallback
               = Returns (DocumentRoute.Json
                            {| replyStatus := 500; replyBody := internalError |}))
    as Hjson.
  { intros body st.
    unfold fallback, DocumentRoute.json_reply, NextResponse_json, bind, try_catch.
    destruct ((st <? 200)%N || (599 <? st)%N); [right; reflexivity|].
    destruct (existsb (N.eqb st) [101; 204; 205; 304]%N); [right | left]; reflexivity. }
  assert (forall response : DocumentRoute.Response Blob,
            exists reply,
              try_catch (DocumentRoute.download Blob response) fallback = Returns reply
              /\ match reply with
                 | DocumentRoute.Json r =>
                     exists message,
                       replyBody r = JObj [("success", JBool false); ("message", message)]
                       /\ jsonTruthy message = true
                 | DocumentRoute.File content ct cd =>
                     ct <> "" /\ cd <> ""
                     /\ DocumentRoute.ok response = true
                     /\ DocumentRoute.blob response = Some content
                     /\ ct = DocumentRoute.headerOr (DocumentRoute.contentType response)
                               "application/octet-stream"
                     /\ cd = DocumentRoute.headerOr
                               (DocumentRoute.contentDisposition response)
                               ("attachment; filename=" +:+ dquote +:+ "document.pdf"
                                +:+ dquote)
                 | DocumentRoute.Redirect _ => False
                 end) as Hdownload.
  { intros response. unfold DocumentRoute.download.
    destruct (DocumentRoute.ok response) eqn:Hok.
    - destruct (DocumentRoute.blob response) as [content|] eqn:Hblob.
      + eexists. split; [reflexivity|].
        split; [apply headerOr_nonempty; discriminate|].
        split; [apply headerOr_nonempty; discriminate|].
        repeat split; reflexivity.
      + eexists. split; [reflexivity|]. eexists. split; reflexivity.
    - unfold orJ, bind.
      destruct (getProp (default (JObj []) (DocumentRoute.jsonBody response)) "message")
        as [m|e].
      + destruct (truthyOpt m) eqn:T.
        * destruct m as [j|]; [|discriminate T]. cbn [from_option Datatypes.id].
          destruct (Hjson (JObj [("success", JBool false); ("message", j)])
                      (DocumentRoute.status response)) as [-> | ->];
            eexists; (split; [reflexivity|]); eexists; split; try reflexivity.
          exact T.
        * cbn [from_option Datatypes.id].
          destruct (Hjson (JObj [("success", JBool false);
                                 ("message", JStr "Failed to fetch document")])
                      (DocumentRoute.status response)) as [-> | ->];
            eexists; (split; [reflexivity|]); eexists; split; reflexivity.
      + eexists. split; [reflexivity|]. eexists. split; reflexivity. }
  destruct authorization as [token|].
  2:{ eexists. split; [reflexivity|]. split; [eexists; split; reflexivity|].
      intros t r H. discriminate H. }
  destruct (String.eqb token "") eqn:Htok.
  { eexists. split; [reflexivity|]. split; [eexists; split; reflexivity|].
    intros t r H Hne. injection H as <-. apply String.eqb_eq in Htok. contradiction. }
  destruct (backend url token) as [response|] eqn:Hb.
  2:{ eexists. split; [reflexivity|]. split; [eexists; split; reflexivity|].
      intros t r H _ Hb'. injection H as <-. rewrite Hb in Hb'. discriminate Hb'. }
  set (finalUrl := DocumentRoute.headerOr (Some (DocumentRoute.responseUrl response)) url).
  destruct (strIncludes finalUrl "cloudinary.com"
            || strIncludes finalUrl "res.cloudinary.com"
            || N.eqb (DocumentRoute.status response) 302
            || N.eqb (DocumentRoute.status response) 301) eqn:Hred.
  - assert (String.eqb
              (DocumentRoute.headerOr (DocumentRoute.locationHeader response) finalUrl)
              "" = false) as Hloc.
    { apply String.eqb_neq. apply headerOr_nonempty. apply headerOr_nonempty.
      exact Hurl. }
    rewrite Hloc. cbn [negb]. unfold DocumentRoute.redirect.
    destruct (parseURL _) as [href|] eqn:Hparse.
    + eexists. split; [reflexivity|]. split.
      * exists token, response. repeat split; assumption.
      * intros t r' H _ Hb' _. injection H as <-. rewrite Hb in Hb'.
        injection Hb' as <-. fold finalUrl. rewrite Hparse. reflexivity.
    + eexists. split; [reflexivity|]. split; [eexists; split; reflexivity|].
      intros t r' H _ Hb' _. injection H as <-. rewrite Hb in Hb'.
      injection Hb' as <-. fold finalUrl. rewrite Hparse. reflexivity.
  - destruct (Hdownload response) as (reply & -> & Hshape).
    exists reply. split; [reflexivity|]. split.
    + destruct reply as [href|content ct cd|r].
      * contradiction.
      * destruct Hshape as (Hct & Hcd & Hok & Hblob & Ect & Ecd).
        split; [exact Hct|]. split; [exact Hcd|].
        exists token, response. repeat split; assumption.
      * exact Hshape.
    + intros t r' H _ Hb' Hred'. injection H as <-. rewrite Hb in Hb'.
      injection Hb' as <-. fold finalUrl in Hred'. rewrite Hred in Hred'.
      discriminate Hred'.
Qed.

(** ** The filtered and paginated view of the users *)

Import UsersView.

(** A page asked by a page number from 1 on is the window of 20 users
    at its offset. *)
Lemma slice_page {A} (l : list A) (p : nat) :
  slice ((Z.of_nat (S p) - 1) * 20) ((Z.of_nat (S p) - 1) * 20 + 20) l
  = take 20 (drop (20 * p) l).
Proof.
  unfold slice.
  replace ((Z.of_nat (S p) - 1) * 20)%Z with (Z.of_nat (20 * p)) by lia.
  destruct (Z.ltb_spec (Z.of_nat (20 * p)) 0); [lia|].
  destruct (Z.ltb_spec (Z.of_nat (20 * p) + 20) 0); [lia|].
  destruct (Nat.le_gt_cases (length l) (20 * p)) as [Hge|Hlt].
  - rewrite (drop_ge l (20 * p)) by exact Hge.
    rewrite drop_ge by lia. rewrite !take_nil. reflexivity.
  - replace (Z.to_nat (Z.min (Z.of_nat (20 * p)) (Z.of_nat (length l))))
      with (20 * p) by lia.
    destruct (Nat.le_gt_cases (length l) (20 * p + 20)) as [Hshort|Hfull].
    + rewrite !take_ge; [reflexivity | rewrite length_drop; lia
                         | rewrite length_drop; lia].
    + f_equal. lia.
Qed.

Lemma slice_length_le {A} (l : list A) (start : Z) :
  length (slice start (start + 20) l) <= 20.
Proof.
  unfold slice. rewrite length_take.
  destruct (Z.ltb_spec start 0); destruct (Z.ltb_spec (start + 20) 0); lia.
Qed.

Lemma slice_In {A} (l : list A) (start stop : Z) (x : A) :
  In x (slice start stop l) -> In x l.
Proof.
  unfold slice. intros H. apply list_elem_of_In in H. apply list_elem_of_In.
  apply elem_of_take in H. destruct H as (i & H & _).
  rewrite lookup_drop in H. eapply list_elem_of_lookup_2. exact H.
Qed.

Section ViewFacts.
Variable toLowerCase : string -> string.
Variable allUsers : list UsersView.User.
Variables debouncedSearchQuery selectedRole selectedDepartment : string.

Let filtered :=
  filterUsers toLowerCase allUsers debouncedSearchQuery selectedRole selectedDepartment.

(** The users that pass the filters. *)
Lemma filterUsers_In (u : UsersView.User) :
  In u filtered
  <-> In u allUsers
      /\ (debouncedSearchQuery = ""
          \/ matchesSearch toLowerCase (toLowerCase debouncedSearchQuery) u = true)
      /\ (selectedRole = "" \/ UsersView.role u = selectedRole)
      /\ (selectedDepartment = "" \/ UsersView.department u = Some selectedDepartment).
Proof.
  unfold filtered, filterUsers.
  destruct (String.eqb_spec debouncedSearchQuery "") as [Hq|Hq];
    destruct (String.eqb_spec selectedRole "") as [Hr|Hr];
    destruct (String.eqb_spec selectedDepartment "") as [Hd|Hd];
    cbn [negb]; rewrite ?filter_In, ?bool_decide_eq_true, ?String.eqb_eq;
    intuition congruence.
Qed.

Lemma view_page (p : nat) :
  fst (view toLowerCase allUsers debouncedSearchQuery selectedRole selectedDepartment
         (Z.of_nat (S p)))
  = take 20 (drop (20 * p) filtered).
Proof. unfold view. cbn [fst]. unfold USERS_PER_PAGE. apply slice_page. Qed.

End ViewFacts.

(** X16 (a page of users). Whatever the page number, the page shown has
    at most 20 users, each of them is one of the fetched users and passes
    every filter that is set: the search, when not empty, matches its
    name, its email or its student id, the role and the department, when
    chosen, are its own. With no filter set nothing is filtered out. From
    page 1 on, the page is the window of 20 users at offset
    (page - 1) * 20 of the filtered list, and [total] is its length. *)
Theorem users_page_sound
    (toLowerCase : string -> string) (allUsers : list UsersView.User)
    (debouncedSearchQuery selectedRole selectedDepartment : string) (currentPage : Z) :
  let filtered :=
    filterUsers toLowerCase allUsers debouncedSearchQuery selectedRole selectedDepartment in
  let shown :=
    view toLowerCase allUsers debouncedSearchQuery selectedRole selectedDepartment
      currentPage in
  length (fst shown) <= 20
  /\ (forall u,
        In u (fst shown) ->
        In u allUsers
        /\ (debouncedSearchQuery = ""
            \/ matchesSearch toLowerCase (toLowerCase debouncedSearchQuery) u = true)
        /\ (selectedRole = "" \/ UsersView.role u = selectedRole)
        /\ (selectedDepartment = "" \/ UsersView.department u = Some selectedDepartment))
  /\ filterUsers toLowerCase allUsers "" "" "" = allUsers
  /\ UsersView.total (snd shown) = length filtered
  /\ ((1 <= currentPage)%Z ->
      fst shown = take 20 (drop (20 * Z.to_nat (currentPage - 1)) filtered)
      /\ UsersView.skip (snd shown) = (20 * (currentPage - 1))%Z).
Proof.
  cbv zeta. split; [|split; [|split; [|split]]].
  - unfold view. cbn [fst]. apply slice_length_le.
  - intros u Hu. unfold view in Hu. cbn [fst] in Hu. apply slice_In in Hu.
    apply filterUsers_In in Hu. exact Hu.
  - reflexivity.
  - reflexivity.
  - intros Hp. split.
    + replace currentPage with (Z.of_nat (S (Z.to_nat (currentPage - 1)))) at 1 by lia.
      apply view_page.
    + unfold view. cbn [snd UsersView.skip]. unfold USERS_PER_PAGE. lia.
Qed.

Lemma windows_concat {A} (k : nat) :
  forall l : list A,
    length l <= 20 * k ->
    concat (map (fun p => take 20 (drop (20 * p) l)) (seq 0 k)) = l.
Proof.
  induction k as [|k IH]; intros l Hlen.
  - destruct l; [reflexivity | simpl in Hlen; lia].
  - cbn [seq map concat]. rewrite <- seq_shift, map_map.
    rewrite (map_ext _ (fun p => take 20 (drop (20 * p) (drop 20 l)))).
    + rewrite IH by (rewrite length_drop; lia).
      rewrite Nat.mul_0_r. cbn [drop]. apply take_drop.
    + intros p. rewrite drop_drop. f_equal. f_equal. lia.
Qed.

(** X17 (the pages cover the list). The pages 1 to
    ceil(total / 20), one after the other, are the filtered list: every
    user that passes the filters is on exactly one of them, in the order
    of the list; each of these pages has at least one user, and the
    pages after them are empty. *)
Theorem users_pages_partition
    (toLowerCase : string -> string) (allUsers : list UsersView.User)
    (debouncedSearchQuery selectedRole selectedDepartment : string) :
  let filtered :=
    filterUsers toLowerCase allUsers debouncedSearchQuery selectedRole selectedDepartment in
  let page := fun p : nat =>
    fst (view toLowerCase allUsers debouncedSearchQuery selectedRole selectedDepartment
           (Z.of_nat p)) in
  let totalPages := totalPagesOf (length filtered) in
  concat (map page (seq 1 totalPages)) = filtered
  /\ (forall p, 1 <= p <= totalPages -> page p <> [])
  /\ (forall p, totalPages < p -> page p = []).
Proof.
  cbv zeta.
  set (filtered :=
         filterUsers toLowerCase allUsers debouncedSearchQuery selectedRole
           selectedDepartment).
  assert (20 * (totalPagesOf (length filtered)) < length filtered + 20
          /\ length filtered <= 20 * totalPagesOf (length filtered)) as [Hlo Hhi].
  { unfold totalPagesOf.
    pose proof (Nat.div_mod_eq (length filtered + 19) 20) as Hdm.
    pose proof (Nat.mod_upper_bound (length filtered + 19) 20) as Hmod.
    lia. }
  split; [|split].
  - rewrite <- seq_shift, map_map.
    rewrite (map_ext _ (fun p => take 20 (drop (20 * p) filtered))).
    + apply windows_concat. exact Hhi.
    + intros p. apply view_page.
  - intros p [Hp1 Hp2]. destruct p as [|p]; [lia|].
    rewrite view_page. fold filtered. intros H.
    apply (f_equal (@length _)) in H. rewrite length_take, length_drop in H.
    cbn [length] in H. lia.
  - intros p Hp. destruct p as [|p]; [lia|].
    rewrite view_page. fold filtered. rewrite drop_ge by lia. apply take_nil.
Qed.

(** X18 (Previous and Next). From page 1 on, the Next button is enabled,
    [hasMore] being true, exactly when the page is not the last one, that
    is exactly when the next page has a user to show; the Previous button
    never leads below page 1. *)
Theorem users_next_previous
    (toLowerCase : string -> string) (allUsers : list UsersView.User)
    (debouncedSearchQuery selectedRole selectedDepartment : string) (currentPage : Z) :
  let filtered :=
    filterUsers toLowerCase allUsers debouncedSearchQuery selectedRole selectedDepartment in
  let shown := fun page : Z =>
    view toLowerCase allUsers debouncedSearchQuery selectedRole selectedDepartment page in
  (1 <= previousPage currentPage)%Z
  /\ ((1 <= currentPage)%Z ->
      (UsersView.hasMore (snd (shown currentPage)) = true
       <-> (currentPage < Z.of_nat (totalPagesOf (length filtered)))%Z)
      /\ (UsersView.hasMore (snd (shown currentPage)) = true
          <-> fst (shown (nextPage currentPage)) <> [])).
Proof.
  cbv zeta.
  set (filtered :=
         filterUsers toLowerCase allUsers debouncedSearchQuery selectedRole
           selectedDepartment).
  split; [unfold previousPage; lia|].
  intros Hp.
  assert (20 * (totalPagesOf (length filtered)) < length filtered + 20
          /\ length filtered <= 20 * totalPagesOf (length filtered)) as [Hlo Hhi].
  { unfold totalPagesOf.
    pose proof (Nat.div_mod_eq (length filtered + 19) 20) as Hdm.
    pose proof (Nat.mod_upper_bound (length filtered + 19) 20) as Hmod.
    lia. }
  assert (UsersView.hasMore
            (snd (view toLowerCase allUsers debouncedSearchQuery selectedRole
                    selectedDepartment currentPage)) = true
          <-> (currentPage * 20 < Z.of_nat (length filtered))%Z) as Hmore.
  { unfold view. cbn [snd UsersView.hasMore]. fold filtered. unfold USERS_PER_PAGE.
    rewrite Z.ltb_lt. lia. }
  split.
  - rewrite Hmore. lia.
  - rewrite Hmore. unfold nextPage.
    replace (currentPage + 1)%Z with (Z.of_nat (S (Z.to_nat currentPage))) by lia.
    rewrite view_page. fold filtered. split.
    + intros Hlt H. apply (f_equal (@length _)) in H.
      rewrite length_take, length_drop in H. cbn [length] in H. lia.
    + intros Hne.
      destruct (Z.lt_ge_cases (currentPage * 20) (Z.of_nat (length filtered)))
        as [Hlt|Hge]; [exact Hlt|].
      exfalso. apply Hne. rewrite drop_ge by lia. apply take_nil.
Qed.

Lemma users_next_previous_witness :
  let u := fun n : string =>
    {| UsersView.id := Some n; email := n; firstName := n; lastName := n;
       UsersView.role := "student"; studentId := None; UsersView.department := None;
       others := [] |} in
  let allUsers := map u (map (fun i => numToString (N.of_nat i)) (seq 0 21)) in
  (1 <= 1)%Z
  /\ UsersView.hasMore (snd (view (fun s => s) allUsers "" "" "" 1)) = true
  /\ fst (view (fun s => s) allUsers "" "" "" (nextPage 1)) <> [].
Proof.
  intros u allUsers.
  pose proof (users_next_previous (fun s => s) allUsers "" "" "" 1) as H.
  cbv zeta in H. destruct H as [_ H].
  destruct (H ltac:(lia)) as [_ Hnext].
  split; [lia|]. split; [reflexivity|]. apply Hnext. reflexivity.
Defined.

(** X19 (saving a user). [handleSaveUser] replaces, in place, every row
    whose id is the id of the updated user and leaves the other rows as
    they are: the number of rows and the list of their ids do not change,
    a list without that id is returned unchanged, and saving the same
    user twice is the same as saving it once. *)
Theorem save_user_in_place (updatedUser : UsersView.User) (prevUsers : list UsersView.User) :
  length (handleSaveUser updatedUser prevUsers) = length prevUsers
  /\ map UsersView.id (handleSaveUser updatedUser prevUsers) = map UsersView.id prevUsers
  /\ (forall (i : nat) (user : UsersView.User),
        nth_error prevUsers i = Some user ->
        nth_error (handleSaveUser updatedUser prevUsers) i
        = Some (if bool_decide (UsersView.id user = UsersView.id updatedUser)
                then updatedUser else user))
  /\ ((forall user, In user prevUsers -> UsersView.id user <> UsersView.id updatedUser) ->
      handleSaveUser updatedUser prevUsers = prevUsers)
  /\ handleSaveUser updatedUser (handleSaveUser updatedUser prevUsers)
     = handleSaveUser updatedUser prevUsers.
Proof.
  unfold handleSaveUser. split; [|split; [|split; [|split]]].
  - apply length_map.
  - rewrite map_map. apply map_ext. intros user.
    destruct (decide (UsersView.id user = UsersView.id updatedUser)) as [E|E].
    + rewrite bool_decide_eq_true_2 by exact E. symmetry. exact E.
    + rewrite bool_decide_eq_false_2 by exact E. reflexivity.
  - intros i user H. rewrite nth_error_map, H. reflexivity.
  - intros Hnone. induction prevUsers as [|a l IH]; [reflexivity|].
    cbn [map]. rewrite bool_decide_eq_false_2 by (apply Hnone; left; reflexivity).
    f_equal. apply IH. intros user Hin. apply Hnone. right. exact Hin.
  - rewrite map_map. apply map_ext. intros user.
    destruct (decide (UsersView.id user = UsersView.id updatedUser)) as [E|E].
    + rewrite (bool_decide_eq_true_2 _ E).
      rewrite bool_decide_eq_true_2 by reflexivity. reflexivity.
    + rewrite (bool_decide_eq_false_2 _ E).
      rewrite (bool_decide_eq_false_2 _ E). reflexivity.
Qed.

(** ** More on the drain of the users list *)

Lemma normalizedUsersOf_hasId (data : json) (users : list UsersPage.User) :
  normalizedUsersOf data = Returns users ->
  Forall (fun u => hasId u = true) users.
Proof.
  unfold normalizedUsersOf, bind.
  destruct (rawUsersOf data) as [raw|]; [|discriminate].
  destruct raw; try discriminate.
  destruct (mapE normalizeUser items) as [mapped|]; [|discriminate].
  intros H. injection H as <-.
  apply List.Forall_forall. intros u Hu. apply filter_In in Hu. tauto.
Qed.

(** A pass only appends users that have an id to those it was given. *)
Lemma pass_appends (token : string) (activeTab : Tab)
    (server : UsersPage.Call -> UsersPage.FetchOutcome) (skip : N)
    (acc : list UsersPage.User) :
  match pass token activeTab server skip acc with
  | Returns (Continue _ all) | Returns (Break all _) | Returns (Done all) =>
      exists more, all = (acc ++ more)%list /\ Forall (fun u => hasId u = true) more
  | Throws _ => True
  end.
Proof.
  unfold pass.
  destruct (server _) as [response|]; [|exact I].
  destruct (UsersPage.ok response); cbn [negb].
  - destruct (UsersPage.jsonBody response) as [data|]; [|exact I].
    destruct (normalizedUsersOf data) as [users|] eqn:Hn; cbn [bind]; [|exact I].
    pose proof (normalizedUsersOf_hasId data users Hn) as Hall.
    destruct (Nat.eqb (length users) 0).
    + exists []. split; [symmetry; apply app_nil_r | constructor].
    + destruct (hasMoreFlag data) as [flag|]; cbn [bind]; [|exact I].
      destruct (flag || _); exists users; split; (reflexivity || exact Hall).
  - destruct (failureMessage response); cbn [bind]; [|exact I].
    exists []. split; [symmetry; apply app_nil_r | constructor].
Qed.

Lemma drain_appends (token : string) (activeTab : Tab)
    (server : UsersPage.Call -> UsersPage.FetchOutcome) (fuel : nat) :
  forall (skip : N) (acc : list UsersPage.User),
    match drain token activeTab server fuel skip acc with
    | Some (Returns (all, _)) =>
        exists more, all = (acc ++ more)%list /\ Forall (fun u => hasId u = true) more
    | _ => True
    end.
Proof.
  induction fuel as [|fuel IH]; intros skip acc; [exact I|].
  cbn [drain]. pose proof (pass_appends token activeTab server skip acc) as Hp.
  destruct (pass token activeTab server skip acc) as [[s' a'|a' m|a']|e];
    try exact Hp; try exact I.
  specialize (IH s' a').
  destruct (drain token activeTab server fuel s' a') as [[[all m]|e]|]; try exact I.
  destruct Hp as (more1 & -> & H1). destruct IH as (more2 & -> & H2).
  exists (more1 ++ more2)%list. split; [symmetry; apply app_assoc|].
  apply Forall_app. split; assumption.
Qed.

(** X20 (only identified users). Every user that the drain collects,
    and so every user that [fetchUsers] stores after a completed drain,
    has an [id] that is a non-empty string: the entries of a page without
    a usable [id] or [_id] are dropped. *)
Theorem drain_keeps_identified
    (token : string) (activeTab : Tab)
    (server : UsersPage.Call -> UsersPage.FetchOutcome) (fuel : nat) :
  match drain token activeTab server fuel 0%N [] with
  | Some (Returns (users, _)) =>
      forall u, In u users ->
                exists s, UsersPage.id u = Some s /\ s <> ""
  | _ => True
  end
  /\ forall st : PageState,
       match fetchUsers fuel (Some token) activeTab server
               {| allUsers := []; UsersPage.errorMessage := UsersPage.errorMessage st;
                  isLoading := isLoading st; redirected := redirected st |} with
       | Some st' =>
           forall u, In u (allUsers st') ->
                     exists s, UsersPage.id u = Some s /\ s <> ""
       | None => True
       end.
Proof.
  assert (forall users : list UsersPage.User,
            (exists more, users = ([] ++ more)%list
                          /\ Forall (fun u => hasId u = true) more) ->
            forall u, In u users -> exists s, UsersPage.id u = Some s /\ s <> "")
    as Hids.
  { intros users (more & -> & Hall) u Hu. cbn [app] in Hu.
    rewrite List.Forall_forall in Hall. specialize (Hall u Hu).
    unfold hasId in Hall. destruct (UsersPage.id u) as [s|]; [|discriminate Hall].
    exists s. split; [reflexivity|]. apply String.eqb_neq.
    apply negb_true_iff. exact Hall. }
  pose proof (drain_appends token activeTab server fuel 0%N []) as Hd.
  split.
  - destruct (drain token activeTab server fuel 0%N []) as [[[users m]|e]|];
      try exact I.
    apply Hids. exact Hd.
  - intros st. unfold fetchUsers.
    destruct (negb _).
    + cbn [allUsers]. intros u [].
    + cbn [from_option Datatypes.id].
      destruct (drain token activeTab server fuel 0%N []) as [[[users m]|e]|];
        try exact I; cbn [allUsers].
      * apply Hids. exact Hd.
      * intros u [].
Qed.

(** The message set on a response that is not ok is a truthy value. *)
Lemma failureMessage_truthy (response : UsersPage.Response) (message : json) :
  failureMessage response = Returns message -> jsonTruthy message = true.
Proof.
  unfold failureMessage, orJ, bind.
  destruct (N.eqb (UsersPage.status response) 429).
  { intros H. injection H as <-. reflexivity. }
  destruct (getPropOpt (UsersPage.jsonBody response) "message") as [v1|]; [|discriminate].
  destruct (truthyOpt v1) eqn:T1.
  { destruct v1 as [j|]; [|discriminate T1]. intros H. injection H as <-. exact T1. }
  destruct (getPropOpt (UsersPage.jsonBody response) "error") as [v2|]; [|discriminate].
  destruct (truthyOpt v2) eqn:T2.
  { destruct v2 as [j|]; [|discriminate T2]. intros H. injection H as <-. exact T2. }
  intros H. injection H as <-. reflexivity.
Qed.

(** X21 (a refused page ends the drain silently). When the pages before
    the page of index [k] all reported more data and the response to the
    call for that page is not ok, the pass sets a message - a truthy
    value; for status 429 the rate-limit text - and leaves the loop, and
    the statements after the loop clear it: for every bound on the passes
    above [k] the drain ends there with that message, and [fetchUsers]
    ends with the users collected before that page, no error message and
    the loading flag cleared. *)
Theorem refused_page_is_silent
    (token : string) (activeTab : Tab)
    (server : UsersPage.Call -> UsersPage.FetchOutcome) (st : PageState)
    (k : nat) (response : UsersPage.Response) :
  token <> "" ->
  (forall i, i < k -> isMoreData (pageAt token activeTab server i) = true) ->
  server (callFor token activeTab (UsersPage.limit * N.of_nat k)) = UsersPage.Responds response ->
  UsersPage.ok response = false ->
  exists message,
    failureMessage response = Returns message
    /\ jsonTruthy message = true
    /\ pass token activeTab server (UsersPage.limit * N.of_nat k) (collected token activeTab server k)
       = Returns (Break (collected token activeTab server k) message)
    /\ forall fuel, k < fuel ->
         drain token activeTab server fuel 0%N []
         = Some (Returns (collected token activeTab server k, Some message))
         /\ fetchUsers fuel (Some token) activeTab server st
            = Some {| allUsers := collected token activeTab server k;
                      UsersPage.errorMessage := None;
                      isLoading := false; redirected := redirected st |}.
Proof.
  intros Htok Hbefore Hs Hok.
  destruct (failureMessage_returns response) as (message & Hm).
  exists message. split; [exact Hm|].
  assert (pageAt token activeTab server k = NotOk message) as Hpage.
  { unfold pageAt, verdictOf. rewrite Hs, Hok, Hm. reflexivity. }
  split.
  { exact (failureMessage_truthy response message Hm). }
  split.
  { rewrite pass_verdict. fold (pageAt token activeTab server k). rewrite Hpage.
    reflexivity. }
  intros fuel Hfuel.
  assert (drain token activeTab server fuel 0%N []
          = Some (Returns (collected token activeTab server k, Some message))) as Hd.
  { apply (drain_pages token activeTab server fuel 0 []). exists k.
    split; [exact Hfuel|]. split; [exact Hbefore|]. cbn [Nat.add app].
    fold (collected token activeTab server k). rewrite Hpage. reflexivity. }
  split; [exact Hd|].
  unfold fetchUsers. apply String.eqb_neq in Htok. rewrite Htok.
  cbn [negb from_option Datatypes.id]. rewrite Hd. reflexivity.
Qed.

Lemma refused_page_is_silent_witness :
  let first :=
    {| UsersPage.status := 200; retryAfter := None;
       UsersPage.jsonBody :=
         Some (JObj [("data", JObj [("users", JArr [JObj [("id", JStr "u1")]]);
                                    ("pagination", JObj [("hasMore", JBool true)])])]) |} in
  let refusal :=
    {| UsersPage.status := 429; retryAfter := Some "30"; UsersPage.jsonBody := None |} in
  let server := fun call : UsersPage.Call =>
    UsersPage.Responds (if N.eqb (skipParam call) 0 then first else refusal) in
  let st := {| allUsers := []; UsersPage.errorMessage := None;
               isLoading := true; redirected := false |} in
  let u1 := {| UsersPage.id := Some "u1"; UsersPage._id := Some (JStr "u1");
               spread := [("id", JStr "u1")] |} in
  exists message,
    message = JStr "Too many requests. Please wait 30 seconds and try again."
    /\ pass "t" Active server 100 [u1] = Returns (Break [u1] message)
    /\ fetchUsers 2 (Some "t") Active server st
       = Some {| allUsers := [u1]; UsersPage.errorMessage := None;
                 isLoading := false; redirected := false |}.
Proof.
  intros first refusal server st u1.
  destruct (refused_page_is_silent "t" Active server st 1 refusal)
    as (message & Hm & _ & Hpass & Hrun).
  - discriminate.
  - intros i Hi. assert (i = 0) as -> by lia. reflexivity.
  - reflexivity.
  - reflexivity.
  - exists message. split; [injection Hm as <-; reflexivity|].
    split; [exact Hpass|]. exact (proj2 (Hrun 2 (le_n 2))).
Defined.

(** *** The drain against a store *)

Lemma mapE_app {A B} (f : A -> Exc B) (l1 l2 : list A) (r1 r2 : list B) :
  mapE f l1 = Returns r1 -> mapE f l2 = Returns r2 ->
  mapE f (l1 ++ l2) = Returns (r1 ++ r2)%list.
Proof.
  revert r1. induction l1 as [|x l1 IH]; intros r1 H1 H2.
  - injection H1 as <-. exact H2.
  - cbn [mapE app] in *. unfold bind in *.
    destruct (f x) as [y|]; [|discriminate H1].
    destruct (mapE f l1) as [ys|]; [|discriminate H1].
    injection H1 as <-. rewrite (IH ys eq_refl H2). reflexivity.
Qed.

(** A list of entries that all normalize to a user with an id. *)
Lemma mapE_identified (l : list json) :
  Forall (fun j => exists u, normalizeUser j = Returns u /\ hasId u = true) l ->
  exists users,
    mapE normalizeUser l = Returns users
    /\ List.filter hasId users = users
    /\ length users = length l.
Proof.
  induction 1 as [|j l (u & Hu & Hid) _ (users & Hm & Hf & Hl)].
  - exists []. repeat split; reflexivity.
  - exists (u :: users). cbn [mapE]. rewrite Hu, Hm. cbn [bind List.filter length].
    rewrite Hid, Hf, Hl. repeat split; reflexivity.
Qed.

(** One pass against the store: the page at [skip], normalized. *)
Lemma pass_store (token : string) (activeTab : Tab) (store : list json)
    (n : nat) (acc page : list UsersPage.User) :
  mapE normalizeUser (take 100 (drop n store)) = Returns page ->
  List.filter hasId page = page ->
  pass token activeTab (serveStore store) (N.of_nat n) acc
  = if Nat.eqb (length page) 0 then Returns (Done acc)
    else if Nat.ltb (n + 100) (length store) || N.eqb (N.of_nat (length page)) 100
         then Returns (Continue (N.of_nat n + 100) (acc ++ page)%list)
         else Returns (Done (acc ++ page)%list).
Proof.
  intros Hm Hf. unfold pass, serveStore, callFor.
  cbn [skipParam limitParam UsersPage.ok UsersPage.status UsersPage.jsonBody].
  rewrite Nat2N.id.
  change (N.to_nat UsersPage.limit) with 100.
  change (negb ((200 <=? 200)%N && (200 <=? 299)%N)) with false. cbv iota.
  unfold normalizedUsersOf, rawUsersOf, hasMoreFlag, orJ, bind.
  cbn [getProp getPropOpt assoc String.eqb Ascii.eqb Bool.eqb truthyOpt jsonTruthy
       from_option Datatypes.id].
  rewrite Hm, Hf. reflexivity.
Qed.

Lemma drain_store (token : string) (activeTab : Tab) (store : list json)
    (users : list UsersPage.User) :
  Forall (fun j => exists u, normalizeUser j = Returns u /\ hasId u = true) store ->
  mapE normalizeUser store = Returns users ->
  forall (n k : nat) (acc : list UsersPage.User),
    mapE normalizeUser (take (100 * k) store) = Returns acc ->
    length store <= 100 * k + 100 * n ->
    drain token activeTab (serveStore store) (S n) (N.of_nat (100 * k)) acc
    = Some (Returns (users, None)).
Proof.
  intros Hvalid Hall. induction n as [|n IH]; intros k acc Hacc Hlen.
  - cbn [drain].
    assert (take 100 (drop (100 * k) store) = []) as Hpage.
    { rewrite drop_ge by lia. apply take_nil. }
    rewrite (pass_store token activeTab store (100 * k) acc []);
      [|rewrite Hpage; reflexivity | reflexivity].
    cbn [length Nat.eqb]. rewrite take_ge in Hacc by lia.
    rewrite Hall in Hacc. injection Hacc as <-. reflexivity.
  - assert (Forall (fun j => exists u, normalizeUser j = Returns u /\ hasId u = true)
              (take 100 (drop (100 * k) store))) as Hsub.
    { apply Forall_take, Forall_drop. exact Hvalid. }
    destruct (mapE_identified _ Hsub) as (page & Hm & Hf & Hl).
    assert (mapE normalizeUser (take (100 * S k) store) = Returns (acc ++ page)%list)
      as Hnext.
    { replace (100 * S k) with (100 * k + 100) by lia.
      rewrite <- (take_take_drop store (100 * k) 100).
      apply mapE_app; assumption. }
    cbn [drain]. rewrite (pass_store token activeTab store (100 * k) acc page Hm Hf).
    destruct (Nat.eqb_spec (length page) 0) as [Hz|Hnz].
    + assert (length store <= 100 * k) as Hshort.
      { rewrite Hl, length_take, length_drop in Hz. lia. }
      rewrite take_ge in Hacc by lia.
      rewrite Hall in Hacc. injection Hacc as <-. reflexivity.
    + destruct (Nat.ltb_spec (100 * k + 100) (length store)) as [Hmore|Hlast];
        cbn [orb].
      * replace (N.of_nat (100 * k) + 100)%N with (N.of_nat (100 * S k)) by lia.
        apply IH; [exact Hnext | lia].
      * destruct (N.eqb_spec (N.of_nat (length page)) 100) as [Hfull|Hpart].
        -- replace (N.of_nat (100 * k) + 100)%N with (N.of_nat (100 * S k)) by lia.
           apply IH; [exact Hnext | lia].
        -- rewrite take_ge in Hnext by lia.
           rewrite Hall in Hnext. injection Hnext as <-. reflexivity.
Qed.

(** X22 (the drain collects the whole store). Against a backend that
    holds finitely many users, serves them by windows of [limit] from
    [skip] and flags honestly whether more follow, when every stored
    entry has a usable [id] or [_id] the drain ends without an error
    message and has collected every user of the store, once each and in
    the order of the store, normalized; so does [fetchUsers]. *)
Theorem drain_collects_store
    (token : string) (activeTab : Tab) (store : list json) :
  Forall (fun j => exists u, normalizeUser j = Returns u /\ hasId u = true) store ->
  exists users,
    mapE normalizeUser store = Returns users
    /\ length users = length store
    /\ forall fuel,
         length store / 100 + 2 <= fuel ->
         drain token activeTab (serveStore store) fuel 0%N [] = Some (Returns (users, None))
         /\ (token <> "" ->
             forall st,
               fetchUsers fuel (Some token) activeTab (serveStore store) st
               = Some {| allUsers := users; UsersPage.errorMessage := None;
                         isLoading := false; redirected := redirected st |}).
Proof.
  intros Hvalid.
  destruct (mapE_identified store Hvalid) as (users & Hall & _ & Hl).
  exists users. split; [exact Hall|]. split; [exact Hl|].
  intros fuel Hfuel.
  assert (drain token activeTab (serveStore store) fuel 0%N []
          = Some (Returns (users, None))) as Hd.
  { intros.
    apply (drain_more_fuel token activeTab (serveStore store)
             (S (length store / 100 + 1))); [|lia].
    change 0%N with (N.of_nat (100 * 0)).
    apply (drain_store token activeTab store users Hvalid Hall).
    - reflexivity.
    - pose proof (Nat.div_mod_eq (length store) 100) as Hdm.
      pose proof (Nat.mod_upper_bound (length store) 100) as Hmod. lia. }
  split; [apply Hd|].
  intros Htok st. unfold fetchUsers. apply String.eqb_neq in Htok. rewrite Htok.
  cbn [negb from_option Datatypes.id]. rewrite Hd. reflexivity.
Qed.

Lemma drain_collects_store_witness :
  let store := [JObj [("id", JStr "u1"); ("email", JStr "a@x")];
                JObj [("_id", JStr "u2")]] in
  Forall (fun j => exists u, normalizeUser j = Returns u /\ hasId u = true) store
  /\ exists users,
       mapE normalizeUser store = Returns users
       /\ length users = 2
       /\ drain "t" Active (serveStore store) 2 0%N [] = Some (Returns (users, None)).
Proof.
  intros store.
  assert (Forall (fun j => exists u, normalizeUser j = Returns u /\ hasId u = true)
            store) as Hvalid.
  { repeat constructor; eexists; split; reflexivity. }
  split; [exact Hvalid|].
  destruct (drain_collects_store "t" Active store Hvalid) as (users & Hall & Hl & Hd).
  exists users. split; [exact Hall|]. split; [exact Hl|].
  exact (proj1 (Hd 2 ltac:(vm_compute; lia))).
Defined.

(** ** The changed fields of the edit form *)

Section FormFacts.
Variable V : Type.
Variable strictEq : V -> V -> bool.
Variable original : string -> option V.

Lemma inputs_app (before after : list (string * option V))
    (st : EditUserModal.FormState V) :
  EditUserModal.inputs V strictEq original (before ++ after) st
  = EditUserModal.inputs V strictEq original after
      (EditUserModal.inputs V strictEq original before st).
Proof. unfold EditUserModal.inputs. apply fold_left_app. Qed.

(** Membership in the set after one input. *)
Lemma changed_after_input (f : string) (v : option V)
    (st : EditUserModal.FormState V) (field : string) :
  field ∈ EditUserModal.changedFields V
            (EditUserModal.handleInputChange V strictEq original f v st)
  <-> (field = f /\ EditUserModal.strictEqOpt V strictEq v (original f) = false)
      \/ (field <> f /\ field ∈ EditUserModal.changedFields V st).
Proof.
  unfold EditUserModal.handleInputChange. cbn [EditUserModal.changedFields].
  destruct (EditUserModal.strictEqOpt V strictEq v (original f)); cbn [negb].
  - rewrite elem_of_difference, elem_of_singleton.
    split; [intros [H1 H2]; right; tauto | intros [[_ H]|[H1 H2]]; [discriminate H | tauto]].
  - rewrite elem_of_union, elem_of_singleton.
    destruct (decide (field = f)); tauto.
Qed.

(** Inputs to other fields leave a field as it is. *)
Lemma inputs_untouched (events : list (string * option V)) (field : string) :
  ~ In field (map fst events) ->
  forall st : EditUserModal.FormState V,
    EditUserModal.formData V (EditUserModal.inputs V strictEq original events st)
      !! field
    = EditUserModal.formData V st !! field
    /\ (field ∈ EditUserModal.changedFields V
                  (EditUserModal.inputs V strictEq original events st)
        <-> field ∈ EditUserModal.changedFields V st).
Proof.
  induction events as [|[f v] events IH]; intros Hout st.
  - split; reflexivity.
  - cbn [map fst In] in Hout.
    assert (f <> field) as Hne by tauto.
    assert (~ In field (map fst events)) as Hrest by tauto.
    change (EditUserModal.inputs V strictEq original ((f, v) :: events) st)
      with (EditUserModal.inputs V strictEq original events
              (EditUserModal.handleInputChange V strictEq original f v st)).
    destruct (IH Hrest (EditUserModal.handleInputChange V strictEq original f v st))
      as [Hdata Hmem].
    split.
    + rewrite Hdata. cbn [EditUserModal.handleInputChange EditUserModal.formData].
      apply lookup_insert_ne. exact Hne.
    + rewrite Hmem, changed_after_input.
      split; [intros [[E _]|[_ H]]; [congruence | exact H]
             | intros H; right; split; [congruence | exact H]].
Qed.

End FormFacts.

(** X23 (changed fields of the edit form). After a sequence of inputs
    in the edit form, the form holds for a field the value of the last
    input to that field, and the field is counted as changed exactly
    when that value differs ([!==]) from the user's original value:
    typing a second value replaces the first, and typing the original
    value back takes the field out of the set. A field that got no input
    keeps its value and stays in or out of the set as it was. *)
Theorem changed_fields_tracking
    (V : Type) (strictEq : V -> V -> bool) (original : string -> option V) :
  (forall (before after : list (string * option V)) (field : string) (value : option V)
          (st : EditUserModal.FormState V),
     ~ In field (map fst after) ->
     let st' := EditUserModal.inputs V strictEq original
                  (before ++ (field, value) :: after) st in
     EditUserModal.formData V st' !! field = Some value
     /\ (field ∈ EditUserModal.changedFields V st'
         <-> EditUserModal.strictEqOpt V strictEq value (original field) = false))
  /\ (forall (events : list (string * option V)) (field : string)
             (st : EditUserModal.FormState V),
        ~ In field (map fst events) ->
        let st' := EditUserModal.inputs V strictEq original events st in
        EditUserModal.formData V st' !! field = EditUserModal.formData V st !! field
        /\ (field ∈ EditUserModal.changedFields V st'
            <-> field ∈ EditUserModal.changedFields V st))
  /\ (forall (field : string) (value : option V) (st : EditUserModal.FormState V),
        EditUserModal.strictEqOpt V strictEq value (original field) = true ->
        field ∉ EditUserModal.changedFields V
                  (EditUserModal.handleInputChange V strictEq original field value st)).
Proof.
  split; [|split].
  - intros before after field value st Hlast. cbv zeta.
    rewrite inputs_app.
    change (EditUserModal.inputs V strictEq original ((field, value) :: after)
              (EditUserModal.inputs V strictEq original before st))
      with (EditUserModal.inputs V strictEq original after
              (EditUserModal.handleInputChange V strictEq original field value
                 (EditUserModal.inputs V strictEq original before st))).
    destruct (inputs_untouched V strictEq original after field Hlast
                (EditUserModal.handleInputChange V strictEq original field value
                   (EditUserModal.inputs V strictEq original before st)))
      as [Hdata Hmem].
    split.
    + rewrite Hdata. cbn [EditUserModal.handleInputChange EditUserModal.formData].
      apply lookup_insert_eq.
    + rewrite Hmem, changed_after_input.
      split; [intros [[_ H]|[H _]]; [exact H | exfalso; apply H; reflexivity]
             | intros H; left; split; [reflexivity | exact H]].
  - intros events field st Hout. cbv zeta.
    apply inputs_untouched. exact Hout.
  - intros field value st Heq. rewrite changed_after_input. rewrite Heq.
    intros [[_ H]|[H _]]; [discriminate H | apply H; reflexivity].
Qed.

Lemma changed_fields_tracking_witness :
  let original := fun field : string =>
    if String.eqb field "firstName" then Some "Ann" else None in
  let st := {| EditUserModal.formData := ∅; EditUserModal.changedFields := ∅ |} in
  let typed := EditUserModal.inputs string String.eqb original
                 [("firstName", Some "Bob"); ("email", Some "b@x");
                  ("firstName", Some "Carl")] st in
  let back := EditUserModal.inputs string String.eqb original
                [("firstName", Some "Bob"); ("firstName", Some "Ann")] st in
  EditUserModal.formData string typed !! "firstName" = Some (Some "Carl")
  /\ "firstName" ∈ EditUserModal.changedFields string typed
  /\ EditUserModal.formData string back !! "firstName" = Some (Some "Ann")
  /\ "firstName" ∉ EditUserModal.changedFields string back.
Proof.
  intros original st typed back.
  destruct (changed_fields_tracking string String.eqb original) as (Hlast & _ & _).
  destruct (Hlast [("firstName", Some "Bob"); ("email", Some "b@x")] []
              "firstName" (Some "Carl") st (fun H => H)) as [Hdata Hmem].
  destruct (Hlast [("firstName", Some "Bob")] []
              "firstName" (Some "Ann") st (fun H => H)) as [Hdata' Hmem'].
  split; [exact Hdata|]. split; [apply Hmem; reflexivity|].
  split; [exact Hdata'|]. intros Hin. apply Hmem' in Hin. discriminate Hin.
Defined.

(** ** Bulk actions of the listing *)

Section BulkFacts.
Variable backendUrl : string.
Variable token : option string.
Variable backend : nat -> ListingPage.Call -> ListingPage.FetchOutcome.
Variable action : string.

(** The calls of the loop are those of a prefix of the selection, in its
    order. *)
Lemma bulkLoop_prefix (selected : list string) :
  forall index : nat,
    exists k,
      k <= length selected
      /\ fst (bulkLoop backendUrl token backend action index selected)
         = map Fetch (map (bulkCall backendUrl token action) (take k selected))
      /\ (snd (bulkLoop backendUrl token backend action index selected) = false ->
          k = length selected)
      /\ (snd (bulkLoop backendUrl token backend action index selected) = true ->
          1 <= k).
Proof.
  induction selected as [|requestId rest IH]; intros index.
  - exists 0. repeat split; try reflexivity. discriminate.
  - cbn [bulkLoop].
    assert (exists k,
              k <= length (requestId :: rest)
              /\ fst ([Fetch (bulkCall backendUrl token action requestId)], true)
                 = map Fetch (map (bulkCall backendUrl token action)
                                (take k (requestId :: rest)))
              /\ (snd ([Fetch (bulkCall backendUrl token action requestId)], true)
                  = false -> k = length (requestId :: rest))
              /\ (snd ([Fetch (bulkCall backendUrl token action requestId)], true)
                  = true -> 1 <= k)) as Hthrow.
    { exists 1. cbn [length take map fst snd].
      repeat split; try reflexivity; try lia; try discriminate. }
    assert (exists k,
              k <= length (requestId :: rest)
              /\ fst (let '(effects, threw) :=
                        bulkLoop backendUrl token backend action (S index) rest in
                      (Fetch (bulkCall backendUrl token action requestId) :: effects,
                       threw))
                 = map Fetch (map (bulkCall backendUrl token action)
                                (take k (requestId :: rest)))
              /\ (snd (let '(effects, threw) :=
                         bulkLoop backendUrl token backend action (S index) rest in
                       (Fetch (bulkCall backendUrl token action requestId) :: effects,
                        threw)) = false -> k = length (requestId :: rest))
              /\ (snd (let '(effects, threw) :=
                         bulkLoop backendUrl token backend action (S index) rest in
                       (Fetch (bulkCall backendUrl token action requestId) :: effects,
                        threw)) = true -> 1 <= k)) as Hgo.
    { destruct (IH (S index)) as (k & Hk & Hcalls & Hdone & _).
      destruct (bulkLoop backendUrl token backend action (S index) rest)
        as [effects threw].
      cbn [fst snd] in *. exists (S k). cbn [length take map].
      rewrite Hcalls. repeat split; try lia.
      intros H. rewrite (Hdone H). reflexivity. }
    destruct (backend index _) as [answer|]; [|exact Hthrow].
    destruct (answerOk answer); [exact Hgo|].
    destruct (ListingPage.jsonBody answer) as [errorData|]; [|exact Hthrow].
    destruct (getProp errorData "message"); [exact Hgo | exact Hthrow].
Qed.

(** The loop runs through when every call is answered, by a success or
    by a refusal whose body is JSON other than [null]. *)
Lemma bulkLoop_through (selected : list string) :
  forall index : nat,
    (forall i requestId,
       nth_error selected i = Some requestId ->
       exists answer,
         backend (index + i) (bulkCall backendUrl token action requestId)
         = ListingPage.Responds answer
         /\ (answerOk answer = true
             \/ exists data, ListingPage.jsonBody answer = Some data /\ data <> JNull)) ->
    bulkLoop backendUrl token backend action index selected
    = (map Fetch (map (bulkCall backendUrl token action) selected), false).
Proof.
  induction selected as [|requestId rest IH]; intros index Hall; [reflexivity|].
  cbn [bulkLoop map].
  destruct (Hall 0 requestId eq_refl) as (answer & Hb & Hans).
  rewrite Nat.add_0_r in Hb. rewrite Hb.
  rewrite (IH (S index)).
  2:{ intros i r Hi. destruct (Hall (S i) r Hi) as (a & Ha & Hok).
      exists a. split; [|exact Hok]. rewrite <- Ha. f_equal. lia. }
  destruct (answerOk answer) eqn:Hok; [reflexivity|].
  destruct Hans as [H|(data & Hdata & Hnn)]; [discriminate H|].
  rewrite Hdata. destruct data; try reflexivity. contradiction.
Qed.

(** The loop stops at the first call that fails or whose refusal cannot
    be read, having made the calls up to it. *)
Lemma bulkLoop_stops (selected : list string) :
  forall (index i : nat) (requestId : string),
    nth_error selected i = Some requestId ->
    (forall j r,
       j < i -> nth_error selected j = Some r ->
       exists answer,
         backend (index + j) (bulkCall backendUrl token action r)
         = ListingPage.Responds answer
         /\ (answerOk answer = true
             \/ exists data, ListingPage.jsonBody answer = Some data /\ data <> JNull)) ->
    (backend (index + i) (bulkCall backendUrl token action requestId)
     = ListingPage.FetchFails
     \/ exists answer,
          backend (index + i) (bulkCall backendUrl token action requestId)
          = ListingPage.Responds answer
          /\ answerOk answer = false
          /\ (ListingPage.jsonBody answer = None
              \/ ListingPage.jsonBody answer = Some JNull)) ->
    bulkLoop backendUrl token backend action index selected
    = (map Fetch (map (bulkCall backendUrl token action) (take (S i) selected)), true).
Proof.
  induction selected as [|first rest IH]; intros index i requestId Hi Hbefore Hfail.
  - destruct i; discriminate Hi.
  - destruct i as [|i].
    + injection Hi as ->. rewrite Nat.add_0_r in Hfail. cbn [bulkLoop take map].
      destruct Hfail as [-> | (answer & -> & Hok & Hbody)]; [reflexivity|].
      rewrite Hok. destruct Hbody as [-> | ->]; reflexivity.
    + cbn [nth_error] in Hi. cbn [bulkLoop].
      destruct (Hbefore 0 first ltac:(lia) eq_refl) as (answer & Hb & Hans).
      rewrite Nat.add_0_r in Hb. rewrite Hb.
      rewrite (IH (S index) i requestId Hi).
      * cbn [take map]. destruct (answerOk answer) eqn:Hok; [reflexivity|].
        destruct Hans as [H|(data & Hdata & Hnn)]; [discriminate H|].
        rewrite Hdata. destruct data; try reflexivity. contradiction.
      * intros j r Hj Hr. destruct (Hbefore (S j) r ltac:(lia) Hr) as (a & Ha & Hok).
        exists a. split; [|exact Hok]. rewrite <- Ha. f_equal. lia.
      * replace (S index + i) with (index + S i) by lia. exact Hfail.
Qed.

End BulkFacts.

(** X24 (bulk actions). With an empty selection a bulk action only
    alerts, and when the confirmation is declined it does nothing. Once
    confirmed, it calls the backend for the selected requests in the
    order of the selection, one call each, without consulting the
    evaluator; the calls made are those of a prefix of the selection. At
    the first call that fails, or that is refused with a body that is
    not JSON or is [null], the run stops: it has made the calls up to
    that one, alerts the failure and keeps the selection. If every call is
    answered - by a success or by a refusal with a JSON body, a 403 for
    instance - the run calls for every selected request, clears the
    selection, refreshes the list and alerts that the bulk action is
    completed: a refusal is not reported to the user. *)
Theorem bulk_action_runs
    (backendUrl : string) (token : option string)
    (backend : nat -> ListingPage.Call -> ListingPage.FetchOutcome)
    (selectedRequests : list string) (confirmed : bool) (action : string) :
  let result :=
    handleBulkAction backendUrl token backend selectedRequests confirmed action in
  let callsFor := fun ids : list string =>
    map Fetch (map (bulkCall backendUrl token action) ids) in
  (selectedRequests = [] ->
   result = ([Alert (JStr "Please select at least one project request")], []))
  /\ (selectedRequests <> [] -> confirmed = false -> result = ([], selectedRequests))
  /\ (selectedRequests <> [] -> confirmed = true ->
      exists k,
        1 <= k <= length selectedRequests
        /\ (result
            = ((callsFor (take k selectedRequests)
                ++ [Alert (JStr ("Failed to perform bulk " +:+ action))])%list,
               selectedRequests)
            \/ (k = length selectedRequests
                /\ result
                   = ((callsFor selectedRequests
                       ++ [Refresh; Alert (JStr ("Bulk " +:+ action +:+ " completed"))])%list,
                      []))))
  /\ (selectedRequests <> [] -> confirmed = true ->
      (forall i requestId,
         nth_error selectedRequests i = Some requestId ->
         exists answer,
           backend i (bulkCall backendUrl token action requestId)
           = ListingPage.Responds answer
           /\ (answerOk answer = true
               \/ exists data, ListingPage.jsonBody answer = Some data /\ data <> JNull)) ->
      result
      = ((callsFor selectedRequests
          ++ [Refresh; Alert (JStr ("Bulk " +:+ action +:+ " completed"))])%list,
         []))
  /\ (selectedRequests <> [] -> confirmed = true ->
      forall i requestId,
        nth_error selectedRequests i = Some requestId ->
        (forall j r,
           j < i -> nth_error selectedRequests j = Some r ->
           exists answer,
             backend j (bulkCall backendUrl token action r)
             = ListingPage.Responds answer
             /\ (answerOk answer = true
                 \/ exists data, ListingPage.jsonBody answer = Some data
                                 /\ data <> JNull)) ->
        (backend i (bulkCall backendUrl token action requestId)
         = ListingPage.FetchFails
         \/ exists answer,
              backend i (bulkCall backendUrl token action requestId)
              = ListingPage.Responds answer
              /\ answerOk answer = false
              /\ (ListingPage.jsonBody answer = None
                  \/ ListingPage.jsonBody answer = Some JNull)) ->
        result
        = ((callsFor (take (S i) selectedRequests)
            ++ [Alert (JStr ("Failed to perform bulk " +:+ action))])%list,
           selectedRequests)).
Proof.
  cbv zeta. unfold handleBulkAction.
  split; [|split; [|split; [|split]]].
  - intros ->. reflexivity.
  - intros Hne ->. destruct selectedRequests; [contradiction | reflexivity].
  - intros Hne ->. destruct selectedRequests as [|r rest] eqn:Hsel; [contradiction|].
    rewrite <- Hsel in *. replace (Nat.eqb (length selectedRequests) 0) with false
      by (rewrite Hsel; reflexivity).
    cbn [negb].
    destruct (bulkLoop_prefix backendUrl token backend action selectedRequests 0)
      as (k & Hk & Hcalls & Hdone & Hthrew).
    destruct (bulkLoop backendUrl token backend action 0 selectedRequests)
      as [calls threw].
    cbn [fst snd] in *. subst calls. destruct threw.
    + exists k. split; [split; [apply Hthrew; reflexivity | exact Hk]|].
      left. reflexivity.
    + exists k. rewrite (Hdone eq_refl) at 1 2.
      split; [rewrite Hsel; cbn [length]; lia|]. right.
      split; [exact (Hdone eq_refl)|].
      rewrite (Hdone eq_refl), firstn_all. reflexivity.
  - intros Hne -> Hall. destruct selectedRequests as [|r rest] eqn:Hsel; [contradiction|].
    rewrite <- Hsel in *. replace (Nat.eqb (length selectedRequests) 0) with false
      by (rewrite Hsel; reflexivity).
    cbn [negb].
    rewrite (bulkLoop_through backendUrl token backend action selectedRequests 0 Hall).
    reflexivity.
  - intros Hne -> i requestId Hi Hbefore Hfail.
    destruct selectedRequests as [|r rest] eqn:Hsel; [contradiction|].
    rewrite <- Hsel in *. replace (Nat.eqb (length selectedRequests) 0) with false
      by (rewrite Hsel; reflexivity).
    cbn [negb].
    rewrite (bulkLoop_stops backendUrl token backend action selectedRequests 0 i
               requestId Hi Hbefore Hfail).
    reflexivity.
Qed.

Lemma bulk_action_runs_witness :
  let refused := fun (_ : nat) (_ : ListingPage.Call) =>
    ListingPage.Responds
      {| answerStatus := 403;
         ListingPage.jsonBody :=
           Some (JObj [("success", JBool false); ("message", JStr "Forbidden")]) |} in
  let down := fun (_ : nat) (_ : ListingPage.Call) => ListingPage.FetchFails in
  handleBulkAction "https://b" (Some "t") refused ["r1"; "r2"] true "approve"
  = ([Fetch (bulkCall "https://b" (Some "t") "approve" "r1");
      Fetch (bulkCall "https://b" (Some "t") "approve" "r2");
      Refresh; Alert (JStr "Bulk approve completed")],
     [])
  /\ handleBulkAction "https://b" (Some "t") down ["r1"; "r2"] true "approve"
     = ([Fetch (bulkCall "https://b" (Some "t") "approve" "r1");
         Alert (JStr "Failed to perform bulk approve")],
        ["r1"; "r2"]).
Proof.
  intros refused down. split.
  - pose proof (bulk_action_runs "https://b" (Some "t") refused ["r1"; "r2"] true
                  "approve") as H.
    cbv zeta in H. destruct H as (_ & _ & _ & H & _).
    rewrite H; [reflexivity | discriminate | reflexivity |].
    intros i requestId Hi. eexists. split; [reflexivity|].
    right. eexists. split; [reflexivity | discriminate].
  - pose proof (bulk_action_runs "https://b" (Some "t") down ["r1"; "r2"] true
                  "approve") as H.
    cbv zeta in H. destruct H as (_ & _ & _ & _ & H).
    rewrite (H ltac:(discriminate) eq_refl 0 "r1" eq_refl); [reflexivity | |].
    + intros j r Hj. inversion Hj.
    + left. reflexivity.
Defined.
